(** * adobeanalytics2: a shallow embedding of the Adobe Analytics 2.0 connector

    The development follows [src/adobeanalytics2/adobeanalytics2.py].

    - Python values that only travel through the client (item ids, dimension
      values, metric values) are kept as data; text is ASCII text.
    - The remote services are oracles: [http_get] answers a GET of a metadata
      URL, [api] answers the POST of a report body.  The report calls run in
      a writer-and-error monad whose log is the list of bodies POSTed, in
      order.
    - The pandas operations the client uses ([.loc] assignment with
      enlargement, [append], [merge], [drop]) are modelled on labelled
      rectangular frames. *)

From Stdlib Require Import String Ascii List ZArith Lia Bool Arith.
From Stdlib Require Import Numbers.DecimalString.
Import ListNotations.
Open Scope string_scope.
Open Scope list_scope.

(** ** Python exceptions and results *)

Inductive exn : Type :=
| PyException (msg : string)     (* raise Exception(msg) *)
| AssertionError (msg : string)  (* a failed assert *)
| AttributeError (msg : string)  (* attribute access on None *)
| KeyError (key : string)        (* missing column label, or what pandas says of it *)
| IndexError (msg : string)      (* list index out of range *)
| OutsideModel (what : string).  (* a pattern the regex fragment below does not cover *)

Inductive result (A : Type) : Type :=
| Ok (a : A)
| Raise (e : exn).
Arguments Ok {A} a.
Arguments Raise {A} e.

(** Arguments whose Python type the code inspects at run time. *)
Inductive pyobj : Type :=
| PyNone
| PyStr (s : string)
| PyInt (n : Z)
| PyList (items : list string).

Module Py.

(** [str.lower] on ASCII text. *)
Definition lower_ascii (c : ascii) : ascii :=
  let n := nat_of_ascii c in
  if ((65 <=? n) && (n <=? 90))%nat then ascii_of_nat (n + 32) else c.

Fixpoint lower (s : string) : string :=
  match s with
  | EmptyString => EmptyString
  | String c s' => String (lower_ascii c) (lower s')
  end.

(** [str.isascii]: every character has a code below 128.  On such text a
    byte is a character and [lower] is [str.lower]. *)
Fixpoint isascii (s : string) : bool :=
  match s with
  | EmptyString => true
  | String c s' => (nat_of_ascii c <? 128)%nat && isascii s'
  end.

(** Truth value of a string, of an optional string and of a list. *)
Definition truthy_str (s : string) : bool := negb (String.eqb s "").

Definition truthy_opt (o : option string) : bool :=
  match o with None => false | Some s => truthy_str s end.

Definition truthy_list {A : Type} (l : list A) : bool :=
  match l with [] => false | _ :: _ => true end.

(** [x in l] for a list of strings. *)
Definition isin (x : string) (l : list string) : bool :=
  existsb (String.eqb x) l.

(** [sep.join(l)]. *)
Definition join (sep : string) (l : list string) : string :=
  String.concat sep l.

(** [str(n)] / [f'{n}'] for an integer. *)
Definition str_of_int (n : Z) : string :=
  NilZero.string_of_int (Z.to_int n).

(** A dict with string keys, in insertion order.  Assigning to a key that
    is present replaces the value and keeps the key's position. *)
Definition dict (V : Type) : Type := list (string * V).

Fixpoint dict_set {V : Type} (d : dict V) (k : string) (v : V) : dict V :=
  match d with
  | [] => [(k, v)]
  | (k', v') :: d' =>
      if String.eqb k k' then (k', v) :: d' else (k', v') :: dict_set d' k v
  end.

Fixpoint dict_get {V : Type} (d : dict V) (k : string) : option V :=
  match d with
  | [] => None
  | (k', v') :: d' => if String.eqb k k' then Some v' else dict_get d' k
  end.

Definition dict_keys {V : Type} (d : dict V) : list string := map fst d.

End Py.

(** ** The fragment of Python's [re] that [str.contains] is used with

    [get_dimensions] and [get_metrics] hand ["|".join(search_terms)] to
    pandas' [Series.str.contains(pat, case=False)], which compiles [pat] as a
    regular expression with [re.IGNORECASE] and keeps the names in which
    [re.search] finds a match.  The fragment modelled: alternation [|] of
    sequences of literal characters and of [.] (any character but a newline).
    Patterns that use another operator are outside the fragment. *)
Module Re.

Inductive atom : Type :=
| Lit (c : ascii)
| AnyChar.

Definition regex : Type := list (list atom).

Definition is_operator (c : ascii) : bool :=
  existsb (Ascii.eqb c) (list_ascii_of_string "\^$*+?{}[]()").

Definition parse_atom (c : ascii) : option atom :=
  if Ascii.eqb c "."%char then Some AnyChar
  else if is_operator c then None
  else Some (Lit c).

(** The branches of the alternation, left to right. *)
Fixpoint compile (pat : string) : option regex :=
  match pat with
  | EmptyString => Some [[]]
  | String c pat' =>
      match compile pat' with
      | None => None
      | Some branches =>
          if Ascii.eqb c "|"%char then Some ([] :: branches)
          else
            match parse_atom c, branches with
            | Some a, b :: bs => Some ((a :: b) :: bs)
            | _, _ => None
            end
      end
  end.

(** Matching with [re.IGNORECASE] on ASCII text. *)
Definition atom_matches (a : atom) (c : ascii) : bool :=
  match a with
  | Lit x => Ascii.eqb (Py.lower_ascii x) (Py.lower_ascii c)
  | AnyChar => negb (Ascii.eqb c "010"%char)
  end.

Fixpoint match_here (atoms : list atom) (s : string) : bool :=
  match atoms with
  | [] => true
  | a :: atoms' =>
      match s with
      | EmptyString => false
      | String c s' => atom_matches a c && match_here atoms' s'
      end
  end.

(** [re.search]: some branch matches at some position. *)
Fixpoint search (r : regex) (s : string) : bool :=
  existsb (fun b => match_here b s) r
  || match s with
     | EmptyString => false
     | String _ s' => search r s'
     end.

End Re.

(** ** Metadata rows

    A dimension, metric, calculated metric or segment as the API lists it:
    its id, its name and whatever other fields the service sends. *)
Record MetaRow : Type := mkMetaRow {
  m_id : string;
  m_name : string;
  m_extra : list (string * string)
}.

(** [df[["id", "name"]]]: the projection on the two columns. *)
Definition id_name (r : MetaRow) : MetaRow :=
  mkMetaRow (m_id r) (m_name r) [].

(** [self.__rsid] *)
Definition rsid : string := "<YOUR RSID>".

Section MetadataClient.

(** [self.__base_url] and the metadata service. *)
Variable base_url : string.
Variable http_get : string -> list MetaRow.

(** [res_df[mask][["id", "name"]]] *)
Definition select_by_name (res_df : list MetaRow) (keep : string -> bool)
  : list MetaRow :=
  map id_name (filter (fun r => keep (m_name r)) res_df).

(** The body shared, word for word, by [get_dimensions] and [get_metrics]
    once the listing [res_df] is fetched.  [res_df['name']] needs the
    column [name], and a frame built from an empty list has no columns. *)
Definition filter_listing (res_df : list MetaRow)
    (search_terms : list string) (exact : bool) : result (list MetaRow) :=
  if (List.length search_terms =? 0)%nat then Ok res_df
  else if exact then
    let search_dims := map Py.lower search_terms in
    match res_df with
    | [] => Raise (KeyError "name")
    | _ :: _ =>
        Ok (select_by_name res_df
              (fun name => Py.isin (Py.lower name) search_dims))
    end
  else
    let search_dims := Py.join "|" search_terms in
    match res_df with
    | [] => Raise (KeyError "name")
    | _ :: _ =>
        match Re.compile search_dims with
        | None => Raise (OutsideModel search_dims)
        | Some r => Ok (select_by_name res_df (Re.search r))
        end
    end.

Definition dimensions_url : string :=
  (base_url ++ "/dimensions/?rsid=" ++ rsid)%string.

Definition metrics_url : string :=
  (base_url ++ "/metrics/?rsid=" ++ rsid)%string.

Definition get_dimensions (search_terms : list string) (exact : bool)
  : result (list MetaRow) :=
  filter_listing (http_get dimensions_url) search_terms exact.

Definition get_metrics (search_terms : list string) (exact : bool)
  : result (list MetaRow) :=
  filter_listing (http_get metrics_url) search_terms exact.

Definition calculated_metrics_url (limit : Z) : string :=
  (base_url ++ "/calculatedmetrics/?rsid=" ++ rsid
     ++ "&includeType=all&limit=" ++ Py.str_of_int limit)%string.

Definition segments_url (limit : Z) : string :=
  (base_url ++ "/segments?rsids=" ++ rsid
     ++ "&includeType=all&limit=" ++ Py.str_of_int limit)%string.

(** [assert isinstance(search_term, str)] lets text through and nothing
    else; the default of [search_term] is [None], written [PyNone] here. *)
Definition get_calculated_metrics (search_term : pyobj) (limit : Z)
  : result (list MetaRow) :=
  match search_term with
  | PyStr s =>
      let url := calculated_metrics_url limit in
      let url := if Py.truthy_str s then (url ++ "&name=" ++ s)%string else url in
      Ok (http_get url)
  | _ => Raise (AssertionError "Search term must be a string.")
  end.

Definition get_segments (search_term : pyobj) (limit : Z)
  : result (list MetaRow) :=
  match search_term with
  | PyStr s =>
      let url := segments_url limit in
      let url := if Py.truthy_str s then (url ++ "&name=" ++ s)%string else url in
      Ok (http_get url)
  | _ => Raise (AssertionError "Search term must be a string.")
  end.

End MetadataClient.

(** ** The pandas frames the report assembler builds *)
Module Pandas.

Inductive value : Type :=
| VStr (s : string)
| VNum (n : Z).

(** A cell; [None] is a missing value (NaN). *)
Definition cell : Type := option value.

Definition value_eqb (a b : value) : bool :=
  match a, b with
  | VStr s, VStr t => String.eqb s t
  | VNum n, VNum m => Z.eqb n m
  | _, _ => false
  end.

Definition cell_eqb (a b : cell) : bool :=
  match a, b with
  | Some x, Some y => value_eqb x y
  | None, None => true
  | _, _ => false
  end.

(** Column labels, and the rows with their index label. *)
Record DataFrame : Type := mkDataFrame {
  df_columns : list string;
  df_rows : list (nat * list cell)
}.

(** [pd.DataFrame()] *)
Definition empty : DataFrame := mkDataFrame [] [].

Definition has_column (df : DataFrame) (c : string) : bool :=
  Py.isin c (df_columns df).

Definition has_label (df : DataFrame) (j : nat) : bool :=
  existsb (Nat.eqb j) (map fst (df_rows df)).

(** The cell of a row under the column [c]. *)
Fixpoint row_get (cols : list string) (cells : list cell) (c : string) : cell :=
  match cols, cells with
  | c' :: cols', x :: cells' =>
      if String.eqb c c' then x else row_get cols' cells' c
  | _, _ => None
  end.

Fixpoint row_set (cols : list string) (cells : list cell) (c : string)
    (v : value) : list cell :=
  match cols, cells with
  | c' :: cols', x :: cells' =>
      if String.eqb c c' then Some v :: cells'
      else x :: row_set cols' cells' c v
  | _, _ => cells
  end.

(** [df.loc[j, col] = v], with enlargement: a column or a row label that
    is not there yet is added, filled with NaN. *)
Definition loc_set (df : DataFrame) (j : nat) (col : string) (v : value)
  : DataFrame :=
  let new_col := negb (has_column df col) in
  let cols := if new_col then df_columns df ++ [col] else df_columns df in
  let rows :=
    if new_col
    then map (fun r => (fst r, snd r ++ [None])) (df_rows df)
    else df_rows df in
  let rows :=
    if has_label df j then rows
    else rows ++ [(j, repeat None (List.length cols))] in
  mkDataFrame cols
    (map (fun r => if Nat.eqb (fst r) j
                   then (fst r, row_set cols (snd r) col v) else r) rows).

(** [pd.DataFrame.from_dict(d)] for a dict whose values are one-element
    lists: one row, labelled 0, the keys as columns.  The dict here holds
    the element of each list. *)
Definition from_dict (d : Py.dict value) : DataFrame :=
  mkDataFrame (Py.dict_keys d) [(0, map (fun kv => Some (snd kv)) d)].

Definition reindex (new_cols old_cols : list string) (cells : list cell)
  : list cell :=
  map (row_get old_cols cells) new_cols.

(** [df.append(other)]: the rows of [other] after those of [df], over the
    union of the columns in order of appearance; labels are kept.  Cells
    keep their values, as text and 64-bit integers do in pandas. *)
Definition append (df other : DataFrame) : DataFrame :=
  let cols :=
    df_columns df
      ++ filter (fun c => negb (has_column df c)) (df_columns other) in
  mkDataFrame cols
    (map (fun r => (fst r, reindex cols (df_columns df) (snd r))) (df_rows df)
       ++ map (fun r => (fst r, reindex cols (df_columns other) (snd r)))
            (df_rows other)).

(** The cells of a row without those under the columns [names]. *)
Fixpoint drop_cells (names cols : list string) (cells : list cell)
  : list cell :=
  match cols, cells with
  | c :: cols', x :: cells' =>
      if Py.isin c names then drop_cells names cols' cells'
      else x :: drop_cells names cols' cells'
  | _, _ => []
  end.

(** A column that both frames have, the key apart, gets a suffix. *)
Definition suffixed (others : list string) (key suffix c : string) : string :=
  if negb (String.eqb c key) && Py.isin c others
  then (c ++ suffix)%string else c.

(** [left.merge(right, left_on=key, right_on=key)]: the inner join on one
    key column.  Each left row, in order, is paired with the right rows of
    equal key, in order; the key column is kept once; labels are renewed.
    This is pandas' join for key columns that both hold text and a left
    key column without repeats, which is where the properties below use it
    (pandas refuses key columns of two types, and groups repeated left
    keys). *)
Definition merge (left right : DataFrame) (key : string) : result DataFrame :=
  if has_column left key && has_column right key then
    let lcols := df_columns left in
    let rcols := df_columns right in
    let cols :=
      map (suffixed rcols key "_x") lcols
        ++ map (suffixed lcols key "_y")
             (filter (fun c => negb (Py.isin c [key])) rcols) in
    let rows :=
      flat_map
        (fun l =>
           map (fun r => snd l ++ drop_cells [key] rcols (snd r))
             (filter
                (fun r => cell_eqb (row_get rcols (snd r) key)
                                   (row_get lcols (snd l) key))
                (df_rows right)))
        (df_rows left) in
    Ok (mkDataFrame cols (combine (seq 0 (List.length rows)) rows))
  else Raise (KeyError key).

(** What [drop] reports when labels are not there: the list of them, as
    Python writes a list of plain labels. *)
Definition not_found_in_axis (missing : list string) : string :=
  ("[" ++ Py.join ", " (map (fun label => "'" ++ label ++ "'") missing)
     ++ "] not found in axis")%string.

(** [df.drop(names, axis=1)] *)
Definition drop (df : DataFrame) (names : list string) : result DataFrame :=
  match filter (fun c => negb (has_column df c)) names with
  | (_ :: _) as missing => Raise (KeyError (not_found_in_axis missing))
  | [] =>
      Ok (mkDataFrame
            (filter (fun c => negb (Py.isin c names)) (df_columns df))
            (map (fun r => (fst r, drop_cells names (df_columns df) (snd r)))
               (df_rows df)))
  end.

End Pandas.

(** ** Report requests and responses *)

Record Metric : Type := mkMetric {
  columnId : nat;
  metric_id : string;                 (* "id" *)
  filters : option (list nat)         (* the key "filters", when set *)
}.

Record MetricFilter : Type := mkMetricFilter {
  filter_id : nat;                    (* "id" *)
  filter_type : string;               (* "type" *)
  filter_dimension : option string;   (* "dimension" *)
  filter_itemId : option string       (* "itemId" *)
}.

Inductive GlobalFilter : Type :=
| DateRangeFilter (dateRange : string)
| SegmentFilter (segmentId : string).

Record MetricContainer : Type := mkMetricContainer {
  metrics : list Metric;
  metricFilters : list MetricFilter
}.

Record Settings : Type := mkSettings {
  countRepeatInstances : bool;
  limit : Z
}.

Record ReportBody : Type := mkReportBody {
  body_rsid : string;
  globalFilters : list GlobalFilter;
  metricContainer : MetricContainer;
  dimension : option string;
  settings : Settings;
  search : option string              (* the clause of "search", when set *)
}.

(** A row of a report and the parts of the response the client reads:
    [resp["columns"]["dimension"]["id"]] and [resp["rows"]]. *)
Record ReportRow : Type := mkReportRow {
  itemId : string;
  value : string;
  data : list Z
}.

Record Response : Type := mkResponse {
  dimension_id : string;
  rows : list ReportRow
}.

(** ** Report calls: results with the log of bodies POSTed *)

Definition M (A : Type) : Type := (result A * list ReportBody)%type.

Definition ret {A : Type} (a : A) : M A := (Ok a, []).

Definition raise {A : Type} (e : exn) : M A := (Raise e, []).

Definition bind {A B : Type} (m : M A) (k : A -> M B) : M B :=
  match m with
  | (Ok a, log) => let (r, log') := k a in (r, log ++ log')
  | (Raise e, log) => (Raise e, log)
  end.

Definition lift {A : Type} (r : result A) : M A := (r, []).

Notation "x <- m ;; k" := (bind m (fun x => k))
  (at level 61, m at next level, right associativity).

Definition midnight : string := "T00:00:00.000".

Definition no_dimension_msg : string :=
  "Please provide at least one dimension.".
Definition no_metric_msg : string :=
  "Please provide at least one metric.".
Definition too_many_dimensions_msg : string :=
  "More than 2 dimensions is not currently supported.".
Definition too_many_segments_msg : string :=
  "More than 1 segment is not currently supported.".
Definition no_results_msg : string :=
  "API returned no results. If there is a segment filter try removing it.".
Definition none_keys_msg : string :=
  "'NoneType' object has no attribute 'keys'".

Section Reports.

(** The reporting endpoint, and the two dates [_get_report] derives from
    the clock: yesterday and today as [%Y-%m-%d]. *)
Variable api : ReportBody -> Response.
Variables yesterday today : string.

Definition post (body : ReportBody) : M Response := (Ok (api body), [body]).

Section GetReport.

(** The arguments of [_get_report].  [segments] is a list ([None] and
    the empty list take the same branch); [search_query] is [None] or a
    dict from dimension to clause. *)
Variable mets : list string.
Variable dim : option string.
Variable segments : list string.
Variable search_query : option (Py.dict string).
Variable breakdown_dimension : option string.
Variable item_id : option string.
Variable date_range : string.
Variable row_limit : Z.

(** The loop [for idx, met in enumerate(mets)]: the entries of
    [metrics] and of [metric_filters], from index [idx] on. *)
Fixpoint build_metrics (idx : nat) (ms : list string)
  : list Metric * list MetricFilter :=
  match ms with
  | [] => ([], [])
  | met :: rest =>
      let metric :=
        mkMetric idx met
          (if Py.truthy_opt breakdown_dimension then Some [idx] else None) in
      let (metrics, metric_filters) := build_metrics (S idx) rest in
      (metric :: metrics,
       if Py.truthy_opt dim
       then mkMetricFilter idx "breakdown" breakdown_dimension item_id
              :: metric_filters
       else metric_filters)
  end.

(** The body for a search-query dict that is there. *)
Definition report_body (query : Py.dict string) : ReportBody :=
  let (metrics, metric_filters) := build_metrics 0 mets in
  let global_filters :=
    DateRangeFilter date_range
      :: (if Py.truthy_list segments then map SegmentFilter segments else []) in
  mkReportBody rsid global_filters
    (mkMetricContainer metrics metric_filters)
    dim (mkSettings true row_limit)
    (match dim with
     | Some d =>
         if Py.isin d (Py.dict_keys query) then Py.dict_get query d else None
     | None => None
     end).

(** [search_query.keys()] is evaluated whatever the dimension is. *)
Definition build_report_body_json : result ReportBody :=
  match search_query with
  | None => Raise (AttributeError none_keys_msg)
  | Some query => Ok (report_body query)
  end.

End GetReport.

(** [start_date + midnight + '/' + end_date + midnight], with the defaults. *)
Definition date_range (start_date end_date : option string) : string :=
  let start_date := match start_date with None => yesterday | Some d => d end in
  let end_date := match end_date with None => today | Some d => d end in
  (start_date ++ midnight ++ "/" ++ end_date ++ midnight)%string.

Definition _get_report (mets : list string) (dim : option string)
    (segments : list string) (search_query : option (Py.dict string))
    (breakdown_dimension item_id : option string)
    (start_date end_date : option string) (row_limit : Z) : M Response :=
  report_body <-
    lift (build_report_body_json mets dim segments search_query
            breakdown_dimension item_id
            (date_range start_date end_date) row_limit) ;;
  post report_body.

(** The body of the first request of the freeform assembler, and the
    body of the drill-down into [item], for a search-query dict that is
    there. *)
Definition stage1_body mets segments query sd ed lim d1 : ReportBody :=
  report_body mets (Some d1) segments None None
    (date_range sd ed) lim query.

Definition stage2_body mets segments query sd ed d1 d2 lim item : ReportBody :=
  report_body mets (Some d2) segments
    (Some (dimension_id (api (stage1_body mets segments query sd ed lim d1))))
    (Some item) (date_range sd ed) 50 query.

Section Freeform.

Variable mets : list string.
Variable segments : list string.
Variable search_query : option (Py.dict string).
Variables start_date end_date : option string.
Variable row_limit : Z.

(** [for j, row in enumerate(resp_1["rows"])]: the two [.loc]
    assignments per row. *)
Fixpoint stage1_rows (dim : string) (j : nat) (rs : list ReportRow)
    (result_df : Pandas.DataFrame) : Pandas.DataFrame :=
  match rs with
  | [] => result_df
  | row :: rest =>
      let result_df :=
        Pandas.loc_set result_df j "item_id" (Pandas.VStr (itemId row)) in
      let result_df :=
        Pandas.loc_set result_df j dim (Pandas.VStr (value row)) in
      stage1_rows dim (S j) rest result_df
  end.

(** [for j, value in enumerate(row["data"]): data_dict[mets[j]] = [value]] *)
Fixpoint record_metrics (j : nat) (values : list Z)
    (data_dict : Py.dict Pandas.value) : result (Py.dict Pandas.value) :=
  match values with
  | [] => Ok data_dict
  | v :: rest =>
      match nth_error mets j with
      | None => Raise (IndexError "list index out of range")
      | Some met =>
          record_metrics (S j) rest
            (Py.dict_set data_dict met (Pandas.VNum v))
      end
  end.

(** The record of one stage-2 row. *)
Definition row_record (dim item_id : string) (row : ReportRow)
  : result (Py.dict Pandas.value) :=
  let data_dict := Py.dict_set [] "item_id" (Pandas.VStr item_id) in
  let data_dict := Py.dict_set data_dict dim (Pandas.VStr (value row)) in
  record_metrics 0 (data row) data_dict.

(** [for row in resp_2["rows"]] *)
Fixpoint stage2_rows (dim item_id : string) (rs : list ReportRow)
    (data_df : Pandas.DataFrame) : result Pandas.DataFrame :=
  match rs with
  | [] => Ok data_df
  | row :: rest =>
      match row_record dim item_id row with
      | Raise e => Raise e
      | Ok data_dict =>
          stage2_rows dim item_id rest
            (Pandas.append data_df (Pandas.from_dict data_dict))
      end
  end.

(** [for item_id in item_ids]: one report per item; the call leaves
    [limit] at its default of 50. *)
Fixpoint stage2_items (dim breakdown_dimension : string)
    (item_ids : list string) (data_df : Pandas.DataFrame)
  : M Pandas.DataFrame :=
  match item_ids with
  | [] => ret data_df
  | item_id :: rest =>
      resp_2 <-
        _get_report mets (Some dim) segments search_query
          (Some breakdown_dimension) (Some item_id)
          start_date end_date 50 ;;
      if (List.length (rows resp_2) =? 0)%nat
      then raise (PyException no_results_msg)
      else
        data_df <- lift (stage2_rows dim item_id (rows resp_2) data_df) ;;
        stage2_items dim breakdown_dimension rest data_df
  end.

(** The variables the loop over [dims] carries from one turn to the next. *)
Record loop_state : Type := mkLoopState {
  result_df : Pandas.DataFrame;
  breakdown_dimension : string;
  item_ids : list string
}.

Definition api_call_1 (dim : string) : M loop_state :=
  resp_1 <-
    _get_report mets (Some dim) segments search_query None None
      start_date end_date row_limit ;;
  ret (mkLoopState
         (stage1_rows dim 0 (rows resp_1) Pandas.empty)
         (dimension_id resp_1)
         (map itemId (rows resp_1))).

Definition api_call_2 (dim : string) (st : loop_state) : M loop_state :=
  data_df <-
    stage2_items dim (breakdown_dimension st) (item_ids st) Pandas.empty ;;
  merged <- lift (Pandas.merge (result_df st) data_df "item_id") ;;
  ret (mkLoopState merged (breakdown_dimension st) (item_ids st)).

(** [for i, dim in enumerate(dims)], from index [i] on. *)
Fixpoint dims_loop (i : nat) (dims : list string) (st : loop_state)
  : M loop_state :=
  match dims with
  | [] => ret st
  | dim :: rest =>
      st <- (if (i =? 0)%nat then api_call_1 dim else ret st) ;;
      st <- (if (i =? 1)%nat then api_call_2 dim st else ret st) ;;
      dims_loop (S i) rest st
  end.

(** Before the first turn the loop variables are unbound; the first turn
    binds them all before any use. *)
Definition unbound : loop_state := mkLoopState Pandas.empty "" [].

Definition get_freeform_report (dims : list string) : M Pandas.DataFrame :=
  if (List.length dims =? 0)%nat then raise (PyException no_dimension_msg)
  else if (List.length mets =? 0)%nat then raise (PyException no_metric_msg)
  else if (2 <? List.length dims)%nat
  then raise (PyException too_many_dimensions_msg)
  else if (1 <? List.length segments)%nat
  then raise (PyException too_many_segments_msg)
  else
    st <- dims_loop 0 dims unbound ;;
    lift (Pandas.drop (result_df st) ["item_id"]).

End Freeform.

End Reports.

(** ** Text search as the specification words it

    [contains t s]: the text [t] occurs in [s]. *)
Fixpoint starts_with (t s : string) : bool :=
  match t with
  | EmptyString => true
  | String a t' =>
      match s with
      | EmptyString => false
      | String b s' => Ascii.eqb a b && starts_with t' s'
      end
  end.

Fixpoint contains (t s : string) : bool :=
  starts_with t s
  || match s with
     | EmptyString => false
     | String _ s' => contains t s'
     end.

(** The name equals a term, case aside. *)
Definition name_equals_any (terms : list string) (name : string) : bool :=
  existsb (fun t => String.eqb (Py.lower name) (Py.lower t)) terms.

(** The name contains a term, case aside. *)
Definition name_contains_any (terms : list string) (name : string) : bool :=
  existsb (fun t => contains (Py.lower t) (Py.lower name)) terms.

(** A term without any character that [re] reads as an operator. *)
Definition plain_char (c : ascii) : bool :=
  negb (Ascii.eqb c "|"%char) && negb (Ascii.eqb c "."%char)
  && negb (Re.is_operator c).

Fixpoint plain_term (t : string) : bool :=
  match t with
  | EmptyString => true
  | String c t' => plain_char c && plain_term t'
  end.

(** The regex of a term without operator characters: its letters. *)
Fixpoint literals (t : string) : list Re.atom :=
  match t with
  | EmptyString => []
  | String c t' => Re.Lit c :: literals t'
  end.

(** The listing as the specification words it: all rows when no term is
    given; otherwise the rows, on the columns id and name, whose name equals
    a term ([exact]) or contains a term, case aside. *)
Definition listing_as_specified (all : list MetaRow) (terms : list string)
    (exact : bool) : list MetaRow :=
  match terms with
  | [] => all
  | _ :: _ =>
      select_by_name all
        (if exact then name_equals_any terms else name_contains_any terms)
  end.

(** A name is asked for: it equals a term ([exact]), or a term occurs in
    it, case aside. *)
Definition name_is_asked (terms : list string) (exact : bool) (name : string)
  : Prop :=
  exists t,
    In t terms
    /\ if exact then Py.lower name = Py.lower t
       else exists pre post,
              Py.lower name = (pre ++ Py.lower t ++ post)%string.

(** ASCII text: the names a listing holds, and search terms. *)
Definition ascii_names (all : list MetaRow) : Prop :=
  Forall (fun r => Py.isascii (m_name r) = true) all.

Definition ascii_terms (terms : list string) : Prop :=
  Forall (fun t => Py.isascii t = true) terms.

(** ** Sample services and requests *)
Module Sample.

Definition listing : list MetaRow :=
  [ mkMetaRow "variables/page" "Page" [("type", "string")];
    mkMetaRow "variables/browser" "Browser" [("type", "string")];
    mkMetaRow "variables/evar1" "Landing page" [] ].

Definition http_get (url : string) : list MetaRow := listing.

(** The item a drill-down body asks for. *)
Definition drill_item (b : ReportBody) : option string :=
  match metricFilters (metricContainer b) with
  | f :: _ => filter_itemId f
  | [] => None
  end.

Definition pages : list ReportRow :=
  [ mkReportRow "1" "home" [10%Z]; mkReportRow "2" "about" [5%Z] ].

Definition browsers_of_home : list ReportRow :=
  [ mkReportRow "11" "chrome" [7%Z]; mkReportRow "12" "firefox" [3%Z] ].

Definition browsers_of_about : list ReportRow :=
  [ mkReportRow "11" "chrome" [5%Z] ].

(** Two pages; each has visits by browser. *)
Definition api (b : ReportBody) : Response :=
  match dimension b with
  | Some "page" => mkResponse "variables/page" pages
  | _ =>
      match drill_item b with
      | Some "1" => mkResponse "variables/browser" browsers_of_home
      | _ => mkResponse "variables/browser" browsers_of_about
      end
  end.

(** As [api], but the drill-down of the second page finds nothing. *)
Definition api_empty_drilldown (b : ReportBody) : Response :=
  match dimension b with
  | Some "page" => mkResponse "variables/page" pages
  | _ =>
      match drill_item b with
      | Some "1" => mkResponse "variables/browser" browsers_of_home
      | _ => mkResponse "variables/browser" []
      end
  end.

Definition freeform (api : ReportBody -> Response)
    (mets dims : list string) (search_query : option (Py.dict string))
    (row_limit : Z) : M Pandas.DataFrame :=
  get_freeform_report api "2023-12-31" "2024-01-01" mets []
    search_query (Some "2024-01-01") (Some "2024-01-02") row_limit dims.

End Sample.

(** ** Readings of a frame *)

(** The cells of the column [c], row by row. *)
Definition column_cells (df : Pandas.DataFrame) (c : string) : list Pandas.cell :=
  map (fun r => Pandas.row_get (Pandas.df_columns df) (snd r) c)
    (Pandas.df_rows df).

(** The rows of the first-level table: item id and dimension value of each
    report row, labelled from [j] on. *)
Fixpoint stage1_table_rows (j : nat) (rs : list ReportRow)
  : list (nat * list Pandas.cell) :=
  match rs with
  | [] => []
  | row :: rest =>
      (j, [Some (Pandas.VStr (itemId row)); Some (Pandas.VStr (value row))])
        :: stage1_table_rows (S j) rest
  end.

(** How often an item occurs in a column made of one block per item. *)
Definition occurrences (item : string) (cells : list Pandas.cell) : nat :=
  List.length
    (filter (fun c => Pandas.cell_eqb c (Some (Pandas.VStr item))) cells).

(** The rows the inner join on [item_id] pairs with the row [l] of a
    first-level table with the columns [item_id] and [dim]. *)
Definition joined_with (dim : string) (right : Pandas.DataFrame)
    (l : nat * list Pandas.cell) : list (list Pandas.cell) :=
  map (fun r => snd l
                  ++ Pandas.drop_cells ["item_id"] (Pandas.df_columns right) (snd r))
    (filter
       (fun r => Pandas.cell_eqb
                   (Pandas.row_get (Pandas.df_columns right) (snd r) "item_id")
                   (Pandas.row_get ["item_id"; dim] (snd l) "item_id"))
       (Pandas.df_rows right)).

(** The cells of two columns, row by row. *)
Definition column_pairs (df : Pandas.DataFrame) (c c' : string)
  : list (Pandas.cell * Pandas.cell) :=
  map (fun r => (Pandas.row_get (Pandas.df_columns df) (snd r) c,
                 Pandas.row_get (Pandas.df_columns df) (snd r) c'))
    (Pandas.df_rows df).

(** ** Readings of a run

    The rows the first request of a log was answered with; the item a
    drill-down body asks for; the pairs of a first-level row and a row that
    its drill-down, the request at the same position, was answered with. *)
Definition first_answer (api : ReportBody -> Response) (log : list ReportBody)
  : list ReportRow :=
  match log with
  | b :: _ => rows (api b)
  | [] => []
  end.

Definition combinations (api : ReportBody -> Response)
    (firsts : list ReportRow) (drills : list ReportBody)
  : list (ReportRow * ReportRow) :=
  flat_map (fun p => map (fun r2 => (fst p, r2)) (rows (api (snd p))))
    (combine firsts drills).

(** A drill-down answer the loop over its rows gets through: it has a row,
    and no row has more data values than there are metrics. *)
Definition drilldown_ok (mets : list string) (found : list ReportRow) : bool :=
  negb (List.length found =? 0)%nat
  && forallb (fun r2 => (List.length (data r2) <=? List.length mets)%nat) found.

(** The elements of a list up to and including the first that is not good. *)
Fixpoint take_through {A : Type} (good : A -> bool) (l : list A) : list A :=
  match l with
  | [] => []
  | x :: l' => if good x then x :: take_through good l' else [x]
  end.

(** A value that a column of 64-bit integers holds as it is. *)
Definition int64 (x : Z) : bool := ((- 2 ^ 63 <=? x) && (x <? 2 ^ 63))%Z.

(** ** The names of metrics *)

Definition no_metric_ids_msg : string := "Search terms must be provided.".

(** What pandas reports when none of the columns asked for is there. *)
Definition no_id_name_columns : string :=
  "None of [Index(['id', 'name'], dtype='object')] are in the [columns]".

(** [get_metric_names_from_id]: the listing of metrics on the columns id and
    name ([pd.DataFrame(...)[["id","name"]]], which needs the two columns),
    then the rows whose id is one of [metric_ids]. *)
Definition get_metric_names_from_id (base_url : string)
    (http_get : string -> list MetaRow) (metric_ids : list string)
  : result (list MetaRow) :=
  if (List.length metric_ids =? 0)%nat then Raise (PyException no_metric_ids_msg)
  else
    match http_get (metrics_url base_url) with
    | [] => Raise (KeyError no_id_name_columns)
    | response =>
        let res_df := map id_name response in
        Ok (filter (fun r => Py.isin (m_id r) metric_ids) res_df)
    end.

(** A compiled pattern with its letters in lower case. *)
Definition lower_atom (a : Re.atom) : Re.atom :=
  match a with
  | Re.Lit c => Re.Lit (Py.lower_ascii c)
  | Re.AnyChar => Re.AnyChar
  end.

Definition lower_regex (r : Re.regex) : Re.regex := map (map lower_atom) r.

(** ** The rows of the joined table *)

(** The cells a drill-down row brings: its dimension value, then its data. *)
Definition drill_cells (r2 : ReportRow) : list Pandas.cell :=
  Some (Pandas.VStr (value r2))
    :: map (fun x => Some (Pandas.VNum x)) (data r2).

(** The rows the loop over the rows of one drill-down adds to the collected
    frame, for the item [item]. *)
Definition item_block (item : string) (found : list ReportRow)
  : list (nat * list Pandas.cell) :=
  map (fun r2 => (0, Some (Pandas.VStr item) :: drill_cells r2)) found.

(** The frames the loop over the items goes through when the names
    [item_id], [dim] and [mets] are distinct: nothing yet, or rows over
    these columns. *)
Definition collected (mets : list string) (dim : string)
    (df : Pandas.DataFrame) : Prop :=
  (df = Pandas.empty \/ Pandas.df_columns df = "item_id" :: dim :: mets)
  /\ Forall (fun r => List.length (snd r) = S (S (List.length mets)))
       (Pandas.df_rows df).

(** The collected frame once a drill-down row is in it: its first two
    columns are [item_id] and the dimension, and every row has one cell per
    column. *)
Definition drill_frame (dim : string) (df : Pandas.DataFrame) : Prop :=
  (exists rest, Pandas.df_columns df = "item_id" :: dim :: rest)
  /\ Forall (fun r => exists f : string -> Pandas.cell,
                        snd r = map f (Pandas.df_columns df))
       (Pandas.df_rows df).

(** ** More sample services *)
Module MoreSamples.

(** A service that never has a row. *)
Definition api_nothing (b : ReportBody) : Response := mkResponse "variables/page" [].

(** A service whose drill-downs send two data values per row. *)
Definition api_wide (b : ReportBody) : Response :=
  match dimension b with
  | Some "page" => mkResponse "variables/page" Sample.pages
  | _ =>
      mkResponse "variables/browser" [ mkReportRow "11" "chrome" [7%Z; 8%Z] ]
  end.

End MoreSamples.

(** ** The session: token exchange and account discovery

    [__init__] and the three private methods it calls.  The configuration
    is the dict read from the section [default] of [config.ini].  The file
    system, the clock, [jwt.encode], the two remote services and Python's
    [str] of a JSON value are oracles.  A run yields a value or an exception,
    with the lines logged and the requests issued, in order. *)
Module Session.

(** A parsed JSON value ([response.json()]); numbers are the integers. *)
Inductive json : Type :=
| JNull
| JBool (b : bool)
| JNum (n : Z)
| JStr (s : string)
| JList (items : list json)
| JObj (fields : list (string * json)).

Inductive error : Type :=
| KeyError (key : string)      (* a missing dict key *)
| AttributeError               (* [.get] on a value that is no dict *)
| TypeError                    (* a subscript on a value that has none *)
| IndexError                   (* [[0]] on an empty list or string *)
| OSError                      (* the key file cannot be read *)
| JwtError.                    (* [jwt.encode] rejects the key *)

Inductive outcome (A : Type) : Type :=
| Return (a : A)
| Throw (e : error).
Arguments Return {A} a.
Arguments Throw {A} e.

(** [d[k]] for a dict of strings. *)
Definition config_item (config : Py.dict string) (k : string) : outcome string :=
  match Py.dict_get config k with
  | Some v => Return v
  | None => Throw (KeyError k)
  end.

(** [x.get(k)] *)
Definition get (x : json) (k : string) : outcome json :=
  match x with
  | JObj fields =>
      Return (match Py.dict_get fields k with Some v => v | None => JNull end)
  | _ => Throw AttributeError
  end.

(** [x[0]]; the keys of a JSON dict are strings, so [0] is never one. *)
Definition first (x : json) : outcome json :=
  match x with
  | JList (v :: _) => Return v
  | JList [] => Throw IndexError
  | JStr (String c _) => Return (JStr (String c EmptyString))
  | JStr EmptyString => Throw IndexError
  | JObj _ => Throw (KeyError "0")
  | JNull | JBool _ | JNum _ => Throw TypeError
  end.

(** [x[k]] for a string [k]. *)
Definition item (x : json) (k : string) : outcome json :=
  match x with
  | JObj fields =>
      match Py.dict_get fields k with
      | Some v => Return v
      | None => Throw (KeyError k)
      end
  | _ => Throw TypeError
  end.

Definition and_then {A B : Type} (o : outcome A) (k : A -> outcome B)
  : outcome B :=
  match o with
  | Return a => k a
  | Throw e => Throw e
  end.

(** [response.json().get("imsOrgs")[0].get("companies")[0].get("globalCompanyId")] *)
Definition first_company_id (response : json) : outcome json :=
  and_then (get response "imsOrgs") (fun orgs =>
  and_then (first orgs) (fun org =>
  and_then (get org "companies") (fun companies =>
  and_then (first companies) (fun company =>
  get company "globalCompanyId")))).

(** What a run leaves behind: log lines and requests. *)
Inductive event : Type :=
| Info (line : string)
| InfoPostBody (post_body : Py.dict string)   (* "Post body: {}".format(post_body) *)
| Post (url : string) (form : Py.dict string)
| Get (url : string) (headers : Py.dict string).

Definition is_request (ev : event) : bool :=
  match ev with
  | Post _ _ | Get _ _ => true
  | Info _ | InfoPostBody _ => false
  end.

Definition run (A : Type) : Type := (outcome A * list event)%type.

Definition pure {A : Type} (a : A) : run A := (Return a, []).

Definition of_outcome {A : Type} (o : outcome A) : run A := (o, []).

Definition emit (ev : event) : run unit := (Return tt, [ev]).

Definition then_run {A B : Type} (m : run A) (k : A -> run B) : run B :=
  match m with
  | (Return a, evs) => let (r, evs') := k a in (r, evs ++ evs')
  | (Throw e, evs) => (Throw e, evs)
  end.

Notation "x <~ m ;; k" := (then_run m (fun x => k))
  (at level 61, m at next level, right associativity).

(** A claim of the token: the expiry time, a text, or [True]. *)
Inductive claim : Type :=
| ClaimTime (seconds : Z)
| ClaimStr (s : string)
| ClaimTrue.

Record session : Type := mkSession {
  access_token : json;
  global_company_id : json;
  session_rsid : string;
  base_url : string;
  headers : Py.dict json
}.

Section Client.

Variable config : Py.dict string.
Variable read_file : string -> outcome string.
Variable utcnow : Z.
Variable jwt_encode : Py.dict claim -> string -> outcome string.
Variable exchange : string -> Py.dict string -> json.
Variable discovery : string -> Py.dict string -> json.
Variable py_str : json -> string.

Definition _get_jwt_token : run string :=
  key_path <~ of_outcome (config_item config "key_path") ;;
  private_key <~ of_outcome (read_file key_path) ;;
  iss <~ of_outcome (config_item config "orgid") ;;
  sub <~ of_outcome (config_item config "technicalaccountid") ;;
  host1 <~ of_outcome (config_item config "imshost") ;;
  host2 <~ of_outcome (config_item config "imshost") ;;
  host3 <~ of_outcome (config_item config "imshost") ;;
  apikey <~ of_outcome (config_item config "apikey") ;;
  of_outcome
    (jwt_encode
       [ ("exp", ClaimTime (utcnow + 300));
         ("iss", ClaimStr iss);
         ("sub", ClaimStr sub);
         (("https://" ++ host1 ++ "/s/ent_reactor_sdk")%string, ClaimTrue);
         (("https://" ++ host2 ++ "/s/ent_analytics_bulk_ingest_sdk")%string,
          ClaimTrue);
         ("aud", ClaimStr ("https://" ++ host3 ++ "/c/" ++ apikey)%string) ]
       private_key).

Definition _get_access_token (jwt_token : string) : run json :=
  client_id <~ of_outcome (config_item config "apikey") ;;
  client_secret <~ of_outcome (config_item config "secret") ;;
  let post_body :=
    [ ("client_id", client_id); ("client_secret", client_secret);
      ("jwt_token", jwt_token) ] in
  url <~ of_outcome (config_item config "imsexchange") ;;
  _ <~ emit (Info ("Sending 'POST' request to " ++ url)%string) ;;
  _ <~ emit (InfoPostBody post_body) ;;
  url <~ of_outcome (config_item config "imsexchange") ;;
  _ <~ emit (Post url post_body) ;;
  of_outcome (item (exchange url post_body) "access_token").

Definition _get_global_company_id (access_token : json) : run json :=
  url <~ of_outcome (config_item config "discoveryurl") ;;
  apikey <~ of_outcome (config_item config "apikey") ;;
  let headers :=
    [ ("Authorization", ("Bearer " ++ py_str access_token)%string);
      ("x-api-key", apikey) ] in
  _ <~ emit (Get url headers) ;;
  of_outcome (first_company_id (discovery url headers)).

(** [__init__], from the configuration on. *)
Definition init : run session :=
  jwt_token <~ _get_jwt_token ;;
  access_token <~ _get_access_token jwt_token ;;
  global_company_id <~ _get_global_company_id access_token ;;
  api_url <~ of_outcome (config_item config "analyticsapiurl") ;;
  let base_url := (api_url ++ "/" ++ py_str global_company_id)%string in
  apikey <~ of_outcome (config_item config "apikey") ;;
  pure (mkSession access_token global_company_id rsid base_url
          [ ("Authorization", JStr ("Bearer " ++ py_str access_token)%string);
            ("x-api-key", JStr apikey);
            ("x-proxy-global-company-id", global_company_id) ]).

End Client.

(** The keys the constructor reads before its first request. *)
Definition keys_before_network : list string :=
  [ "key_path"; "orgid"; "technicalaccountid"; "imshost"; "apikey";
    "secret"; "imsexchange" ].

End Session.

(** ** A sample configuration and its services *)
Module SessionSample.

Import Session.

Definition config : Py.dict string :=
  [ ("apikey", "key-1"); ("secret", "s3cret"); ("orgid", "org@AdobeOrg");
    ("technicalaccountid", "tech@techacct.adobe.com");
    ("imshost", "ims-na1.adobelogin.com");
    ("imsexchange", "https://ims-na1.adobelogin.com/ims/exchange/jwt");
    ("discoveryurl", "https://analytics.adobe.io/discovery/me");
    ("analyticsapiurl", "https://analytics.adobe.io/api");
    ("key_path", "private.key") ].

(** The same without the client secret. *)
Definition config_without_secret : Py.dict string :=
  filter (fun kv => negb (String.eqb (fst kv) "secret")) config.

Definition read_file (path : string) : outcome string := Return "PRIVATE KEY".

Definition jwt_encode (claims : Py.dict claim) (key : string) : outcome string :=
  Return "signed.jwt".

Definition exchange (url : string) (form : Py.dict string) : json :=
  JObj [ ("token_type", JStr "bearer"); ("access_token", JStr "tok-1") ].

Definition discovery (url : string) (headers : Py.dict string) : json :=
  JObj [ ("imsOrgs",
          JList [ JObj [ ("imsOrgId", JStr "org@AdobeOrg");
                         ("companies",
                          JList [ JObj [ ("globalCompanyId", JStr "acme1") ];
                                  JObj [ ("globalCompanyId", JStr "acme2") ] ]) ];
                  JObj [ ("companies", JList []) ] ]) ].

(** [str] of a JSON text is the text. *)
Definition py_str (v : json) : string :=
  match v with
  | JStr s => s
  | _ => "None"
  end.

End SessionSample.

(** * Properties *)

(** ** Dicts and frames *)

Lemma dict_get_set_same {V : Type} (d : Py.dict V) (k : string) (v : V) :
  Py.dict_get (Py.dict_set d k v) k = Some v.
Proof.
  induction d as [| [k' v'] d IH]; simpl.
  - rewrite String.eqb_refl. reflexivity.
  - destruct (String.eqb k k') eqn:E; simpl; rewrite E; [reflexivity | exact IH].
Qed.

Lemma dict_get_set_other {V : Type} (d : Py.dict V) (k k' : string) (v : V) :
  k <> k' -> Py.dict_get (Py.dict_set d k v) k' = Py.dict_get d k'.
Proof.
  intros Hne. induction d as [| [k0 v0] d IH]; simpl.
  - destruct (String.eqb_spec k' k); [congruence | reflexivity].
  - destruct (String.eqb_spec k k0) as [-> | Hk]; simpl.
    + destruct (String.eqb_spec k' k0); [congruence | reflexivity].
    + destruct (String.eqb_spec k' k0); [reflexivity | exact IH].
Qed.

Lemma dict_keys_set {V : Type} (d : Py.dict V) (k c : string) (v : V) :
  In c (Py.dict_keys (Py.dict_set d k v)) <-> c = k \/ In c (Py.dict_keys d).
Proof.
  unfold Py.dict_keys. induction d as [| [k0 v0] d IH]; simpl.
  - intuition.
  - destruct (String.eqb_spec k k0) as [-> | Hk]; simpl.
    + intuition.
    + rewrite IH. intuition.
Qed.

Lemma dict_get_in_keys {V : Type} (d : Py.dict V) (k : string) (v : V) :
  Py.dict_get d k = Some v -> In k (Py.dict_keys d).
Proof.
  unfold Py.dict_keys. induction d as [| [k0 v0] d IH]; simpl; [discriminate |].
  destruct (String.eqb_spec k k0) as [-> | Hk]; auto.
Qed.

Lemma isin_true (c : string) (l : list string) :
  Py.isin c l = true <-> In c l.
Proof.
  unfold Py.isin. rewrite existsb_exists. split.
  - intros [x [Hin Heq]]. apply String.eqb_eq in Heq. subst. exact Hin.
  - intros Hin. exists c. split; [exact Hin | apply String.eqb_refl].
Qed.

Lemma isin_false (c : string) (l : list string) :
  Py.isin c l = false <-> ~ In c l.
Proof.
  rewrite <- isin_true. destruct (Py.isin c l); intuition congruence.
Qed.

Lemma filter_all {A : Type} (p : A -> bool) (l : list A) :
  (forall x, In x l -> p x = true) -> filter p l = l.
Proof.
  induction l as [| x l IH]; intros H; simpl; [reflexivity |].
  rewrite (H x (or_introl eq_refl)), IH; [reflexivity |].
  intros y Hy. apply H. right. exact Hy.
Qed.

Lemma filter_none {A : Type} (p : A -> bool) (l : list A) :
  (forall x, In x l -> p x = false) -> filter p l = [].
Proof.
  induction l as [| x l IH]; intros H; simpl; [reflexivity |].
  rewrite (H x (or_introl eq_refl)), IH; [reflexivity |].
  intros y Hy. apply H. right. exact Hy.
Qed.

Lemma row_get_notin cols cells c :
  ~ In c cols -> Pandas.row_get cols cells c = None.
Proof.
  revert cells. induction cols as [| c' cols IH]; intros cells Hnot; simpl.
  - reflexivity.
  - destruct cells as [| x cells]; [reflexivity |].
    destruct (String.eqb_spec c c') as [-> | Hne].
    + exfalso. apply Hnot. left. reflexivity.
    + apply IH. intros Hin. apply Hnot. right. exact Hin.
Qed.

Lemma row_get_reindex new_cols old_cols cells c :
  (In c old_cols -> In c new_cols) ->
  Pandas.row_get new_cols (Pandas.reindex new_cols old_cols cells) c
  = Pandas.row_get old_cols cells c.
Proof.
  unfold Pandas.reindex.
  induction new_cols as [| n new_cols IH]; intros Hsub; simpl.
  - symmetry. apply row_get_notin. intros Hin. exact (Hsub Hin).
  - destruct (String.eqb_spec c n) as [-> | Hne]; [reflexivity |].
    apply IH. intros Hin. destruct (Hsub Hin) as [Heq | Hin']; [congruence | exact Hin'].
Qed.

Lemma row_get_from_dict (d : Py.dict Pandas.value) (k : string) :
  Pandas.row_get (Py.dict_keys d) (map (fun kv => Some (snd kv)) d) k
  = Py.dict_get d k.
Proof.
  unfold Py.dict_keys. induction d as [| [k0 v0] d IH]; simpl; [reflexivity |].
  destruct (String.eqb k k0); [reflexivity | exact IH].
Qed.

Lemma columns_append df other c :
  In c (Pandas.df_columns (Pandas.append df other))
  <-> In c (Pandas.df_columns df) \/ In c (Pandas.df_columns other).
Proof.
  unfold Pandas.append. cbn [Pandas.df_columns].
  rewrite in_app_iff, filter_In. unfold Pandas.has_column.
  split.
  - intros [H | [H _]]; auto.
  - intros [H | H]; [auto |].
    destruct (Py.isin c (Pandas.df_columns df)) eqn:E.
    + left. apply isin_true. exact E.
    + right. split; [exact H | reflexivity].
Qed.

Lemma column_cells_append df other c :
  column_cells (Pandas.append df other) c
  = column_cells df c ++ column_cells other c.
Proof.
  unfold column_cells.
  pose proof (columns_append df other c) as Hcols.
  unfold Pandas.append in *. cbn [Pandas.df_columns Pandas.df_rows] in *.
  rewrite map_app, !map_map. f_equal.
  - apply map_ext. intros r. cbn [snd]. apply row_get_reindex.
    intros H. apply Hcols. left. exact H.
  - apply map_ext. intros r. cbn [snd]. apply row_get_reindex.
    intros H. apply Hcols. right. exact H.
Qed.

Lemma column_cells_from_dict (d : Py.dict Pandas.value) (c : string) :
  column_cells (Pandas.from_dict d) c = [Py.dict_get d c].
Proof. unfold column_cells. simpl. rewrite row_get_from_dict. reflexivity. Qed.

(** ** The record of a stage-2 row *)

Section RowRecord.

Variable mets : list string.

Lemma record_metrics_ok (values : list Z) :
  forall (j : nat) (d : Py.dict Pandas.value),
    j + List.length values <= List.length mets ->
    exists d',
      record_metrics mets j values d = Ok d'
      /\ (forall k,
             (forall i, j <= i < j + List.length values ->
                        nth_error mets i <> Some k) ->
             Py.dict_get d' k = Py.dict_get d k)
      /\ (forall c, In c (Py.dict_keys d') -> In c (Py.dict_keys d) \/ In c mets)
      /\ (NoDup mets ->
          forall i v, nth_error values i = Some v ->
            exists met, nth_error mets (j + i) = Some met
                        /\ Py.dict_get d' met = Some (Pandas.VNum v)).
Proof.
  induction values as [| v rest IH]; intros j d Hlen.
  - exists d. repeat split; auto.
    intros _ i v Hnth. destruct i; discriminate.
  - simpl in Hlen. cbn [record_metrics].
    destruct (nth_error mets j) as [met |] eqn:Hj.
    2: { apply nth_error_None in Hj. lia. }
    destruct (IH (S j) (Py.dict_set d met (Pandas.VNum v))) as
      [d' [Hrun [Hkeep [Hkeys Hpos]]]]; [lia |].
    exists d'. split; [exact Hrun |]. split; [| split].
    + intros k Hk. rewrite Hkeep.
      * apply dict_get_set_other. intros ->. apply (Hk j); [simpl; lia | exact Hj].
      * intros i Hi. apply Hk. simpl. lia.
    + intros c Hc. destruct (Hkeys c Hc) as [H | H]; [| auto].
      apply dict_keys_set in H. destruct H as [-> | H]; [| auto].
      right. eapply nth_error_In. exact Hj.
    + intros Hnodup i w Hnth. destruct i as [| i].
      * simpl in Hnth. inversion Hnth; subst w.
        exists met. rewrite Nat.add_0_r. split; [exact Hj |].
        rewrite Hkeep; [apply dict_get_set_same |].
        intros i Hi Hmet.
        assert (Heq : j = i).
        { apply (proj1 (NoDup_nth_error mets) Hnodup).
          - apply nth_error_Some. rewrite Hj. discriminate.
          - rewrite Hj, Hmet. reflexivity. }
        lia.
      * simpl in Hnth. destruct (Hpos Hnodup i w Hnth) as [m [Hm Hget]].
        exists m. split; [| exact Hget].
        replace (j + S i) with (S j + i) by lia. exact Hm.
Qed.

(** C9 (amended). When the requested metric ids are pairwise distinct,
    the record of a stage-2 row with no more data values than metrics
    holds the j-th data value under the j-th requested metric id, in the
    dict and in the one-row frame made of it. *)
Theorem metrics_recorded_by_position (dim item_id : string) (row : ReportRow) :
  NoDup mets ->
  List.length (data row) <= List.length mets ->
  exists data_dict,
    row_record mets dim item_id row = Ok data_dict
    /\ forall j v, nth_error (data row) j = Some v ->
         exists met,
           nth_error mets j = Some met
           /\ Py.dict_get data_dict met = Some (Pandas.VNum v)
           /\ column_cells (Pandas.from_dict data_dict) met
              = [Some (Pandas.VNum v)].
Proof.
  intros Hnodup Hlen. unfold row_record.
  destruct (record_metrics_ok (data row) 0
              (Py.dict_set (Py.dict_set [] "item_id" (Pandas.VStr item_id))
                 dim (Pandas.VStr (value row))))
    as [d' [Hrun [_ [_ Hpos]]]]; [simpl; lia |].
  exists d'. split; [exact Hrun |].
  intros j v Hnth. destruct (Hpos Hnodup j v Hnth) as [met [Hmet Hget]].
  exists met. simpl in Hmet. repeat split; auto.
  rewrite column_cells_from_dict, Hget. reflexivity.
Qed.

(** The record keeps the item id under [item_id] when that name is
    neither the dimension nor a metric, and has no other key than
    [item_id], the dimension and the metrics. *)
Lemma row_record_item_id (dim item_id : string) (row : ReportRow) :
  dim <> "item_id" -> ~ In "item_id" mets ->
  List.length (data row) <= List.length mets ->
  exists data_dict,
    row_record mets dim item_id row = Ok data_dict
    /\ Py.dict_get data_dict "item_id" = Some (Pandas.VStr item_id)
    /\ forall c, In c (Py.dict_keys data_dict) ->
                 c = "item_id" \/ c = dim \/ In c mets.
Proof.
  intros Hdim Hmets Hlen. unfold row_record.
  destruct (record_metrics_ok (data row) 0
              (Py.dict_set (Py.dict_set [] "item_id" (Pandas.VStr item_id))
                 dim (Pandas.VStr (value row))))
    as [d' [Hrun [Hkeep [Hkeys _]]]]; [simpl; lia |].
  exists d'. split; [exact Hrun |]. split.
  - rewrite Hkeep.
    + rewrite dict_get_set_other by exact Hdim. apply dict_get_set_same.
    + intros i _ Hi. apply Hmets. eapply nth_error_In. exact Hi.
  - intros c Hc. destruct (Hkeys c Hc) as [H | H]; [| auto].
    apply dict_keys_set in H. destruct H as [-> | H]; [auto |].
    apply dict_keys_set in H. destruct H as [-> | []]. auto.
Qed.

Lemma stage2_rows_ok (dim item_id : string) (rs : list ReportRow) :
  dim <> "item_id" -> ~ In "item_id" mets ->
  forall data_df,
    (forall row, In row rs -> List.length (data row) <= List.length mets) ->
    exists data_df',
      stage2_rows mets dim item_id rs data_df = Ok data_df'
      /\ column_cells data_df' "item_id"
         = column_cells data_df "item_id"
             ++ repeat (Some (Pandas.VStr item_id)) (List.length rs)
      /\ (forall c, In c (Pandas.df_columns data_df') ->
            In c (Pandas.df_columns data_df)
            \/ c = "item_id" \/ c = dim \/ In c mets)
      /\ (In "item_id" (Pandas.df_columns data_df) \/ rs <> [] ->
          In "item_id" (Pandas.df_columns data_df')).
Proof.
  intros Hdim Hmets. induction rs as [| row rest IH]; intros data_df Hlen.
  - exists data_df. repeat split; auto.
    + simpl. rewrite app_nil_r. reflexivity.
    + intros [H | H]; [exact H | contradiction].
  - destruct (row_record_item_id dim item_id row Hdim Hmets)
      as [d [Hrec [Hid Hkeys]]]; [apply Hlen; left; reflexivity |].
    destruct (IH (Pandas.append data_df (Pandas.from_dict d)))
      as [df' [Hrun [Hcells [Hcols Hkey]]]].
    { intros r Hr. apply Hlen. right. exact Hr. }
    exists df'. cbn [stage2_rows]. rewrite Hrec. split; [exact Hrun |].
    split; [| split].
    + rewrite Hcells, column_cells_append, column_cells_from_dict, Hid.
      rewrite <- app_assoc. reflexivity.
    + intros c Hc. destruct (Hcols c Hc) as [H | H]; [| auto].
      apply columns_append in H. destruct H as [H | H]; [auto |].
      right. apply Hkeys. exact H.
    + intros _. apply Hkey. left. apply columns_append. right.
      simpl. eapply dict_get_in_keys. exact Hid.
Qed.

End RowRecord.

(** A row with more data values than metrics cannot be recorded; any other
    row can. *)
Lemma record_metrics_overflow mets (values : list Z) :
  forall j d,
    j <= List.length mets -> List.length mets < j + List.length values ->
    record_metrics mets j values d = Raise (IndexError "list index out of range").
Proof.
  induction values as [| v rest IH]; intros j d Hj Hlen; [simpl in Hlen; lia |].
  cbn [record_metrics]. destruct (nth_error mets j) as [met |] eqn:Hnth;
    [| reflexivity].
  assert (j < List.length mets).
  { apply nth_error_Some. rewrite Hnth. discriminate. }
  apply IH; [lia | simpl in Hlen; lia].
Qed.

Lemma row_record_fits mets dim item (row : ReportRow) :
  (List.length (data row) <= List.length mets ->
   exists d, row_record mets dim item row = Ok d)
  /\ (List.length mets < List.length (data row) ->
      row_record mets dim item row
      = Raise (IndexError "list index out of range")).
Proof.
  split; intros H; unfold row_record.
  - destruct (record_metrics_ok mets (data row) 0
                (Py.dict_set (Py.dict_set [] "item_id" (Pandas.VStr item))
                   dim (Pandas.VStr (value row))))
      as [d [Hd _]]; [simpl; lia |].
    exists d. exact Hd.
  - apply record_metrics_overflow; simpl; lia.
Qed.

Lemma stage2_rows_result mets dim item (rs : list ReportRow) :
  forall data_df,
    (Forall (fun row => List.length (data row) <= List.length mets) rs ->
     exists data_df', stage2_rows mets dim item rs data_df = Ok data_df')
    /\ (Exists (fun row => List.length mets < List.length (data row)) rs ->
        stage2_rows mets dim item rs data_df
        = Raise (IndexError "list index out of range")).
Proof.
  induction rs as [| row rest IH]; intros data_df.
  - split; [intros _; exists data_df; reflexivity | intros H; inversion H].
  - cbn [stage2_rows]. destruct (row_record_fits mets dim item row) as [Hfit Hover].
    split.
    + intros Hall. inversion Hall as [| ? ? Hrow Hrest]; subst.
      destruct (Hfit Hrow) as [d Hd]. rewrite Hd. apply IH. exact Hrest.
    + intros Hex.
      destruct (le_lt_dec (List.length (data row)) (List.length mets))
        as [Hrow | Hrow].
      * destruct (Hfit Hrow) as [d Hd]. rewrite Hd. apply IH.
        inversion Hex as [? ? Hbad | ? ? Hlater]; subst; [lia | exact Hlater].
      * rewrite (Hover Hrow). reflexivity.
Qed.

(** The record keeps the item id under [item_id] and the dimension value
    under the dimension when these two names differ and neither is a
    metric. *)
Lemma row_record_cells mets dim item (row : ReportRow) d :
  dim <> "item_id" -> ~ In "item_id" mets -> ~ In dim mets ->
  row_record mets dim item row = Ok d ->
  Py.dict_get d "item_id" = Some (Pandas.VStr item)
  /\ Py.dict_get d dim = Some (Pandas.VStr (value row)).
Proof.
  intros Hdim Hkey Hdm Hrec.
  destruct (row_record_fits mets dim item row) as [_ Hover].
  destruct (le_lt_dec (List.length (data row)) (List.length mets)) as [Hle | Hlt].
  2: { rewrite (Hover Hlt) in Hrec. discriminate. }
  unfold row_record in Hrec.
  destruct (record_metrics_ok mets (data row) 0
              (Py.dict_set (Py.dict_set [] "item_id" (Pandas.VStr item))
                 dim (Pandas.VStr (value row))))
    as [d' [Hrun [Hkeep _]]]; [simpl; lia |].
  rewrite Hrun in Hrec. inversion Hrec; subst d'. split.
  - rewrite Hkeep.
    + rewrite dict_get_set_other by exact Hdim. apply dict_get_set_same.
    + intros i _ Hi. apply Hkey. eapply nth_error_In. exact Hi.
  - rewrite Hkeep.
    + apply dict_get_set_same.
    + intros i _ Hi. apply Hdm. eapply nth_error_In. exact Hi.
Qed.

Lemma column_pairs_append df other c c' :
  column_pairs (Pandas.append df other) c c'
  = column_pairs df c c' ++ column_pairs other c c'.
Proof.
  unfold column_pairs.
  pose proof (columns_append df other c) as Hc.
  pose proof (columns_append df other c') as Hc'.
  unfold Pandas.append in *. cbn [Pandas.df_columns Pandas.df_rows] in *.
  rewrite map_app, !map_map. f_equal.
  - apply map_ext. intros r. cbn [snd]. f_equal; apply row_get_reindex.
    + intros H. apply Hc. left. exact H.
    + intros H. apply Hc'. left. exact H.
  - apply map_ext. intros r. cbn [snd]. f_equal; apply row_get_reindex.
    + intros H. apply Hc. right. exact H.
    + intros H. apply Hc'. right. exact H.
Qed.

Lemma column_pairs_from_dict (d : Py.dict Pandas.value) (c c' : string) :
  column_pairs (Pandas.from_dict d) c c' = [(Py.dict_get d c, Py.dict_get d c')].
Proof. unfold column_pairs. simpl. rewrite !row_get_from_dict. reflexivity. Qed.

(** The loop over the rows of a drill-down adds, per row, the item id and
    the dimension value. *)
Lemma stage2_rows_pairs mets dim item :
  dim <> "item_id" -> ~ In "item_id" mets -> ~ In dim mets ->
  forall rs data_df data_df',
    stage2_rows mets dim item rs data_df = Ok data_df' ->
    column_pairs data_df' "item_id" dim
    = column_pairs data_df "item_id" dim
        ++ map (fun row => (Some (Pandas.VStr item),
                            Some (Pandas.VStr (value row)))) rs.
Proof.
  intros Hdim Hkey Hdm.
  induction rs as [| row rest IH]; intros data_df data_df' Hrun.
  - inversion Hrun; subst. simpl. rewrite app_nil_r. reflexivity.
  - cbn [stage2_rows] in Hrun.
    destruct (row_record mets dim item row) as [d | e] eqn:Hrec;
      [| discriminate].
    destruct (row_record_cells mets dim item row d Hdim Hkey Hdm Hrec)
      as [Hid Hval].
    rewrite (IH _ _ Hrun), column_pairs_append, column_pairs_from_dict.
    rewrite Hid, Hval, <- app_assoc. reflexivity.
Qed.

(** ** The shape of the collected frame *)

Lemma dict_keys_set_app {V : Type} (d : Py.dict V) (k : string) (v : V) :
  exists extra, Py.dict_keys (Py.dict_set d k v) = Py.dict_keys d ++ extra.
Proof.
  unfold Py.dict_keys. induction d as [| [k0 v0] d IH]; simpl.
  - exists [k]. reflexivity.
  - destruct (String.eqb k k0); simpl.
    + exists []. rewrite app_nil_r. reflexivity.
    + destruct IH as [extra IH]. exists extra. rewrite IH. reflexivity.
Qed.

Lemma record_metrics_keys mets (values : list Z) :
  forall j d d',
    record_metrics mets j values d = Ok d' ->
    exists extra, Py.dict_keys d' = Py.dict_keys d ++ extra.
Proof.
  induction values as [| v rest IH]; intros j d d' Hrun.
  - inversion Hrun; subst. exists []. rewrite app_nil_r. reflexivity.
  - cbn [record_metrics] in Hrun.
    destruct (nth_error mets j) as [met |]; [| discriminate].
    destruct (IH _ _ _ Hrun) as [extra Hextra].
    destruct (dict_keys_set_app d met (Pandas.VNum v)) as [extra0 Hextra0].
    exists (extra0 ++ extra). rewrite Hextra, Hextra0, <- app_assoc.
    reflexivity.
Qed.

Lemma row_record_keys mets dim item (row : ReportRow) d :
  dim <> "item_id" ->
  row_record mets dim item row = Ok d ->
  exists extra, Py.dict_keys d = "item_id" :: dim :: extra.
Proof.
  intros Hdim Hrec. unfold row_record in Hrec.
  apply record_metrics_keys in Hrec. destruct Hrec as [extra Hextra].
  exists extra. rewrite Hextra. cbn [Py.dict_set].
  rewrite (proj2 (String.eqb_neq _ _) Hdim). reflexivity.
Qed.

Lemma append_drill_frame dim (df other : Pandas.DataFrame) :
  df = Pandas.empty \/ drill_frame dim df ->
  (exists extra, Pandas.df_columns other = "item_id" :: dim :: extra) ->
  drill_frame dim (Pandas.append df other).
Proof.
  intros Hdf [extra Hother]. split.
  - unfold Pandas.append. cbn [Pandas.df_columns].
    destruct Hdf as [-> | [[rest Hcols] _]].
    + cbn [Pandas.empty Pandas.df_columns app]. rewrite Hother.
      exists extra. apply filter_all. reflexivity.
    + rewrite Hcols. eexists. reflexivity.
  - unfold Pandas.append. cbn [Pandas.df_columns Pandas.df_rows].
    apply Forall_app. split; apply Forall_forall; intros r Hr;
      apply in_map_iff in Hr; destruct Hr as [r0 [<- _]]; cbn [snd];
      unfold Pandas.reindex; eexists; reflexivity.
Qed.

Lemma stage2_rows_frame mets dim item :
  dim <> "item_id" ->
  forall rs data_df data_df',
    data_df = Pandas.empty \/ drill_frame dim data_df ->
    stage2_rows mets dim item rs data_df = Ok data_df' ->
    (data_df' = Pandas.empty \/ drill_frame dim data_df')
    /\ (rs <> [] -> drill_frame dim data_df').
Proof.
  intros Hdim. induction rs as [| row rest IH]; intros data_df data_df' Hdf Hrun.
  - inversion Hrun; subst. split; [exact Hdf | intros H; contradiction].
  - cbn [stage2_rows] in Hrun.
    destruct (row_record mets dim item row) as [d | e] eqn:Hrec;
      [| discriminate].
    assert (Hframe : drill_frame dim
                       (Pandas.append data_df (Pandas.from_dict d))).
    { apply append_drill_frame; [exact Hdf |].
      exact (row_record_keys mets dim item row d Hdim Hrec). }
    destruct (IH _ _ (or_intror Hframe) Hrun) as [Hinv Hne].
    split; [exact Hinv |]. intros _.
    destruct rest as [| row' rest'].
    + inversion Hrun; subst. exact Hframe.
    + apply Hne. discriminate.
Qed.

(** ** The first-level table *)

Lemma stage1_table_rows_length (rs : list ReportRow) (j : nat) :
  List.length (stage1_table_rows j rs) = List.length rs.
Proof.
  revert j. induction rs as [| row rest IH]; intros j; simpl; [| rewrite IH];
    reflexivity.
Qed.

Section Stage1Table.

Variable dim : string.
Hypothesis dim_not_item_id : dim <> "item_id".

Lemma dim_eqb : String.eqb dim "item_id" = false.
Proof. apply String.eqb_neq. exact dim_not_item_id. Qed.

Lemma fresh_label (j : nat) (R : list (nat * list Pandas.cell)) :
  (forall l, In l (map fst R) -> l < j) ->
  existsb (Nat.eqb j) (map fst R) = false.
Proof.
  intros Hlt. induction R as [| [l cells] R IH]; simpl; [reflexivity |].
  rewrite IH by (intros l' Hl'; apply Hlt; right; exact Hl').
  assert (l < j) by (apply Hlt; left; reflexivity).
  destruct (Nat.eqb_spec j l); [lia | reflexivity].
Qed.

Lemma other_labels_untouched (j : nat) (R : list (nat * list Pandas.cell))
    (f : nat * list Pandas.cell -> nat * list Pandas.cell) :
  (forall l, In l (map fst R) -> l < j) ->
  map (fun r => if Nat.eqb (fst r) j then f r else r) R = R.
Proof.
  intros Hlt. induction R as [| [l cells] R IH]; simpl; [reflexivity |].
  rewrite IH by (intros l' Hl'; apply Hlt; right; exact Hl').
  assert (l < j) by (apply Hlt; left; reflexivity).
  destruct (Nat.eqb_spec l j); [lia | reflexivity].
Qed.

Lemma loc_set_new_row (j : nat) (R : list (nat * list Pandas.cell))
    (v v' : Pandas.value) :
  (forall l, In l (map fst R) -> l < j) ->
  Pandas.loc_set
    (Pandas.loc_set (Pandas.mkDataFrame ["item_id"; dim] R) j "item_id" v)
    j dim v'
  = Pandas.mkDataFrame ["item_id"; dim] (R ++ [(j, [Some v; Some v'])]).
Proof.
  intros Hlt.
  assert (Hfirst :
    Pandas.loc_set (Pandas.mkDataFrame ["item_id"; dim] R) j "item_id" v
    = Pandas.mkDataFrame ["item_id"; dim] (R ++ [(j, [Some v; None])])).
  { unfold Pandas.loc_set, Pandas.has_column, Pandas.has_label.
    cbn [Pandas.df_columns Pandas.df_rows Py.isin existsb String.eqb
         Ascii.eqb Bool.eqb andb orb negb].
    rewrite (fresh_label j R Hlt). rewrite map_app.
    rewrite (other_labels_untouched j R _ Hlt).
    cbn. rewrite Nat.eqb_refl. reflexivity. }
  rewrite Hfirst.
  unfold Pandas.loc_set, Pandas.has_column, Pandas.has_label.
  cbn [Pandas.df_columns Pandas.df_rows Py.isin existsb].
  rewrite dim_eqb, String.eqb_refl. cbn [orb negb].
  rewrite map_app, existsb_app. cbn [map fst existsb].
  rewrite Nat.eqb_refl, orb_true_r. cbn [orb].
  rewrite map_app, (other_labels_untouched j R _ Hlt).
  cbn [map fst snd]. rewrite Nat.eqb_refl.
  cbn [Pandas.row_set]. rewrite dim_eqb, String.eqb_refl. reflexivity.
Qed.

Lemma stage1_rows_table (rs : list ReportRow) :
  forall (j : nat) (R : list (nat * list Pandas.cell)),
    (forall l, In l (map fst R) -> l < j) ->
    stage1_rows dim j rs (Pandas.mkDataFrame ["item_id"; dim] R)
    = Pandas.mkDataFrame ["item_id"; dim] (R ++ stage1_table_rows j rs).
Proof.
  induction rs as [| row rest IH]; intros j R Hlt; simpl.
  - rewrite app_nil_r. reflexivity.
  - rewrite loc_set_new_row by exact Hlt. rewrite IH.
    + rewrite <- app_assoc. reflexivity.
    + intros l Hl. rewrite map_app, in_app_iff in Hl.
      destruct Hl as [Hl | [Hl | []]]; [apply Hlt in Hl; lia | simpl in Hl; lia].
Qed.

(** The table after the first request, when it lists at least one item. *)
Lemma stage1_rows_from_empty (rs : list ReportRow) :
  rs <> [] ->
  stage1_rows dim 0 rs Pandas.empty
  = Pandas.mkDataFrame ["item_id"; dim] (stage1_table_rows 0 rs).
Proof.
  destruct rs as [| row rest]; [contradiction |]. intros _.
  cbn [stage1_rows].
  assert (Hfirst :
    Pandas.loc_set
      (Pandas.loc_set Pandas.empty 0 "item_id" (Pandas.VStr (itemId row)))
      0 dim (Pandas.VStr (value row))
    = Pandas.mkDataFrame ["item_id"; dim]
        ([] ++ [(0, [Some (Pandas.VStr (itemId row));
                     Some (Pandas.VStr (value row))])])).
  { unfold Pandas.loc_set, Pandas.has_column, Pandas.has_label, Pandas.empty.
    cbn [Pandas.df_columns Pandas.df_rows Py.isin existsb map app negb
         List.length repeat fst snd Nat.eqb Pandas.row_set String.eqb
         Ascii.eqb Bool.eqb andb orb].
    rewrite dim_eqb.
    cbn [Pandas.df_columns Pandas.df_rows Py.isin existsb map app negb
         List.length repeat fst snd Nat.eqb Pandas.row_set orb].
    rewrite dim_eqb, String.eqb_refl. reflexivity. }
  rewrite Hfirst. rewrite stage1_rows_table.
  - reflexivity.
  - simpl. intros l [H | []]. lia.
Qed.

End Stage1Table.

(** ** The join of the two levels *)

Lemma map_const_repeat {A B : Type} (c : B) (l : list A) :
  map (fun _ => c) l = repeat c (List.length l).
Proof. induction l as [| x l IH]; simpl; [| rewrite IH]; reflexivity. Qed.

Lemma filter_map_length {A B : Type} (p : B -> bool) (f : A -> B) (l : list A) :
  List.length (filter (fun x => p (f x)) l) = List.length (filter p (map f l)).
Proof.
  induction l as [| x l IH]; simpl; [reflexivity |].
  destruct (p (f x)); simpl; rewrite IH; reflexivity.
Qed.

Lemma map_snd_combine_seq {A : Type} (l : list A) (k : nat) :
  map snd (combine (seq k (List.length l)) l) = l.
Proof.
  revert k. induction l as [| x l IH]; intros k; simpl; [| rewrite IH];
    reflexivity.
Qed.

Lemma flat_map_ext_in {A B : Type} (f g : A -> list B) (l : list A) :
  (forall x, In x l -> f x = g x) -> flat_map f l = flat_map g l.
Proof.
  induction l as [| x l IH]; intros H; simpl; [reflexivity |].
  rewrite (H x (or_introl eq_refl)), IH; [reflexivity |].
  intros y Hy. apply H. right. exact Hy.
Qed.

Lemma occurrences_app item cells cells' :
  occurrences item (cells ++ cells')
  = occurrences item cells + occurrences item cells'.
Proof. unfold occurrences. rewrite filter_app, length_app. reflexivity. Qed.

Lemma occurrences_repeat item item' (n : nat) :
  occurrences item (repeat (Some (Pandas.VStr item')) n)
  = if String.eqb item' item then n else 0.
Proof.
  unfold occurrences. induction n as [| n IH]; simpl.
  - destruct (String.eqb item' item); reflexivity.
  - destruct (String.eqb item' item); simpl; rewrite IH; reflexivity.
Qed.

Lemma occurrences_blocks_notin (n : string -> nat) (ids : list string) item :
  ~ In item ids ->
  occurrences item
    (flat_map (fun i => repeat (Some (Pandas.VStr i)) (n i)) ids) = 0.
Proof.
  induction ids as [| i ids IH]; intros Hnot; simpl; [reflexivity |].
  rewrite occurrences_app, occurrences_repeat, IH.
  - destruct (String.eqb_spec i item) as [-> | _]; [| reflexivity].
    exfalso. apply Hnot. left. reflexivity.
  - intros H. apply Hnot. right. exact H.
Qed.

Lemma occurrences_blocks (n : string -> nat) (ids : list string) item :
  NoDup ids -> In item ids ->
  occurrences item
    (flat_map (fun i => repeat (Some (Pandas.VStr i)) (n i)) ids) = n item.
Proof.
  induction ids as [| i ids IH]; intros Hnodup Hin; [contradiction |].
  inversion Hnodup as [| ? ? Hnot Hrest]; subst. simpl.
  rewrite occurrences_app, occurrences_repeat.
  destruct (String.eqb_spec i item) as [-> | Hne].
  - rewrite occurrences_blocks_notin by exact Hnot. lia.
  - destruct Hin as [H | H]; [congruence |]. rewrite IH by assumption. lia.
Qed.

Section Join.

Variable dim : string.
Variable right : Pandas.DataFrame.

Lemma joined_with_length (j : nat) (row : ReportRow) :
  List.length
    (joined_with dim right (j, [Some (Pandas.VStr (itemId row));
                      Some (Pandas.VStr (value row))]))
  = occurrences (itemId row) (column_cells right "item_id").
Proof.
  unfold joined_with, occurrences, column_cells. rewrite length_map.
  cbn [snd Pandas.row_get String.eqb Ascii.eqb Bool.eqb andb].
  apply (filter_map_length
           (fun c => Pandas.cell_eqb c (Some (Pandas.VStr (itemId row))))).
Qed.

Lemma joined_count (rs : list ReportRow) :
  forall j,
    List.length (flat_map (joined_with dim right) (stage1_table_rows j rs))
    = list_sum
        (map (fun row => occurrences (itemId row) (column_cells right "item_id"))
           rs).
Proof.
  induction rs as [| row rest IH]; intros j; [reflexivity |].
  cbn [stage1_table_rows flat_map map list_sum].
  rewrite length_app, IH, joined_with_length. reflexivity.
Qed.

End Join.

(** A cell under another column than the one dropped is where it was. *)
Lemma row_get_drop_cells (key : string) (cols : list string) :
  forall cells c,
    c <> key ->
    Pandas.row_get (filter (fun c' => negb (Py.isin c' [key])) cols)
      (Pandas.drop_cells [key] cols cells) c
    = Pandas.row_get cols cells c.
Proof.
  induction cols as [| k cols IH]; intros cells c Hc; [reflexivity |].
  destruct cells as [| x cells].
  - cbn [Pandas.drop_cells Pandas.row_get].
    destruct (filter _ (k :: cols)); reflexivity.
  - cbn [filter Pandas.drop_cells Pandas.row_get].
    destruct (Py.isin k [key]) eqn:Hk; cbn [negb].
    + apply isin_true in Hk. destruct Hk as [Hk | []]. subst k.
      rewrite IH by exact Hc.
      destruct (String.eqb_spec c key); [contradiction | reflexivity].
    + cbn [Pandas.row_get].
      destruct (String.eqb c k); [reflexivity | apply IH; exact Hc].
Qed.

Lemma merge_first_level (dim : string) (right : Pandas.DataFrame)
    (L : list (nat * list Pandas.cell)) :
  In "item_id" (Pandas.df_columns right) ->
  Pandas.merge (Pandas.mkDataFrame ["item_id"; dim] L) right "item_id"
  = Ok (Pandas.mkDataFrame
          ("item_id"
             :: Pandas.suffixed (Pandas.df_columns right) "item_id" "_x" dim
             :: map (Pandas.suffixed ["item_id"; dim] "item_id" "_y")
                  (filter (fun c => negb (Py.isin c ["item_id"]))
                     (Pandas.df_columns right)))
          (combine
             (seq 0 (List.length (flat_map (joined_with dim right) L)))
             (flat_map (joined_with dim right) L))).
Proof.
  intros Hkey. unfold Pandas.merge, Pandas.has_column.
  cbn [Pandas.df_columns Pandas.df_rows].
  rewrite (proj2 (isin_true _ _) Hkey). reflexivity.
Qed.

Lemma drop_item_id (cols : list string) (R : list (nat * list Pandas.cell)) :
  Pandas.drop (Pandas.mkDataFrame ("item_id" :: cols) R) ["item_id"]
  = Ok (Pandas.mkDataFrame
          (filter (fun c => negb (Py.isin c ["item_id"])) ("item_id" :: cols))
          (map (fun r =>
                  (fst r,
                   Pandas.drop_cells ["item_id"] ("item_id" :: cols) (snd r)))
             R)).
Proof. reflexivity. Qed.

Lemma map_over_flat_map {A B C : Type} (h : B -> C) (f : A -> list B)
    (l : list A) :
  map h (flat_map f l) = flat_map (fun x => map h (f x)) l.
Proof.
  induction l as [| x l IH]; simpl; [reflexivity |].
  rewrite map_app, IH. reflexivity.
Qed.

Lemma flat_map_of_map {A B C : Type} (f : B -> list C) (g : A -> B)
    (l : list A) :
  flat_map f (map g l) = flat_map (fun x => f (g x)) l.
Proof.
  induction l as [| x l IH]; simpl; [| rewrite IH]; reflexivity.
Qed.

Lemma combine_with_map {A B : Type} (f : A -> B) (l : list A) :
  combine l (map f l) = map (fun x => (x, f x)) l.
Proof.
  induction l as [| x l IH]; simpl; [| rewrite IH]; reflexivity.
Qed.

Lemma map_filter_pairs {A B C : Type} (f : A -> B) (g : A -> C)
    (p : B -> bool) (l : list A) :
  map g (filter (fun x => p (f x)) l)
  = map snd (filter (fun q => p (fst q)) (map (fun x => (f x, g x)) l)).
Proof.
  induction l as [| x l IH]; simpl; [reflexivity |].
  destruct (p (f x)); simpl; rewrite IH; reflexivity.
Qed.

(** In a list of pairs made of one block per item, the pairs of an item
    that is listed once are its block. *)
Lemma pairs_block {B : Type} (found : string -> list B) (g : B -> Pandas.cell)
    (ids : list string) (id : string) :
  NoDup ids -> In id ids ->
  filter (fun q => Pandas.cell_eqb (fst q) (Some (Pandas.VStr id)))
    (flat_map (fun item => map (fun x => (Some (Pandas.VStr item), g x))
                             (found item)) ids)
  = map (fun x => (Some (Pandas.VStr id), g x)) (found id).
Proof.
  induction ids as [| a ids IH]; intros Hnodup Hin; [contradiction |].
  inversion Hnodup as [| ? ? Ha Hids]; subst.
  cbn [flat_map]. rewrite filter_app.
  destruct (String.eqb_spec a id) as [-> | Hne].
  - rewrite filter_all.
    + rewrite filter_none; [apply app_nil_r |].
      intros q Hq. apply in_flat_map in Hq. destruct Hq as [item [Hitem Hq]].
      apply in_map_iff in Hq. destruct Hq as [x [<- _]]. simpl.
      apply String.eqb_neq. intros ->. contradiction.
    + intros q Hq. apply in_map_iff in Hq. destruct Hq as [x [<- _]].
      simpl. apply String.eqb_refl.
  - rewrite filter_none.
    + destruct Hin as [H | H]; [contradiction |]. apply IH; assumption.
    + intros q Hq. apply in_map_iff in Hq. destruct Hq as [x [<- _]].
      simpl. apply String.eqb_neq. exact Hne.
Qed.

Section JoinCells.

Variable dim : string.
Variable right : Pandas.DataFrame.
Hypothesis right_has_key : In "item_id" (Pandas.df_columns right).

(** The rows of [right] that the join pairs with a first-level row. *)
Lemma joined_cells (c : string) (rs : list ReportRow) :
  c <> "item_id" ->
  forall j,
    map (fun cells =>
           Pandas.row_get
             ("item_id" :: dim
                :: filter (fun c' => negb (Py.isin c' ["item_id"]))
                     (Pandas.df_columns right))
             cells c)
      (flat_map (joined_with dim right) (stage1_table_rows j rs))
    = flat_map
        (fun row =>
           map (fun r => if String.eqb c dim
                         then Some (Pandas.VStr (value row))
                         else Pandas.row_get (Pandas.df_columns right) (snd r) c)
             (filter
                (fun r => Pandas.cell_eqb
                            (Pandas.row_get (Pandas.df_columns right) (snd r)
                               "item_id")
                            (Some (Pandas.VStr (itemId row))))
                (Pandas.df_rows right)))
        rs.
Proof.
  intros Hc. induction rs as [| row rest IH]; intros j; [reflexivity |].
  cbn [stage1_table_rows flat_map]. rewrite map_app, IH. f_equal.
  unfold joined_with. cbn [snd].
  change (Pandas.row_get ["item_id"; dim]
            [Some (Pandas.VStr (itemId row)); Some (Pandas.VStr (value row))]
            "item_id")
    with (Some (Pandas.VStr (itemId row))).
  rewrite map_map. apply map_ext. intros r.
  cbn [app Pandas.row_get].
  rewrite (proj2 (String.eqb_neq _ _) Hc).
  destruct (String.eqb c dim); [reflexivity |].
  apply row_get_drop_cells. exact Hc.
Qed.

(** The merge on [item_id] followed by the drop of that column: the number
    of rows, and, when the first dimension is no column of [right], the
    cells under any column. *)
Lemma merge_then_drop_table (rs : list ReportRow) :
  exists table,
    match Pandas.merge
            (Pandas.mkDataFrame ["item_id"; dim] (stage1_table_rows 0 rs))
            right "item_id" with
    | Ok merged => Pandas.drop merged ["item_id"]
    | Raise e => Raise e
    end = Ok table
    /\ List.length (Pandas.df_rows table)
       = list_sum
           (map (fun row =>
                   occurrences (itemId row) (column_cells right "item_id")) rs)
    /\ (~ In dim (Pandas.df_columns right) ->
        forall c, c <> "item_id" ->
          column_cells table c
          = flat_map
              (fun row =>
                 map (fun r => if String.eqb c dim
                               then Some (Pandas.VStr (value row))
                               else Pandas.row_get (Pandas.df_columns right)
                                      (snd r) c)
                   (filter
                      (fun r => Pandas.cell_eqb
                                  (Pandas.row_get (Pandas.df_columns right)
                                     (snd r) "item_id")
                                  (Some (Pandas.VStr (itemId row))))
                      (Pandas.df_rows right)))
              rs).
Proof.
  rewrite merge_first_level by exact right_has_key. rewrite drop_item_id.
  eexists. split; [reflexivity |]. split.
  - cbn [Pandas.df_rows]. rewrite length_map, length_combine, length_seq.
    rewrite Nat.min_id. apply joined_count.
  - intros Hlacks c Hc.
    assert (Hx : Pandas.suffixed (Pandas.df_columns right) "item_id" "_x" dim
                 = dim).
    { unfold Pandas.suffixed.
      rewrite (proj2 (isin_false dim (Pandas.df_columns right)) Hlacks).
      rewrite andb_false_r. reflexivity. }
    assert (Hy : map (Pandas.suffixed ["item_id"; dim] "item_id" "_y")
                   (filter (fun c' => negb (Py.isin c' ["item_id"]))
                      (Pandas.df_columns right))
                 = filter (fun c' => negb (Py.isin c' ["item_id"]))
                     (Pandas.df_columns right)).
    { rewrite <- map_id. apply map_ext_in. intros c' Hc'.
      apply filter_In in Hc'. destruct Hc' as [Hin Hnot].
      apply negb_true_iff in Hnot. apply isin_false in Hnot.
      unfold Pandas.suffixed.
      assert (Hno : Py.isin c' ["item_id"; dim] = false).
      { apply isin_false. intros [H | [H | []]].
        - apply Hnot. left. exact H.
        - apply Hlacks. rewrite H. exact Hin. }
      rewrite Hno, andb_false_r. reflexivity. }
    rewrite Hx, Hy.
    rewrite <- (joined_cells c rs Hc 0).
    unfold column_cells. cbn [Pandas.df_columns Pandas.df_rows].
    rewrite map_map. cbn [snd].
    set (J := flat_map (joined_with dim right) (stage1_table_rows 0 rs)).
    set (cols := "item_id" :: dim
                   :: filter (fun c' => negb (Py.isin c' ["item_id"]))
                        (Pandas.df_columns right)).
    transitivity
      (map (fun cells =>
              Pandas.row_get
                (filter (fun c' => negb (Py.isin c' ["item_id"])) cols)
                (Pandas.drop_cells ["item_id"] cols cells) c)
         (map snd (combine (seq 0 (List.length J)) J))).
    + rewrite map_map. reflexivity.
    + rewrite map_snd_combine_seq. apply map_ext. intros cells.
      apply row_get_drop_cells. exact Hc.
Qed.

End JoinCells.

(** A column name with a suffix is not [item_id]. *)
Lemma suffix_not_item_id (c : string) :
  (c ++ "_x")%string <> "item_id" /\ (c ++ "_y")%string <> "item_id".
Proof.
  split; intros H;
    repeat (destruct c as [| ? c]; simpl in H;
            [discriminate H | try discriminate H; injection H as _ H]).
Qed.

Lemma suffixed_not_item_id (others : list string) (suffix c : string) :
  c <> "item_id" -> suffix = "_x" \/ suffix = "_y" ->
  Pandas.suffixed others "item_id" suffix c <> "item_id".
Proof.
  intros Hc Hsuffix. unfold Pandas.suffixed.
  destruct (negb (String.eqb c "item_id") && Py.isin c others);
    [| exact Hc].
  destruct Hsuffix as [-> | ->]; apply suffix_not_item_id.
Qed.

Lemma not_item_id (c : string) :
  c <> "item_id" -> Py.isin c ["item_id"] = false.
Proof.
  intros Hc. apply isin_false. intros [H | []]. apply Hc. symmetry. exact H.
Qed.

Section JoinRows.

Variables d1 d2 : string.
Variable right : Pandas.DataFrame.
Hypothesis d1_not_item_id : d1 <> "item_id".
Hypothesis d2_not_item_id : d2 <> "item_id".
Hypothesis right_frame : drill_frame d2 right.

(** The first two cells of the rows of the joined table, once [item_id]
    is dropped: the value of the first-level row, then the cell that the
    row of [right] has under the second dimension. *)
Lemma joined_rows_head (rs : list ReportRow) (table : Pandas.DataFrame) :
  match Pandas.merge
          (Pandas.mkDataFrame ["item_id"; d1] (stage1_table_rows 0 rs))
          right "item_id" with
  | Ok merged => Pandas.drop merged ["item_id"]
  | Raise e => Raise e
  end = Ok table ->
  map (fun r => firstn 2 (snd r)) (Pandas.df_rows table)
  = flat_map
      (fun row =>
         map (fun r => [Some (Pandas.VStr (value row));
                        Pandas.row_get (Pandas.df_columns right) (snd r) d2])
           (filter
              (fun r => Pandas.cell_eqb
                          (Pandas.row_get (Pandas.df_columns right) (snd r)
                             "item_id")
                          (Some (Pandas.VStr (itemId row))))
              (Pandas.df_rows right)))
      rs.
Proof.
  destruct right_frame as [[rest Hcols] Hcells].
  intros Htable. rewrite merge_first_level in Htable.
  2: { rewrite Hcols. left. reflexivity. }
  rewrite drop_item_id in Htable. injection Htable as <-.
  cbn [Pandas.df_rows]. rewrite map_map.
  set (J := flat_map (joined_with d1 right) (stage1_table_rows 0 rs)).
  set (M := "item_id"
              :: Pandas.suffixed (Pandas.df_columns right) "item_id" "_x" d1
              :: map (Pandas.suffixed ["item_id"; d1] "item_id" "_y")
                   (filter (fun c => negb (Py.isin c ["item_id"]))
                      (Pandas.df_columns right))).
  transitivity
    (map (fun cells => firstn 2 (Pandas.drop_cells ["item_id"] M cells))
       (map snd (combine (seq 0 (List.length J)) J))).
  { rewrite map_map. reflexivity. }
  rewrite map_snd_combine_seq. subst J.
  assert (Hgen : forall j,
    map (fun cells => firstn 2 (Pandas.drop_cells ["item_id"] M cells))
      (flat_map (joined_with d1 right) (stage1_table_rows j rs))
    = flat_map
        (fun row =>
           map (fun r => [Some (Pandas.VStr (value row));
                          Pandas.row_get (Pandas.df_columns right) (snd r) d2])
             (filter
                (fun r => Pandas.cell_eqb
                            (Pandas.row_get (Pandas.df_columns right) (snd r)
                               "item_id")
                            (Some (Pandas.VStr (itemId row))))
                (Pandas.df_rows right)))
        rs); [| apply Hgen].
  induction rs as [| row rs' IH]; intros j; [reflexivity |].
  cbn [stage1_table_rows flat_map]. rewrite map_app, IH. f_equal.
  unfold joined_with. cbn [snd].
  change (Pandas.row_get ["item_id"; d1]
            [Some (Pandas.VStr (itemId row)); Some (Pandas.VStr (value row))]
            "item_id")
    with (Some (Pandas.VStr (itemId row))).
  rewrite map_map. apply map_ext_in. intros r Hr.
  apply filter_In in Hr. destruct Hr as [Hr _].
  rewrite Forall_forall in Hcells. destruct (Hcells r Hr) as [f Hf].
  rewrite Hf. subst M. rewrite Hcols.
  cbn [map app filter Pandas.drop_cells Pandas.row_get].
  replace (Py.isin "item_id" ["item_id"]) with true by reflexivity.
  rewrite (not_item_id d2 d2_not_item_id).
  cbn [negb map Pandas.drop_cells].
  rewrite (not_item_id _ (suffixed_not_item_id _ "_x" d1 d1_not_item_id
                            (or_introl eq_refl))).
  rewrite (not_item_id _ (suffixed_not_item_id _ "_y" d2 d2_not_item_id
                            (or_intror eq_refl))).
  cbn [firstn].
  rewrite (proj2 (String.eqb_neq _ _) d2_not_item_id), String.eqb_refl.
  reflexivity.
Qed.

End JoinRows.

(** ** The metric container of a report body *)

Section MetricContainerFacts.

Variable dim breakdown_dimension item_id : option string.

Lemma build_metrics_filters (idx : nat) (ms : list string) :
  snd (build_metrics dim breakdown_dimension item_id idx ms)
  = if Py.truthy_opt dim
    then map (fun i => mkMetricFilter i "breakdown" breakdown_dimension item_id)
           (seq idx (List.length ms))
    else [].
Proof.
  revert idx. induction ms as [| met rest IH]; intros idx; simpl.
  - destruct (Py.truthy_opt dim); reflexivity.
  - specialize (IH (S idx)).
    destruct (build_metrics dim breakdown_dimension item_id (S idx) rest)
      as [metrics metric_filters].
    simpl in *. rewrite IH. destruct (Py.truthy_opt dim); reflexivity.
Qed.

Lemma build_metrics_references (idx : nat) (ms : list string) :
  map filters (fst (build_metrics dim breakdown_dimension item_id idx ms))
  = map (fun i => if Py.truthy_opt breakdown_dimension then Some [i] else None)
      (seq idx (List.length ms)).
Proof.
  revert idx. induction ms as [| met rest IH]; intros idx; simpl.
  - reflexivity.
  - specialize (IH (S idx)).
    destruct (build_metrics dim breakdown_dimension item_id (S idx) rest)
      as [metrics metric_filters].
    simpl in *. rewrite IH. reflexivity.
Qed.

End MetricContainerFacts.

(** The body's filter entries follow the row dimension, the references of
    its metrics follow the breakdown dimension. *)
Lemma metric_container_shape mets dim segments bd item date_range lim query :
  metricFilters
    (metricContainer
       (report_body mets dim segments bd item date_range lim query))
  = (if Py.truthy_opt dim
     then map (fun i => mkMetricFilter i "breakdown" bd item)
            (seq 0 (List.length mets))
     else [])
  /\ map filters
       (metrics
          (metricContainer
             (report_body mets dim segments bd item date_range lim query)))
     = map (fun i => if Py.truthy_opt bd then Some [i] else None)
         (seq 0 (List.length mets)).
Proof.
  unfold report_body.
  pose proof (build_metrics_filters dim bd item 0 mets) as Hf.
  pose proof (build_metrics_references dim bd item 0 mets) as Hr.
  destruct (build_metrics dim bd item 0 mets) as [ms fs].
  split; [exact Hf | exact Hr].
Qed.

(** The settings of a body: repeat instances are counted, and the limit is
    the one [_get_report] was given. *)
Lemma report_body_settings mets dim segments bd item date_range lim query :
  settings (report_body mets dim segments bd item date_range lim query)
  = mkSettings true lim.
Proof.
  unfold report_body. destruct (build_metrics dim bd item 0 mets).
  reflexivity.
Qed.

(** ** The log-and-error monad *)

Lemma bind_ok {A B : Type} (a : A) (log : list ReportBody) (k : A -> M B) :
  bind (Ok a, log) k = (fst (k a), log ++ snd (k a)).
Proof. unfold bind. destruct (k a); reflexivity. Qed.

Lemma bind_ret {A B : Type} (a : A) (k : A -> M B) : bind (ret a) k = k a.
Proof. unfold bind, ret. destruct (k a); reflexivity. Qed.

Lemma bind_lift_ok {A B : Type} (a : A) (k : A -> M B) :
  bind (lift (Ok a)) k = k a.
Proof. exact (bind_ret a k). Qed.

Lemma bind_post_log {A B : Type} (a : A) (b : ReportBody) (k : A -> M B) :
  bind (Ok a, [b]) k = (fst (k a), b :: snd (k a)).
Proof. unfold bind. destruct (k a); reflexivity. Qed.

Section ReportFacts.

Variable api : ReportBody -> Response.
Variables yesterday today : string.

Lemma get_report_some mets dim segments query bd item sd ed lim :
  _get_report api yesterday today mets dim segments (Some query) bd item sd ed lim
  = (Ok (api (report_body mets dim segments bd item
                (date_range yesterday today sd ed) lim query)),
     [report_body mets dim segments bd item
        (date_range yesterday today sd ed) lim query]).
Proof. reflexivity. Qed.

Lemma get_report_none mets dim segments bd item sd ed lim :
  _get_report api yesterday today mets dim segments None bd item sd ed lim
  = (Raise (AttributeError none_keys_msg), []).
Proof. reflexivity. Qed.

Lemma precondition_checks
    mets segments search_query sd ed lim dims :
  dims = [] \/ mets = [] \/ 2 < List.length dims \/ 1 < List.length segments ->
  exists msg,
    In msg [no_dimension_msg; no_metric_msg;
            too_many_dimensions_msg; too_many_segments_msg]
    /\ get_freeform_report api yesterday today mets segments search_query
         sd ed lim dims
       = (Raise (PyException msg), []).
Proof.
  intros H. unfold get_freeform_report.
  destruct (Nat.eqb_spec (List.length dims) 0) as [Hd | Hd].
  { exists no_dimension_msg. split; [simpl; auto | reflexivity]. }
  destruct (Nat.eqb_spec (List.length mets) 0) as [Hm | Hm].
  { exists no_metric_msg. split; [simpl; auto | reflexivity]. }
  destruct (Nat.ltb_spec 2 (List.length dims)) as [H2 | H2].
  { exists too_many_dimensions_msg. split; [simpl; auto | reflexivity]. }
  destruct (Nat.ltb_spec 1 (List.length segments)) as [H1 | H1].
  { exists too_many_segments_msg. split; [simpl; auto 6 | reflexivity]. }
  exfalso. destruct H as [H | [H | [H | H]]].
  - subst dims. apply Hd. reflexivity.
  - subst mets. apply Hm. reflexivity.
  - lia.
  - lia.
Qed.

Lemma no_search_query
    mets segments sd ed lim dims :
  dims <> [] -> mets <> [] ->
  List.length dims <= 2 -> List.length segments <= 1 ->
  get_freeform_report api yesterday today mets segments None sd ed lim dims
  = (Raise (AttributeError none_keys_msg), []).
Proof.
  intros Hd Hm H2 H1. unfold get_freeform_report.
  destruct dims as [| dim rest]; [contradiction |].
  destruct mets as [| met mets']; [contradiction |].
  replace (List.length (dim :: rest) =? 0)%nat with false by reflexivity.
  replace (List.length (met :: mets') =? 0)%nat with false by reflexivity.
  rewrite (proj2 (Nat.ltb_ge _ _) H2), (proj2 (Nat.ltb_ge _ _) H1).
  cbn [dims_loop Nat.eqb]. unfold api_call_1.
  rewrite get_report_none. reflexivity.
Qed.

(** C3. A call of the freeform assembler with no dimension, with no
    metric, with more than two dimensions or with more than one segment
    raises the exception of the precondition it breaks, and no report
    request has been issued. *)
Theorem freeform_rejects_bad_arguments
    mets segments search_query sd ed lim dims :
  dims = [] \/ mets = [] \/ 2 < List.length dims \/ 1 < List.length segments ->
  exists msg,
    In msg [no_dimension_msg; no_metric_msg;
            too_many_dimensions_msg; too_many_segments_msg]
    /\ get_freeform_report api yesterday today mets segments search_query
         sd ed lim dims
       = (Raise (PyException msg), []).
Proof. apply precondition_checks. Qed.

(** C10. A call of the freeform assembler that passes the precondition
    checks and has no search-query mapping (the default, [None]) raises:
    the body builder asks [None] for its keys.  No table is returned and
    nothing has been POSTed. *)
Theorem freeform_without_search_query_raises
    mets segments sd ed lim dims :
  dims <> [] -> mets <> [] ->
  List.length dims <= 2 -> List.length segments <= 1 ->
  get_freeform_report api yesterday today mets segments None sd ed lim dims
  = (Raise (AttributeError none_keys_msg), []).
Proof. apply no_search_query. Qed.

(** A drill-down that finds no row ends the loop over the items with the
    no-results exception; so it is the last body of the log. *)
Lemma stage2_items_empty_response
    mets segments search_query sd ed dim bd ids df r log :
  stage2_items api yesterday today mets segments search_query sd ed
    dim bd ids df = (r, log) ->
  forall b, In b log -> rows (api b) = [] ->
  r = Raise (PyException no_results_msg).
Proof.
  revert df r log.
  induction ids as [| item rest IH]; intros df r log Hrun b Hin Hempty.
  - inversion Hrun; subst. contradiction.
  - cbn [stage2_items] in Hrun.
    destruct search_query as [query |].
    + rewrite get_report_some in Hrun. rewrite bind_ok in Hrun.
      set (body := report_body mets (Some dim) segments (Some bd) (Some item)
                     (date_range yesterday today sd ed) 50 query) in *.
      destruct (Nat.eqb_spec (List.length (rows (api body))) 0) as [Hz | Hnz].
      * inversion Hrun; subst. reflexivity.
      * destruct (stage2_rows mets dim item (rows (api body)) df)
          as [df' | e] eqn:Hrows.
        -- unfold lift in Hrun. rewrite bind_ok in Hrun.
           destruct (stage2_items api yesterday today mets segments
                       (Some query) sd ed dim bd rest df')
             as [r' log'] eqn:Hrest.
           simpl in Hrun. inversion Hrun; subst.
           destruct Hin as [Hb | Hin].
           ++ subst b. rewrite Hempty in Hnz. contradiction.
           ++ eapply IH; eauto.
        -- simpl in Hrun. inversion Hrun; subst.
           destruct Hin as [Hb | []].
           subst b. rewrite Hempty in Hnz. contradiction.
    + rewrite get_report_none in Hrun. simpl in Hrun.
      inversion Hrun; subst. contradiction.
Qed.

(** The loop over the items when every drill-down finds rows that fit
    the metric list: one request per item, and the [item_id] column of
    the collected frame repeats each item once per row found for it. *)
Lemma stage2_items_ok mets segments query sd ed dim bd :
  dim <> "item_id" -> ~ In "item_id" mets ->
  let body item :=
    report_body mets (Some dim) segments (Some bd) (Some item)
      (date_range yesterday today sd ed) 50 query in
  forall ids data_df,
    (forall item, In item ids ->
       rows (api (body item)) <> []
       /\ forall row, In row (rows (api (body item))) ->
                      List.length (data row) <= List.length mets) ->
    exists data_df',
      stage2_items api yesterday today mets segments (Some query) sd ed
        dim bd ids data_df = (Ok data_df', map body ids)
      /\ column_cells data_df' "item_id"
         = column_cells data_df "item_id"
             ++ flat_map
                  (fun item => repeat (Some (Pandas.VStr item))
                                 (List.length (rows (api (body item))))) ids
      /\ (forall c, In c (Pandas.df_columns data_df') ->
            In c (Pandas.df_columns data_df)
            \/ c = "item_id" \/ c = dim \/ In c mets)
      /\ (In "item_id" (Pandas.df_columns data_df) \/ ids <> [] ->
          In "item_id" (Pandas.df_columns data_df')).
Proof.
  intros Hdim Hmets body.
  induction ids as [| item rest IH]; intros data_df Hok.
  - exists data_df. repeat split; auto.
    + simpl. rewrite app_nil_r. reflexivity.
    + intros [H | H]; [exact H | contradiction].
  - destruct (Hok item (or_introl eq_refl)) as [Hrows Hfit].
    destruct (stage2_rows_ok mets dim item (rows (api (body item)))
                Hdim Hmets data_df Hfit)
      as [df1 [Hrun1 [Hcells1 [Hcols1 Hkey1]]]].
    destruct (IH df1) as [df' [Hrun [Hcells [Hcols Hkey]]]].
    { intros i Hi. apply Hok. right. exact Hi. }
    exists df'. split; [| split; [| split]].
    + cbn [stage2_items]. rewrite get_report_some. fold (body item).
      rewrite bind_post_log.
      destruct (Nat.eqb_spec (List.length (rows (api (body item)))) 0)
        as [Hz | _].
      { destruct (rows (api (body item))); [contradiction | discriminate]. }
      rewrite Hrun1, bind_lift_ok, Hrun. reflexivity.
    + rewrite Hcells, Hcells1. simpl. rewrite <- app_assoc. reflexivity.
    + intros c Hc. destruct (Hcols c Hc) as [H | H]; [| auto].
      apply Hcols1. exact H.
    + intros _. apply Hkey. left. apply Hkey1. right. exact Hrows.
Qed.

(** The run of the assembler on one dimension and on two, once the
    precondition checks are passed and a search-query dict is there. *)
Lemma freeform_one_dimension mets segments query sd ed lim d1 :
  mets <> [] -> List.length segments <= 1 ->
  get_freeform_report api yesterday today mets segments (Some query)
    sd ed lim [d1]
  = (Pandas.drop
       (stage1_rows d1 0
          (rows (api (stage1_body yesterday today mets segments query sd ed lim d1)))
          Pandas.empty)
       ["item_id"],
     [stage1_body yesterday today mets segments query sd ed lim d1]).
Proof.
  intros Hm H1. unfold get_freeform_report.
  destruct mets as [| met mets']; [contradiction |].
  replace (List.length (met :: mets') =? 0)%nat with false by reflexivity.
  rewrite (proj2 (Nat.ltb_ge _ _) H1).
  cbn [List.length Nat.eqb Nat.ltb Nat.leb dims_loop].
  unfold api_call_1. rewrite get_report_some. reflexivity.
Qed.

Lemma freeform_two_dimensions_run mets segments query sd ed lim d1 d2 :
  mets <> [] -> List.length segments <= 1 ->
  let b1 := stage1_body yesterday today mets segments query sd ed lim d1 in
  get_freeform_report api yesterday today mets segments (Some query)
    sd ed lim [d1; d2]
  = match stage2_items api yesterday today mets segments (Some query) sd ed
            d2 (dimension_id (api b1)) (map itemId (rows (api b1)))
            Pandas.empty with
    | (Ok data_df, log2) =>
        (match Pandas.merge
                 (stage1_rows d1 0 (rows (api b1)) Pandas.empty)
                 data_df "item_id" with
         | Ok merged => Pandas.drop merged ["item_id"]
         | Raise e => Raise e
         end, b1 :: log2)
    | (Raise e, log2) => (Raise e, b1 :: log2)
    end.
Proof.
  intros Hm H1 b1. unfold get_freeform_report.
  destruct mets as [| met mets']; [contradiction |].
  replace (List.length (met :: mets') =? 0)%nat with false by reflexivity.
  rewrite (proj2 (Nat.ltb_ge _ _) H1).
  cbn [List.length Nat.eqb Nat.ltb Nat.leb dims_loop].
  unfold api_call_1. rewrite get_report_some.
  fold (stage1_body yesterday today (met :: mets') segments query sd ed lim d1).
  fold b1. unfold api_call_2.
  cbn [bind ret app result_df breakdown_dimension item_ids].
  destruct (stage2_items api yesterday today (met :: mets') segments
              (Some query) sd ed d2 (dimension_id (api b1))
              (map itemId (rows (api b1))) Pandas.empty)
    as [[data_df | e] log2]; [| reflexivity].
  unfold lift. cbn [bind ret app result_df breakdown_dimension item_ids].
  destruct (Pandas.merge (stage1_rows d1 0 (rows (api b1)) Pandas.empty)
              data_df "item_id")
    as [merged | e]; cbn; rewrite ?app_nil_r; reflexivity.
Qed.

(** On one dimension the table has that dimension as its only column, one
    row per row of the answer; no metric column is made. *)
Lemma one_dimension_columns mets segments query sd ed lim d1 :
  mets <> [] -> List.length segments <= 1 -> d1 <> "item_id" ->
  rows (api (stage1_body yesterday today mets segments query sd ed lim d1)) <> [] ->
  exists table,
    get_freeform_report api yesterday today mets segments (Some query)
      sd ed lim [d1]
    = (Ok table, [stage1_body yesterday today mets segments query sd ed lim d1])
    /\ Pandas.df_columns table = [d1]
    /\ List.length (Pandas.df_rows table)
       = List.length
           (rows (api (stage1_body yesterday today mets segments query
                         sd ed lim d1))).
Proof.
  intros Hmets Hsegs Hd1 Hrows.
  rewrite freeform_one_dimension by assumption.
  rewrite (stage1_rows_from_empty d1 Hd1 _ Hrows).
  unfold Pandas.drop, Pandas.has_column.
  cbn [Pandas.df_columns Pandas.df_rows filter Py.isin existsb String.eqb
       Ascii.eqb Bool.eqb andb orb negb].
  rewrite (proj2 (String.eqb_neq _ _) Hd1). cbn [orb negb].
  eexists. split; [reflexivity |]. split; [reflexivity |].
  cbn [Pandas.df_rows]. rewrite length_map. apply stage1_table_rows_length.
Qed.

(** Every drill-down body carries the limit 50, whatever limit was asked. *)
Lemma drilldown_body_limit mets segments query sd ed d1 d2 lim item :
  settings (stage2_body api yesterday today mets segments query sd ed d1 d2
              lim item)
  = mkSettings true 50.
Proof.
  unfold stage2_body, report_body.
  destruct (build_metrics _ _ _ 0 mets). reflexivity.
Qed.

(** When every drill-down that was issued came back with rows that fit
    the metric list, the drill-down of every item did. *)
Lemma stage2_items_all_good mets segments query sd ed dim bd :
  let body item :=
    report_body mets (Some dim) segments (Some bd) (Some item)
      (date_range yesterday today sd ed) 50 query in
  forall ids data_df,
    (forall b,
        In b (snd (stage2_items api yesterday today mets segments (Some query)
                     sd ed dim bd ids data_df)) ->
        rows (api b) <> []
        /\ forall row, In row (rows (api b)) ->
                       List.length (data row) <= List.length mets) ->
    forall item, In item ids ->
      rows (api (body item)) <> []
      /\ forall row, In row (rows (api (body item))) ->
                     List.length (data row) <= List.length mets.
Proof.
  intros body. induction ids as [| item rest IH]; intros data_df Hlog i Hi;
    [contradiction |].
  cbn [stage2_items] in Hlog. rewrite get_report_some in Hlog.
  fold (body item) in Hlog. rewrite bind_post_log in Hlog. cbn [snd] in Hlog.
  assert (Hhead : rows (api (body item)) <> []
                  /\ forall row, In row (rows (api (body item))) ->
                                 List.length (data row) <= List.length mets).
  { apply Hlog. left. reflexivity. }
  destruct Hi as [<- | Hi]; [exact Hhead |].
  destruct Hhead as [Hrows Hfit].
  assert (Hnz : (List.length (rows (api (body item))) =? 0)%nat = false).
  { destruct (rows (api (body item))); [contradiction | reflexivity]. }
  rewrite Hnz in Hlog.
  destruct (stage2_rows_result mets dim item (rows (api (body item))) data_df)
    as [Hok _].
  destruct Hok as [df1 Hdf1]; [apply Forall_forall; exact Hfit |].
  rewrite Hdf1, bind_lift_ok in Hlog.
  apply (IH df1); [| exact Hi].
  intros b Hb. apply Hlog. right. exact Hb.
Qed.

(** The item id and the dimension value of the collected frame, row by
    row: one block per item, one pair per row found for it. *)
Lemma stage2_items_pairs mets segments query sd ed dim bd :
  dim <> "item_id" -> ~ In "item_id" mets -> ~ In dim mets ->
  let body item :=
    report_body mets (Some dim) segments (Some bd) (Some item)
      (date_range yesterday today sd ed) 50 query in
  forall ids data_df data_df' log,
    stage2_items api yesterday today mets segments (Some query) sd ed
      dim bd ids data_df = (Ok data_df', log) ->
    column_pairs data_df' "item_id" dim
    = column_pairs data_df "item_id" dim
        ++ flat_map
             (fun item =>
                map (fun r2 => (Some (Pandas.VStr item),
                                Some (Pandas.VStr (value r2))))
                  (rows (api (body item))))
             ids.
Proof.
  intros Hdim Hkey Hdm body.
  induction ids as [| item rest IH]; intros data_df data_df' log Hrun.
  - inversion Hrun; subst. simpl. rewrite app_nil_r. reflexivity.
  - cbn [stage2_items] in Hrun. rewrite get_report_some in Hrun.
    fold (body item) in Hrun. rewrite bind_post_log in Hrun.
    destruct (List.length (rows (api (body item))) =? 0)%nat;
      [discriminate Hrun |].
    destruct (stage2_rows mets dim item (rows (api (body item))) data_df)
      as [df1 | e] eqn:Hrows; [| discriminate Hrun].
    rewrite bind_lift_ok in Hrun.
    destruct (stage2_items api yesterday today mets segments (Some query)
                sd ed dim bd rest df1) as [r' log'] eqn:Hrest.
    cbn [fst snd] in Hrun. inversion Hrun; subst r' log.
    rewrite (IH _ _ _ Hrest).
    rewrite (stage2_rows_pairs mets dim item Hdim Hkey Hdm _ _ _ Hrows).
    cbn [flat_map]. rewrite <- app_assoc. reflexivity.
Qed.

(** A drill-down body has the second dimension as row dimension, and its
    breakdown filter entries name the item it drills into. *)
Lemma drilldown_targets mets segments bd range lim query d2
    (rs : list ReportRow) :
  Forall2
    (fun row b =>
       dimension b = Some d2
       /\ forall f, In f (metricFilters (metricContainer b)) ->
                    filter_itemId f = Some (itemId row))
    rs
    (map (fun row =>
            report_body mets (Some d2) segments (Some bd) (Some (itemId row))
              range lim query) rs).
Proof.
  induction rs as [| row rest IH]; [constructor |].
  cbn [map]. constructor; [| exact IH]. split.
  - unfold report_body.
    destruct (build_metrics (Some d2) (Some bd) (Some (itemId row)) 0 mets).
    reflexivity.
  - intros f Hf.
    destruct (metric_container_shape mets (Some d2) segments (Some bd)
                (Some (itemId row)) range lim query) as [Hfilters _].
    rewrite Hfilters in Hf.
    destruct (Py.truthy_opt (Some d2)); [| contradiction].
    apply in_map_iff in Hf. destruct Hf as [i [<- _]]. reflexivity.
Qed.

(** The collected frame after the loop over the items. *)
Lemma stage2_items_frame mets segments query sd ed dim bd :
  dim <> "item_id" ->
  forall ids data_df data_df' log,
    data_df = Pandas.empty \/ drill_frame dim data_df ->
    stage2_items api yesterday today mets segments (Some query) sd ed
      dim bd ids data_df = (Ok data_df', log) ->
    (data_df' = Pandas.empty \/ drill_frame dim data_df')
    /\ (ids <> [] -> drill_frame dim data_df').
Proof.
  intros Hdim.
  induction ids as [| item rest IH]; intros data_df data_df' log Hdf Hrun.
  - inversion Hrun; subst. split; [exact Hdf | intros H; contradiction].
  - cbn [stage2_items] in Hrun. rewrite get_report_some in Hrun.
    rewrite bind_post_log in Hrun.
    match type of Hrun with
    | context [rows (api ?b)] => set (found := rows (api b)) in *
    end.
    destruct (List.length found =? 0)%nat eqn:Hz; [discriminate Hrun |].
    destruct (stage2_rows mets dim item found data_df)
      as [df1 | e] eqn:Hrows; [| discriminate Hrun].
    rewrite bind_lift_ok in Hrun.
    destruct (stage2_items api yesterday today mets segments (Some query)
                sd ed dim bd rest df1) as [r' log'] eqn:Hrest.
    cbn [fst snd] in Hrun. inversion Hrun; subst r' log.
    destruct (stage2_rows_frame mets dim item Hdim _ _ _ Hdf Hrows)
      as [_ Hne1].
    assert (Hf1 : drill_frame dim df1).
    { apply Hne1. intros Hnil. rewrite Hnil in Hz. discriminate Hz. }
    destruct (IH _ _ _ (or_intror Hf1) Hrest) as [Hinv Hne].
    split; [exact Hinv |]. intros _.
    destruct rest as [| item' rest'].
    + inversion Hrest; subst. exact Hf1.
    + apply Hne. discriminate.
Qed.


(** C2. Whenever a per-item drill-down request of the freeform assembler
    -- any request after the first one of the run -- comes back with zero
    rows, the run ends with the no-results exception: no table, partial
    or not, is returned. *)
Theorem empty_drilldown_aborts
    mets segments search_query sd ed lim dims r log :
  get_freeform_report api yesterday today mets segments search_query
    sd ed lim dims = (r, log) ->
  (exists b, In b (tl log) /\ rows (api b) = []) ->
  r = Raise (PyException no_results_msg).
Proof.
  intros Hrun [b [Hin Hempty]].
  destruct (Nat.eq_dec (List.length dims) 0) as [Hd | Hd].
  { destruct (precondition_checks mets segments search_query
                sd ed lim dims) as [msg [_ Hraise]].
    - left. destruct dims; [reflexivity | discriminate].
    - rewrite Hraise in Hrun. inversion Hrun; subst. contradiction. }
  destruct (Nat.eq_dec (List.length mets) 0) as [Hm | Hm].
  { destruct (precondition_checks mets segments search_query
                sd ed lim dims) as [msg [_ Hraise]].
    - right; left. destruct mets; [reflexivity | discriminate].
    - rewrite Hraise in Hrun. inversion Hrun; subst. contradiction. }
  destruct (le_lt_dec (List.length dims) 2) as [H2 | H2].
  2: { destruct (precondition_checks mets segments search_query
                   sd ed lim dims) as [msg [_ Hraise]]; [auto |].
       rewrite Hraise in Hrun. inversion Hrun; subst. contradiction. }
  destruct (le_lt_dec (List.length segments) 1) as [H1 | H1].
  2: { destruct (precondition_checks mets segments search_query
                   sd ed lim dims) as [msg [_ Hraise]]; [auto |].
       rewrite Hraise in Hrun. inversion Hrun; subst. contradiction. }
  assert (Hmets : mets <> []) by (intros ->; apply Hm; reflexivity).
  destruct search_query as [query |].
  2: { rewrite no_search_query in Hrun; auto.
       - inversion Hrun; subst. contradiction.
       - intros ->. apply Hd. reflexivity. }
  destruct dims as [| d1 [| d2 [| d3 rest]]].
  - exfalso. apply Hd. reflexivity.
  - rewrite freeform_one_dimension in Hrun by assumption.
    inversion Hrun; subst. contradiction.
  - rewrite freeform_two_dimensions_run in Hrun by assumption.
    cbv zeta in Hrun.
    match type of Hrun with
    | context [stage2_items ?a ?y ?t ?m ?s ?q ?sd ?ed ?d ?bd ?ids ?df] =>
        destruct (stage2_items a y t m s q sd ed d bd ids df)
          as [r2 log2] eqn:Hitems
    end.
    assert (Hr2 : r2 = Raise (PyException no_results_msg)).
    { eapply stage2_items_empty_response; eauto.
      destruct r2; inversion Hrun; subst; exact Hin. }
    subst r2. inversion Hrun; subst. reflexivity.
  - simpl in H2. lia.
Qed.

End ReportFacts.

(** ** Name filters of the metadata listings *)

Lemma existsb_orb {A : Type} (f g : A -> bool) (l : list A) :
  existsb (fun x => f x || g x) l = existsb f l || existsb g l.
Proof.
  induction l as [| x l IH]; simpl; [reflexivity |].
  rewrite IH. destruct (f x), (g x), (existsb f l), (existsb g l); reflexivity.
Qed.

Lemma existsb_map {A B : Type} (f : B -> bool) (g : A -> B) (l : list A) :
  existsb f (map g l) = existsb (fun x => f (g x)) l.
Proof. induction l as [| x l IH]; simpl; [| rewrite IH]; reflexivity. Qed.

Lemma existsb_ext_eq {A : Type} (f g : A -> bool) (l : list A) :
  (forall x, f x = g x) -> existsb f l = existsb g l.
Proof.
  intros H. induction l as [| x l IH]; simpl; [| rewrite H, IH]; reflexivity.
Qed.

(** [contains] is the occurrence of one text in another. *)
Lemma starts_with_spec (t s : string) :
  starts_with t s = true <-> exists post, s = (t ++ post)%string.
Proof.
  revert s. induction t as [| a t IH]; intros s; simpl.
  - split; [exists s; reflexivity | reflexivity].
  - destruct s as [| b s].
    + split; [discriminate | intros [post H]; discriminate].
    + rewrite andb_true_iff, IH. split.
      * intros [Hab [post Hs]]. apply Ascii.eqb_eq in Hab. subst.
        exists post. reflexivity.
      * intros [post H]. inversion H; subst. split.
        -- apply Ascii.eqb_refl.
        -- exists post. reflexivity.
Qed.

Lemma contains_spec (t s : string) :
  contains t s = true <-> exists pre post, s = (pre ++ t ++ post)%string.
Proof.
  induction s as [| c s IH]; simpl; rewrite orb_true_iff.
  - split.
    + intros [H | H]; [| discriminate].
      apply starts_with_spec in H. destruct H as [post H].
      exists EmptyString, post. exact H.
    + intros [pre [post H]]. left. apply starts_with_spec.
      destruct pre; [exists post; exact H | discriminate].
  - rewrite IH, starts_with_spec. split.
    + intros [[post H] | [pre [post H]]].
      * exists EmptyString, post. exact H.
      * exists (String c pre), post. simpl. rewrite H. reflexivity.
    + intros [pre [post H]]. destruct pre as [| c' pre].
      * left. exists post. exact H.
      * right. simpl in H. inversion H; subst. exists pre, post. reflexivity.
Qed.

Lemma parse_atom_plain (c : ascii) :
  plain_char c = true -> Re.parse_atom c = Some (Re.Lit c).
Proof.
  unfold plain_char, Re.parse_atom. intros H.
  apply andb_true_iff in H. destruct H as [H Hop].
  apply andb_true_iff in H. destruct H as [_ Hdot].
  apply negb_true_iff in Hdot, Hop. rewrite Hdot, Hop. reflexivity.
Qed.

Lemma compile_plain_app (t rest : string) b bs :
  plain_term t = true ->
  Re.compile rest = Some (b :: bs) ->
  Re.compile (t ++ rest) = Some ((literals t ++ b) :: bs).
Proof.
  intros Hplain Hrest. induction t as [| c t IH]; simpl in *; [exact Hrest |].
  apply andb_true_iff in Hplain. destruct Hplain as [Hc Ht].
  rewrite (IH Ht), (parse_atom_plain c Hc).
  unfold plain_char in Hc. apply andb_true_iff in Hc. destruct Hc as [Hc _].
  apply andb_true_iff in Hc. destruct Hc as [Hbar _].
  apply negb_true_iff in Hbar. rewrite Hbar. reflexivity.
Qed.

Lemma compile_bar (rest : string) :
  Re.compile (String "|" rest)
  = match Re.compile rest with
    | None => None
    | Some branches => Some ([] :: branches)
    end.
Proof. reflexivity. Qed.

Lemma compile_join_plain (t : string) (terms : list string) :
  Forall (fun t => plain_term t = true) (t :: terms) ->
  Re.compile (Py.join "|" (t :: terms)) = Some (map literals (t :: terms)).
Proof.
  revert t. induction terms as [| t2 terms IH]; intros t Hplain.
  - inversion Hplain; subst. unfold Py.join. simpl String.concat.
    replace t with (t ++ "")%string at 1.
    + rewrite (compile_plain_app t "" [] []); [| assumption | reflexivity].
      rewrite app_nil_r. reflexivity.
    + clear. induction t as [| c t IH]; simpl; [| rewrite IH]; reflexivity.
  - inversion Hplain; subst. specialize (IH t2 H2).
    unfold Py.join in *.
    change (String.concat "|" (t :: t2 :: terms))
      with (t ++ String "|" (String.concat "|" (t2 :: terms)))%string.
    rewrite (compile_plain_app t _ [] (map literals (t2 :: terms)));
      [rewrite app_nil_r; reflexivity | assumption |].
    rewrite compile_bar, IH. reflexivity.
Qed.

Lemma match_here_literals (t s : string) :
  Re.match_here (literals t) s = starts_with (Py.lower t) (Py.lower s).
Proof.
  revert s. induction t as [| a t IH]; intros s; simpl; [reflexivity |].
  destruct s as [| b s]; simpl; [reflexivity |]. rewrite IH. reflexivity.
Qed.

Lemma search_literals (terms : list string) (s : string) :
  Re.search (map literals terms) s = name_contains_any terms s.
Proof.
  unfold name_contains_any.
  induction s as [| c s IH]; simpl.
  - rewrite orb_false_r, existsb_map. apply existsb_ext_eq. intros t.
    rewrite match_here_literals. simpl. rewrite orb_false_r. reflexivity.
  - rewrite IH, existsb_map, <- existsb_orb. apply existsb_ext_eq. intros t.
    rewrite match_here_literals. reflexivity.
Qed.

Lemma isin_lower (terms : list string) (name : string) :
  Py.isin (Py.lower name) (map Py.lower terms) = name_equals_any terms name.
Proof. unfold Py.isin, name_equals_any. apply existsb_map. Qed.

Lemma select_by_name_ext (all : list MetaRow) (f g : string -> bool) :
  (forall name, f name = g name) -> select_by_name all f = select_by_name all g.
Proof.
  intros H. unfold select_by_name. f_equal. apply filter_ext.
  intros r. apply H.
Qed.

Lemma filter_listing_semantics (all : list MetaRow) (terms : list string)
    (exact : bool) :
  (exact = false -> Forall (fun t => plain_term t = true) terms) ->
  (terms <> [] -> all <> []) ->
  filter_listing all terms exact = Ok (listing_as_specified all terms exact).
Proof.
  intros Hplain Hall. unfold filter_listing, listing_as_specified.
  destruct terms as [| t terms]; [reflexivity |].
  cbn [List.length Nat.eqb].
  destruct all as [| r all]; [exfalso; apply Hall; [discriminate | reflexivity] |].
  destruct exact.
  - f_equal. apply select_by_name_ext. intros name. apply isin_lower.
  - rewrite compile_join_plain by (apply Hplain; reflexivity).
    f_equal. apply select_by_name_ext. intros name. apply search_literals.
Qed.

Lemma listing_as_specified_rows (all : list MetaRow) (terms : list string)
    (exact : bool) (r : MetaRow) :
  terms <> [] ->
  In r (listing_as_specified all terms exact)
  <-> exists listed,
        In listed all /\ r = id_name listed
        /\ name_is_asked terms exact (m_name listed).
Proof.
  intros Hterms. destruct terms as [| t0 terms0]; [contradiction |].
  unfold listing_as_specified, select_by_name, name_is_asked.
  rewrite in_map_iff. split.
  - intros [listed [<- Hin]]. apply filter_In in Hin.
    destruct Hin as [Hin Hkeep]. exists listed.
    split; [exact Hin |]. split; [reflexivity |].
    destruct exact.
    + unfold name_equals_any in Hkeep. apply existsb_exists in Hkeep.
      destruct Hkeep as [t [Ht Heq]]. exists t. split; [exact Ht |].
      apply String.eqb_eq. exact Heq.
    + unfold name_contains_any in Hkeep. apply existsb_exists in Hkeep.
      destruct Hkeep as [t [Ht Hocc]]. exists t. split; [exact Ht |].
      apply contains_spec. exact Hocc.
  - intros [listed [Hin [-> [t [Ht Hasked]]]]]. exists listed.
    split; [reflexivity |]. apply filter_In. split; [exact Hin |].
    destruct exact.
    + unfold name_equals_any. apply existsb_exists. exists t.
      split; [exact Ht |]. apply String.eqb_eq. exact Hasked.
    + unfold name_contains_any. apply existsb_exists. exists t.
      split; [exact Ht |]. apply contains_spec. exact Hasked.
Qed.

(** C6 (amended). On ASCII text -- the search terms and the names listed
    --: with no search term both listings come back as fetched.  With
    search terms and a listing that is not empty, [exact=true] keeps, on
    the columns id and name and in the order of the listing, exactly the
    rows whose lowercased name is a lowercased term; [exact=false] keeps
    exactly the rows whose name contains a term, case aside, as long as no
    term holds a character that the regular-expression search reads as an
    operator. *)
Theorem name_filter_semantics (base_url : string)
    (http_get : string -> list MetaRow) (terms : list string) (exact : bool) :
  ascii_terms terms ->
  ascii_names (http_get (dimensions_url base_url)) ->
  ascii_names (http_get (metrics_url base_url)) ->
  (exact = false -> Forall (fun t => plain_term t = true) terms) ->
  (terms <> [] ->
   http_get (dimensions_url base_url) <> []
   /\ http_get (metrics_url base_url) <> []) ->
  let as_asked (all found : list MetaRow) :=
    found = listing_as_specified all terms exact
    /\ (terms <> [] ->
        forall r,
          In r found
          <-> exists listed,
                In listed all /\ r = id_name listed
                /\ name_is_asked terms exact (m_name listed)) in
  (exists found,
      get_dimensions base_url http_get terms exact = Ok found
      /\ as_asked (http_get (dimensions_url base_url)) found)
  /\ (exists found,
         get_metrics base_url http_get terms exact = Ok found
         /\ as_asked (http_get (metrics_url base_url)) found).
Proof.
  intros _ _ _ Hplain Hall as_asked. subst as_asked.
  unfold get_dimensions, get_metrics.
  split; eexists;
    (split;
     [apply filter_listing_semantics;
      [exact Hplain | intros H; apply Hall; exact H]
     | split;
       [reflexivity
       | intros Hterms r; apply listing_as_specified_rows; exact Hterms]]).
Qed.

Lemma name_filter_semantics_witness :
  ascii_terms ["PAGE"] /\ ascii_names Sample.listing
  /\ exists found,
       get_dimensions "https://analytics.adobe.io/api/co" Sample.http_get
         ["PAGE"] false = Ok found
       /\ found = [ mkMetaRow "variables/page" "Page" [];
                    mkMetaRow "variables/evar1" "Landing page" [] ].
Proof.
  assert (Hterms : ascii_terms ["PAGE"]) by (repeat constructor).
  assert (Hnames : ascii_names Sample.listing) by (repeat constructor).
  split; [exact Hterms |]. split; [exact Hnames |].
  destruct (name_filter_semantics "https://analytics.adobe.io/api/co"
              Sample.http_get ["PAGE"] false Hterms Hnames Hnames)
    as [[found [Hrun [Hfound _]]] _].
  - intros _. repeat constructor.
  - intros _. split; discriminate.
  - exists found. split; [exact Hrun |]. rewrite Hfound. reflexivity.
Defined.

(** C6 as stated fails: the term "." is searched as a regular expression,
    so every listed name matches, while no name contains a dot. *)
Lemma name_filter_regex_counterexample :
  get_dimensions "https://analytics.adobe.io/api/co" Sample.http_get ["."] false
  = Ok (map id_name Sample.listing)
  /\ listing_as_specified Sample.listing ["."] false = [].
Proof. split; reflexivity. Qed.

(** ** The search term of the calculated-metric and segment listings *)

(** C7 (the code departs from it).  The search term is declared optional,
    yet a call that leaves it out -- the default [None] -- fails the
    assertion, like any value that is not text; only text is accepted, the
    empty text asking for the unfiltered URL. *)
Theorem search_term_left_out_is_rejected (base_url : string)
    (http_get : string -> list MetaRow) (limit : Z) :
  get_calculated_metrics base_url http_get PyNone limit
  = Raise (AssertionError "Search term must be a string.")
  /\ get_segments base_url http_get PyNone limit
     = Raise (AssertionError "Search term must be a string.")
  /\ get_segments base_url http_get (PyInt 7) limit
     = Raise (AssertionError "Search term must be a string.")
  /\ get_calculated_metrics base_url http_get (PyStr "") limit
     = Ok (http_get (calculated_metrics_url base_url limit))
  /\ get_segments base_url http_get (PyStr "") limit
     = Ok (http_get (segments_url base_url limit)).
Proof. repeat split. Qed.

(** ** Evaluations of report bodies *)

(** C4 (the code departs from it).  The filter references of the metrics
    depend on the breakdown dimension, but the breakdown filter entries
    depend on the row dimension: a request for the row dimension "page"
    without any breakdown carries a breakdown filter entry, with no
    dimension and no item, that no metric refers to. *)
Theorem breakdown_entry_without_breakdown :
  build_report_body_json ["visits"] (Some "page") [] (Some []) None None
    "2024-01-01T00:00:00.000/2024-01-02T00:00:00.000" 50
  = Ok (mkReportBody rsid
          [DateRangeFilter "2024-01-01T00:00:00.000/2024-01-02T00:00:00.000"]
          (mkMetricContainer
             [mkMetric 0 "visits" None]
             [mkMetricFilter 0 "breakdown" None None])
          (Some "page") (mkSettings true 50) None).
Proof. reflexivity. Qed.

(** ** Evaluations of the freeform assembler *)

(** C8 (the code departs from it).  Asked for a row limit of 10, the
    assembler sends 10 with its first request only; the drill-down requests
    carry the default 50.  Every request counts repeat instances. *)
Theorem drilldown_limit_is_default :
  map (fun b => limit (settings b))
    (snd (Sample.freeform Sample.api ["visits"] ["page"; "browser"] (Some []) 10))
  = [10%Z; 50%Z; 50%Z]
  /\ map (fun b => countRepeatInstances (settings b))
       (snd (Sample.freeform Sample.api ["visits"] ["page"; "browser"] (Some []) 10))
     = [true; true; true].
Proof. split; reflexivity. Qed.

(** C5 (the code departs from it).  For the dimension "page" and the metric
    "visits" between 2024-01-01 and 2024-01-02: with a search-query dict the
    assembler POSTs once and returns a table whose only column is "page",
    the metric is not in it; without one (the default) it raises and POSTs
    nothing. *)
Theorem one_dimension_table_has_no_metric :
  Sample.freeform Sample.api ["visits"] ["page"] (Some []) 50
  = (Ok (Pandas.mkDataFrame ["page"]
           [(0, [Some (Pandas.VStr "home")]); (1, [Some (Pandas.VStr "about")])]),
     [stage1_body "2023-12-31" "2024-01-01" ["visits"] [] []
        (Some "2024-01-01") (Some "2024-01-02") 50 "page"])
  /\ Sample.freeform Sample.api ["visits"] ["page"] None 50
     = (Raise (AttributeError none_keys_msg), []).
Proof. split; reflexivity. Qed.

(** ** Instances *)

Lemma freeform_rejects_bad_arguments_witness :
  (["page"; "browser"; "os"] = [] \/ ["visits"] = []
   \/ 2 < List.length ["page"; "browser"; "os"] \/ 1 < @List.length string [])
  /\ exists msg,
       In msg [no_dimension_msg; no_metric_msg;
               too_many_dimensions_msg; too_many_segments_msg]
       /\ get_freeform_report Sample.api "2023-12-31" "2024-01-01"
            ["visits"] [] (Some []) None None 50 ["page"; "browser"; "os"]
          = (Raise (PyException msg), []).
Proof.
  assert (H : ["page"; "browser"; "os"] = [] \/ ["visits"] = []
              \/ 2 < List.length ["page"; "browser"; "os"]
              \/ 1 < @List.length string []).
  { right. right. left. simpl. lia. }
  split; [exact H |].
  exact (freeform_rejects_bad_arguments Sample.api "2023-12-31" "2024-01-01"
           ["visits"] [] (Some []) None None 50 ["page"; "browser"; "os"] H).
Defined.

Lemma freeform_without_search_query_raises_witness :
  get_freeform_report Sample.api "2023-12-31" "2024-01-01"
    ["visits"] [] None None None 50 ["page"; "browser"]
  = (Raise (AttributeError none_keys_msg), []).
Proof.
  apply (freeform_without_search_query_raises Sample.api "2023-12-31"
           "2024-01-01" ["visits"] [] None None 50 ["page"; "browser"]).
  - discriminate.
  - discriminate.
  - simpl. lia.
  - simpl. lia.
Defined.

Lemma empty_drilldown_aborts_witness :
  (exists b,
      In b (tl (snd (Sample.freeform Sample.api_empty_drilldown
                       ["visits"] ["page"; "browser"] (Some []) 50)))
      /\ rows (Sample.api_empty_drilldown b) = [])
  /\ fst (Sample.freeform Sample.api_empty_drilldown
            ["visits"] ["page"; "browser"] (Some []) 50)
     = Raise (PyException no_results_msg).
Proof.
  assert (H : exists b,
             In b (tl (snd (Sample.freeform Sample.api_empty_drilldown
                              ["visits"] ["page"; "browser"] (Some []) 50)))
             /\ rows (Sample.api_empty_drilldown b) = []).
  { eexists. split; [right; left; reflexivity | reflexivity]. }
  split; [exact H |].
  exact (empty_drilldown_aborts Sample.api_empty_drilldown
           "2023-12-31" "2024-01-01" ["visits"] [] (Some [])
           (Some "2024-01-01") (Some "2024-01-02") 50 ["page"; "browser"]
           _ _ (surjective_pairing _) H).
Defined.

Lemma metrics_recorded_by_position_witness :
  NoDup ["visits"; "orders"]
  /\ exists data_dict,
       row_record ["visits"; "orders"] "browser" "1"
         (mkReportRow "11" "chrome" [7%Z; 2%Z]) = Ok data_dict
       /\ forall j v, nth_error [7%Z; 2%Z] j = Some v ->
            exists met,
              nth_error ["visits"; "orders"] j = Some met
              /\ Py.dict_get data_dict met = Some (Pandas.VNum v)
              /\ column_cells (Pandas.from_dict data_dict) met
                 = [Some (Pandas.VNum v)].
Proof.
  assert (Hnodup : NoDup ["visits"; "orders"]).
  { constructor.
    - simpl. intros [H | []]. discriminate H.
    - constructor; [simpl; tauto | constructor]. }
  split; [exact Hnodup |].
  apply (metrics_recorded_by_position ["visits"; "orders"] "browser" "1"
           (mkReportRow "11" "chrome" [7%Z; 2%Z]) Hnodup).
  simpl. lia.
Defined.

(** C9 as stated fails when a metric id is requested twice: the record has
    one entry for it, holding the later value; the first data value is not
    recorded under the first requested metric id. *)
Lemma repeated_metric_counterexample :
  nth_error ["visits"; "visits"] 0 = Some "visits"
  /\ nth_error (data (mkReportRow "11" "chrome" [7%Z; 9%Z])) 0 = Some 7%Z
  /\ row_record ["visits"; "visits"] "browser" "1"
       (mkReportRow "11" "chrome" [7%Z; 9%Z])
     = Ok [("item_id", Pandas.VStr "1"); ("browser", Pandas.VStr "chrome");
           ("visits", Pandas.VNum 9)].
Proof. repeat split. Qed.




(** * Further properties *)

(** ** Text *)

Lemma string_app_assoc (a b c : string) :
  ((a ++ b) ++ c)%string = (a ++ b ++ c)%string.
Proof. induction a as [| x a IH]; simpl; [| rewrite IH]; reflexivity. Qed.

Lemma lower_app (a b : string) :
  Py.lower (a ++ b) = (Py.lower a ++ Py.lower b)%string.
Proof. induction a as [| x a IH]; simpl; [| rewrite IH]; reflexivity. Qed.

Lemma lower_ascii_idempotent (c : ascii) :
  Py.lower_ascii (Py.lower_ascii c) = Py.lower_ascii c.
Proof. destruct c as [[] [] [] [] [] [] [] []]; reflexivity. Qed.

Lemma lower_join (terms : list string) :
  Py.lower (Py.join "|" terms) = Py.join "|" (map Py.lower terms).
Proof.
  unfold Py.join. induction terms as [| t terms IH]; [reflexivity |].
  destruct terms as [| t2 terms]; [reflexivity |].
  change (String.concat "|" (t :: t2 :: terms))
    with (t ++ String "|" (String.concat "|" (t2 :: terms)))%string.
  change (String.concat "|" (map Py.lower (t :: t2 :: terms)))
    with (Py.lower t
            ++ String "|" (String.concat "|" (map Py.lower (t2 :: terms))))%string.
  rewrite lower_app.
  change (Py.lower (String "|" (String.concat "|" (t2 :: terms))))
    with (String "|" (Py.lower (String.concat "|" (t2 :: terms)))).
  rewrite IH. reflexivity.
Qed.

Lemma contains_refl (s : string) : contains s s = true.
Proof.
  apply contains_spec. exists EmptyString, EmptyString. simpl.
  induction s as [| c s IH]; simpl; [| rewrite <- IH]; reflexivity.
Qed.

(** ** Patterns in lower case *)

Lemma parse_atom_lower (c : ascii) :
  Re.parse_atom (Py.lower_ascii c) = option_map lower_atom (Re.parse_atom c).
Proof. destruct c as [[] [] [] [] [] [] [] []]; reflexivity. Qed.

Lemma bar_lower (c : ascii) :
  Ascii.eqb (Py.lower_ascii c) "|" = Ascii.eqb c "|".
Proof. destruct c as [[] [] [] [] [] [] [] []]; reflexivity. Qed.

Lemma compile_lower (pat : string) :
  Re.compile (Py.lower pat) = option_map lower_regex (Re.compile pat).
Proof.
  induction pat as [| c pat IH]; [reflexivity |].
  cbn [Py.lower Re.compile]. rewrite IH, bar_lower, parse_atom_lower.
  destruct (Re.compile pat) as [branches |]; [| reflexivity].
  cbn [option_map]. destruct (Ascii.eqb c "|"); [reflexivity |].
  destruct (Re.parse_atom c) as [a |]; [| reflexivity].
  cbn [option_map]. destruct branches as [| b bs]; reflexivity.
Qed.

Lemma atom_matches_lower (a : Re.atom) (c : ascii) :
  Re.atom_matches (lower_atom a) c = Re.atom_matches a c.
Proof.
  destruct a as [x |]; [| reflexivity].
  simpl. rewrite lower_ascii_idempotent. reflexivity.
Qed.

Lemma match_here_lower (atoms : list Re.atom) (s : string) :
  Re.match_here (map lower_atom atoms) s = Re.match_here atoms s.
Proof.
  revert s. induction atoms as [| a atoms IH]; intros s; [reflexivity |].
  destruct s as [| c s]; [reflexivity |].
  cbn [map Re.match_here]. rewrite atom_matches_lower, IH. reflexivity.
Qed.

Lemma search_lower (r : Re.regex) (s : string) :
  Re.search (lower_regex r) s = Re.search r s.
Proof.
  unfold lower_regex. induction s as [| c s IH]; cbn [Re.search].
  - rewrite existsb_map. f_equal. apply existsb_ext_eq. intros b.
    apply match_here_lower.
  - rewrite IH, existsb_map. f_equal. apply existsb_ext_eq. intros b.
    apply match_here_lower.
Qed.

(** Two patterns that agree in lower case compile together and find the
    same names. *)
Lemma compile_same_lower (p p' : string) (r : Re.regex) :
  Py.lower p = Py.lower p' ->
  Re.compile p = Some r ->
  exists r', Re.compile p' = Some r' /\ forall s, Re.search r' s = Re.search r s.
Proof.
  intros Hlow Hp.
  pose proof (compile_lower p) as H1. pose proof (compile_lower p') as H2.
  rewrite Hlow, H2, Hp in H1.
  destruct (Re.compile p') as [r' |]; [| discriminate].
  exists r'. split; [reflexivity |]. intros s.
  cbn [option_map] in H1. inversion H1 as [Heq].
  rewrite <- (search_lower r'), Heq. apply search_lower.
Qed.

(** ** The metadata listings, further *)

Lemma filter_listing_same_lower (all : list MetaRow)
    (terms terms' : list string) (exact : bool) :
  map Py.lower terms = map Py.lower terms' ->
  (exact = false -> Re.compile (Py.join "|" terms) <> None) ->
  filter_listing all terms exact = filter_listing all terms' exact.
Proof.
  intros Hlow Hpat. unfold filter_listing.
  assert (Hlen : List.length terms = List.length terms').
  { rewrite <- (length_map Py.lower terms), Hlow. apply length_map. }
  rewrite <- Hlen. destruct (List.length terms =? 0)%nat; [reflexivity |].
  destruct exact.
  - rewrite Hlow. reflexivity.
  - destruct all as [| r0 all]; [reflexivity |].
    destruct (Re.compile (Py.join "|" terms)) as [r |] eqn:Hc.
    2: { exfalso. apply Hpat; reflexivity. }
    destruct (compile_same_lower (Py.join "|" terms) (Py.join "|" terms') r)
      as [r' [Hc' Hsame]]; [| exact Hc |].
    { rewrite !lower_join, Hlow. reflexivity. }
    rewrite Hc'. f_equal. apply select_by_name_ext. intros name.
    symmetry. apply Hsame.
Qed.

(** X1. On ASCII text -- the search terms and the names listed --, the
    letter case of the search terms does not matter to the dimension and
    metric listings: two term lists that agree once in lower case give the
    same answer, for [exact] and, when the joined terms are a pattern of the
    modelled fragment, for the pattern search. *)
Theorem name_filter_ignores_term_case (base_url : string)
    (http_get : string -> list MetaRow) (terms terms' : list string)
    (exact : bool) :
  ascii_terms terms -> ascii_terms terms' ->
  ascii_names (http_get (dimensions_url base_url)) ->
  ascii_names (http_get (metrics_url base_url)) ->
  map Py.lower terms = map Py.lower terms' ->
  (exact = false -> Re.compile (Py.join "|" terms) <> None) ->
  get_dimensions base_url http_get terms exact
  = get_dimensions base_url http_get terms' exact
  /\ get_metrics base_url http_get terms exact
     = get_metrics base_url http_get terms' exact.
Proof.
  intros _ _ _ _ Hlow Hpat. unfold get_dimensions, get_metrics.
  split; apply filter_listing_same_lower; assumption.
Qed.

Lemma name_filter_ignores_term_case_witness :
  ascii_terms ["Page"; "b.ow"] /\ ascii_terms ["PAGE"; "B.OW"]
  /\ ascii_names Sample.listing
  /\ map Py.lower ["Page"; "b.ow"] = map Py.lower ["PAGE"; "B.OW"]
  /\ get_dimensions "https://analytics.adobe.io/api/co" Sample.http_get
       ["Page"; "b.ow"] false
     = get_dimensions "https://analytics.adobe.io/api/co" Sample.http_get
         ["PAGE"; "B.OW"] false.
Proof.
  assert (Hterms : ascii_terms ["Page"; "b.ow"]) by (repeat constructor).
  assert (Hterms' : ascii_terms ["PAGE"; "B.OW"]) by (repeat constructor).
  assert (Hnames : ascii_names Sample.listing) by (repeat constructor).
  split; [exact Hterms |]. split; [exact Hterms' |].
  split; [exact Hnames |]. split; [reflexivity |].
  refine (proj1 (name_filter_ignores_term_case
                   "https://analytics.adobe.io/api/co" Sample.http_get
                   ["Page"; "b.ow"] ["PAGE"; "B.OW"] false
                   Hterms Hterms' Hnames Hnames _ _)).
  - reflexivity.
  - intros _. discriminate.
Defined.

Lemma equals_any_contains_any (terms : list string) (name : string) :
  name_equals_any terms name = true -> name_contains_any terms name = true.
Proof.
  unfold name_equals_any, name_contains_any. rewrite !existsb_exists.
  intros [t [Hin Heq]]. exists t. split; [exact Hin |].
  apply String.eqb_eq in Heq. rewrite Heq. apply contains_refl.
Qed.

Lemma select_by_name_incl (all : list MetaRow) (f g : string -> bool) :
  (forall name, f name = true -> g name = true) ->
  incl (select_by_name all f) (select_by_name all g).
Proof.
  intros Hfg r Hr. unfold select_by_name in *.
  apply in_map_iff in Hr. destruct Hr as [r0 [<- Hr0]].
  apply filter_In in Hr0. destruct Hr0 as [Hin Hf].
  apply in_map. apply filter_In. split; [exact Hin | apply Hfg; exact Hf].
Qed.

(** X2. On ASCII text -- the search terms and the names listed --, for
    terms without operator characters, whatever the exact search of the
    dimensions (or metrics) returns, the pattern search returns too. *)
Theorem exact_rows_are_found_by_pattern (base_url : string)
    (http_get : string -> list MetaRow) (terms : list string) :
  ascii_terms terms ->
  ascii_names (http_get (dimensions_url base_url)) ->
  ascii_names (http_get (metrics_url base_url)) ->
  Forall (fun t => plain_term t = true) terms ->
  (terms <> [] ->
   http_get (dimensions_url base_url) <> []
   /\ http_get (metrics_url base_url) <> []) ->
  (exists exact_rows found,
      get_dimensions base_url http_get terms true = Ok exact_rows
      /\ get_dimensions base_url http_get terms false = Ok found
      /\ incl exact_rows found)
  /\ (exists exact_rows found,
         get_metrics base_url http_get terms true = Ok exact_rows
         /\ get_metrics base_url http_get terms false = Ok found
         /\ incl exact_rows found).
Proof.
  intros _ _ _ Hplain Hall. unfold get_dimensions, get_metrics.
  split.
  - eexists. eexists.
    rewrite !filter_listing_semantics;
      try (intros H; apply Hall; exact H); try (intros _; exact Hplain);
      try discriminate.
    split; [reflexivity |]. split; [reflexivity |].
    unfold listing_as_specified. destruct terms as [| t terms].
    + apply incl_refl.
    + apply select_by_name_incl. apply equals_any_contains_any.
  - eexists. eexists.
    rewrite !filter_listing_semantics;
      try (intros H; apply Hall; exact H); try (intros _; exact Hplain);
      try discriminate.
    split; [reflexivity |]. split; [reflexivity |].
    unfold listing_as_specified. destruct terms as [| t terms].
    + apply incl_refl.
    + apply select_by_name_incl. apply equals_any_contains_any.
Qed.

Lemma exact_rows_are_found_by_pattern_witness :
  ascii_terms ["page"] /\ ascii_names Sample.listing
  /\ Forall (fun t => plain_term t = true) ["page"]
  /\ exists exact_rows found,
       get_dimensions "https://analytics.adobe.io/api/co" Sample.http_get
         ["page"] true = Ok exact_rows
       /\ get_dimensions "https://analytics.adobe.io/api/co" Sample.http_get
            ["page"] false = Ok found
       /\ incl exact_rows found.
Proof.
  assert (Hterms : ascii_terms ["page"]) by (repeat constructor).
  assert (Hnames : ascii_names Sample.listing) by (repeat constructor).
  assert (Hplain : Forall (fun t => plain_term t = true) ["page"])
    by (repeat constructor).
  split; [exact Hterms |]. split; [exact Hnames |]. split; [exact Hplain |].
  refine (proj1 (exact_rows_are_found_by_pattern
                   "https://analytics.adobe.io/api/co" Sample.http_get
                   ["page"] Hterms Hnames Hnames Hplain _)).
  intros _. split; discriminate.
Defined.

(** X3. In the pattern search a bar inside a term is an alternation: a
    term [t1|t2] gives the dimensions (or metrics) that the two terms [t1]
    and [t2] give. *)
Theorem bar_in_term_splits_it (base_url : string)
    (http_get : string -> list MetaRow) (t1 t2 : string) (rest : list string) :
  get_dimensions base_url http_get ((t1 ++ "|" ++ t2)%string :: rest) false
  = get_dimensions base_url http_get (t1 :: t2 :: rest) false
  /\ get_metrics base_url http_get ((t1 ++ "|" ++ t2)%string :: rest) false
     = get_metrics base_url http_get (t1 :: t2 :: rest) false.
Proof.
  assert (Hjoin : Py.join "|" ((t1 ++ "|" ++ t2)%string :: rest)
                  = Py.join "|" (t1 :: t2 :: rest)).
  { unfold Py.join. destruct rest as [| t3 rest]; [reflexivity |].
    change (String.concat "|" ((t1 ++ "|" ++ t2)%string :: t3 :: rest))
      with ((t1 ++ "|" ++ t2) ++ String "|" (String.concat "|" (t3 :: rest)))%string.
    change (String.concat "|" (t1 :: t2 :: t3 :: rest))
      with (t1 ++ String "|" (t2 ++ String "|" (String.concat "|" (t3 :: rest))))%string.
    rewrite string_app_assoc. f_equal. }
  unfold get_dimensions, get_metrics, filter_listing.
  cbn [List.length Nat.eqb]. rewrite Hjoin. split; reflexivity.
Qed.

(** ** The names of metrics *)

Lemma filter_map_commute {A B : Type} (p : B -> bool) (f : A -> B) (l : list A) :
  filter p (map f l) = map f (filter (fun x => p (f x)) l).
Proof.
  induction l as [| x l IH]; simpl; [reflexivity |].
  destruct (p (f x)); simpl; rewrite IH; reflexivity.
Qed.

(** X4. Given at least one metric id and a metric listing that is not
    empty, [get_metric_names_from_id] returns, on the columns id and name
    and in the order of the listing, exactly the listed metrics whose id is
    one of the ids given. *)
Theorem metric_names_semantics (base_url : string)
    (http_get : string -> list MetaRow) (metric_ids : list string) :
  metric_ids <> [] ->
  http_get (metrics_url base_url) <> [] ->
  exists names,
    get_metric_names_from_id base_url http_get metric_ids = Ok names
    /\ names
       = map id_name
           (filter (fun r => Py.isin (m_id r) metric_ids)
              (http_get (metrics_url base_url)))
    /\ forall r,
         In r names <->
         exists listed,
           In listed (http_get (metrics_url base_url))
           /\ r = id_name listed /\ In (m_id listed) metric_ids.
Proof.
  intros Hids Hall. unfold get_metric_names_from_id.
  destruct metric_ids as [| i ids]; [contradiction |].
  cbn [List.length Nat.eqb].
  destruct (http_get (metrics_url base_url)) as [| r0 all] eqn:Hget;
    [contradiction |].
  eexists. split; [reflexivity |].
  rewrite filter_map_commute. split; [reflexivity |].
  intros r. rewrite in_map_iff. split.
  - intros [listed [<- Hin]]. apply filter_In in Hin. destruct Hin as [Hin Hid].
    exists listed. repeat split; [exact Hin |].
    apply isin_true. exact Hid.
  - intros [listed [Hin [-> Hid]]]. exists listed. split; [reflexivity |].
    apply filter_In. split; [exact Hin |]. apply isin_true. exact Hid.
Qed.

Lemma metric_names_semantics_witness :
  ["variables/browser"; "variables/none"] <> []
  /\ exists names,
       get_metric_names_from_id "https://analytics.adobe.io/api/co"
         Sample.http_get ["variables/browser"; "variables/none"] = Ok names
       /\ names = [mkMetaRow "variables/browser" "Browser" []].
Proof.
  assert (Hids : ["variables/browser"; "variables/none"] <> []) by discriminate.
  split; [exact Hids |].
  destruct (metric_names_semantics "https://analytics.adobe.io/api/co"
              Sample.http_get ["variables/browser"; "variables/none"] Hids)
    as [names [Hrun [Hnames _]]].
  - discriminate.
  - exists names. split; [exact Hrun | exact Hnames].
Defined.

(** X5. Only the set of the metric ids given matters to
    [get_metric_names_from_id]: their order and repetitions do not change
    the answer. *)
Theorem metric_names_depend_on_id_set (base_url : string)
    (http_get : string -> list MetaRow) (ids ids' : list string) :
  (forall i, In i ids <-> In i ids') ->
  get_metric_names_from_id base_url http_get ids
  = get_metric_names_from_id base_url http_get ids'.
Proof.
  intros Hsame. unfold get_metric_names_from_id.
  assert (Hlen : (List.length ids =? 0)%nat = (List.length ids' =? 0)%nat).
  { destruct ids as [| i ids], ids' as [| i' ids']; try reflexivity.
    - exfalso. apply (proj2 (Hsame i')). left. reflexivity.
    - exfalso. apply (proj1 (Hsame i)). left. reflexivity. }
  rewrite Hlen. destruct (List.length ids' =? 0)%nat; [reflexivity |].
  destruct (http_get (metrics_url base_url)) as [| r0 all]; [reflexivity |].
  f_equal. apply filter_ext. intros r.
  destruct (Py.isin (m_id r) ids) eqn:E, (Py.isin (m_id r) ids') eqn:E';
    try reflexivity.
  - apply isin_true in E. apply Hsame in E. apply isin_true in E. congruence.
  - apply isin_true in E'. apply Hsame in E'. apply isin_true in E'. congruence.
Qed.

Lemma metric_names_depend_on_id_set_witness :
  get_metric_names_from_id "https://analytics.adobe.io/api/co" Sample.http_get
    ["variables/page"; "variables/browser"; "variables/page"]
  = get_metric_names_from_id "https://analytics.adobe.io/api/co" Sample.http_get
      ["variables/browser"; "variables/page"].
Proof.
  apply (metric_names_depend_on_id_set "https://analytics.adobe.io/api/co"
           Sample.http_get
           ["variables/page"; "variables/browser"; "variables/page"]
           ["variables/browser"; "variables/page"]).
  intros i. simpl. tauto.
Defined.

(** X6. When the service lists nothing, a name filter or an id lookup has
    no column to read: with search terms [get_dimensions] and [get_metrics]
    raise [KeyError] for the column name, and with ids
    [get_metric_names_from_id] raises [KeyError] for the columns id and
    name; without search terms the empty listing comes back as it is. *)
Theorem empty_listing_has_no_columns (base_url : string)
    (http_get : string -> list MetaRow) (terms ids : list string)
    (exact : bool) :
  terms <> [] -> ids <> [] ->
  (http_get (dimensions_url base_url) = [] ->
   get_dimensions base_url http_get terms exact = Raise (KeyError "name")
   /\ get_dimensions base_url http_get [] exact = Ok [])
  /\ (http_get (metrics_url base_url) = [] ->
      get_metrics base_url http_get terms exact = Raise (KeyError "name")
      /\ get_metrics base_url http_get [] exact = Ok []
      /\ get_metric_names_from_id base_url http_get ids
         = Raise (KeyError no_id_name_columns)).
Proof.
  intros Hterms Hids.
  destruct terms as [| t terms]; [contradiction |].
  destruct ids as [| i ids]; [contradiction |].
  unfold get_dimensions, get_metrics, get_metric_names_from_id, filter_listing.
  cbn [List.length Nat.eqb].
  split; intros ->; destruct exact; repeat split.
Qed.

Lemma empty_listing_has_no_columns_witness :
  get_dimensions "https://analytics.adobe.io/api/co" (fun _ => []) ["page"] false
  = Raise (KeyError "name").
Proof.
  refine (proj1 (proj1 (empty_listing_has_no_columns
                          "https://analytics.adobe.io/api/co" (fun _ => [])
                          ["page"] ["metrics/visits"] false _ _) _));
    [discriminate | discriminate | reflexivity].
Defined.

(** ** The report body, further *)

Lemma build_metrics_entries (dim bd item : option string) (ms : list string) :
  forall idx,
    map (fun m => (columnId m, metric_id m))
      (fst (build_metrics dim bd item idx ms))
    = combine (seq idx (List.length ms)) ms.
Proof.
  induction ms as [| met rest IH]; intros idx; simpl; [reflexivity |].
  specialize (IH (S idx)).
  destruct (build_metrics dim bd item (S idx) rest) as [metrics metric_filters].
  simpl in *. rewrite IH. reflexivity.
Qed.

(** X7. The metric container of a report body lists the requested metrics
    in their order, each with its position in the list as column id. *)
Theorem body_metrics_by_position
    mets dim segments bd item (date_range : string) lim query :
  map (fun m => (columnId m, metric_id m))
    (metrics (metricContainer
                (report_body mets dim segments bd item date_range lim query)))
  = combine (seq 0 (List.length mets)) mets.
Proof.
  unfold report_body.
  pose proof (build_metrics_entries dim bd item mets 0) as H.
  destruct (build_metrics dim bd item 0 mets) as [ms fs]. exact H.
Qed.

Lemma dict_get_not_key {V : Type} (d : Py.dict V) (k : string) :
  Py.isin k (Py.dict_keys d) = false -> Py.dict_get d k = None.
Proof.
  unfold Py.isin, Py.dict_keys.
  induction d as [| [k' v'] d IH]; simpl; [reflexivity |].
  destruct (String.eqb k k'); [discriminate | exact IH].
Qed.

(** X8. With a search-query dict the body is always built.  Its global
    filters are the date range followed by one segment filter per segment,
    in order, and its search clause is what the dict holds for the row
    dimension: none if the dimension is no key of the dict. *)
Theorem body_filters_and_search
    mets (dim : string) segments bd item (date_range : string) lim query :
  exists body,
    build_report_body_json mets (Some dim) segments (Some query) bd item
      date_range lim = Ok body
    /\ globalFilters body
       = DateRangeFilter date_range :: map SegmentFilter segments
    /\ search body = Py.dict_get query dim
    /\ dimension body = Some dim.
Proof.
  unfold build_report_body_json, report_body.
  destruct (build_metrics (Some dim) bd item 0 mets) as [ms fs].
  eexists. split; [reflexivity |]. cbn [globalFilters search dimension].
  split; [| split; [| reflexivity]].
  - destruct segments; reflexivity.
  - destruct (Py.isin dim (Py.dict_keys query)) eqn:E; [reflexivity |].
    symmetry. apply dict_get_not_key. exact E.
Qed.

(** ** The freeform assembler, further *)

Lemma body_metrics_entries_ids mets (dim bd item : option string) :
  map metric_id (fst (build_metrics dim bd item 0 mets)) = mets.
Proof.
  generalize 0. induction mets as [| met rest IH]; intros idx; simpl;
    [reflexivity |].
  specialize (IH (S idx)).
  destruct (build_metrics dim bd item (S idx) rest) as [ms fs].
  simpl in *. rewrite IH. reflexivity.
Qed.

Section FreeformFacts.

Variable api : ReportBody -> Response.
Variables yesterday today : string.

(** X9. The precondition checks run in a fixed order, and the first one
    that fails names the exception: no dimension, then no metric, then more
    than two dimensions, then more than one segment. *)
Theorem precondition_messages mets segments search_query sd ed lim dims :
  let run :=
    get_freeform_report api yesterday today mets segments search_query
      sd ed lim dims in
  (dims = [] -> run = (Raise (PyException no_dimension_msg), []))
  /\ (dims <> [] -> mets = [] ->
      run = (Raise (PyException no_metric_msg), []))
  /\ (mets <> [] -> 2 < List.length dims ->
      run = (Raise (PyException too_many_dimensions_msg), []))
  /\ (dims <> [] -> mets <> [] -> List.length dims <= 2 ->
      1 < List.length segments ->
      run = (Raise (PyException too_many_segments_msg), [])).
Proof.
  intros run. subst run. unfold get_freeform_report.
  repeat split.
  - intros ->. reflexivity.
  - intros Hd ->. destruct dims; [contradiction | reflexivity].
  - intros Hm H2. destruct dims as [| d dims]; [simpl in H2; lia |].
    destruct mets as [| met mets']; [contradiction |].
    replace (List.length (d :: dims) =? 0)%nat with false by reflexivity.
    replace (List.length (met :: mets') =? 0)%nat with false by reflexivity.
    rewrite (proj2 (Nat.ltb_lt _ _) H2). reflexivity.
  - intros Hd Hm H2 H1. destruct dims as [| d dims]; [contradiction |].
    destruct mets as [| met mets']; [contradiction |].
    replace (List.length (d :: dims) =? 0)%nat with false by reflexivity.
    replace (List.length (met :: mets') =? 0)%nat with false by reflexivity.
    rewrite (proj2 (Nat.ltb_ge _ _) H2), (proj2 (Nat.ltb_lt _ _) H1).
    reflexivity.
Qed.

Lemma forallb_false_Exists {A : Type} (f : A -> bool) (l : list A) :
  forallb f l = false -> Exists (fun x => f x = false) l.
Proof.
  induction l as [| x l IH]; simpl; [discriminate |].
  destruct (f x) eqn:E; simpl; intros H.
  - right. apply IH. exact H.
  - left. exact E.
Qed.

Lemma take_through_map {A B : Type} (f : A -> B) (good : B -> bool)
    (l : list A) :
  take_through good (map f l) = map f (take_through (fun x => good (f x)) l).
Proof.
  induction l as [| x l IH]; simpl; [reflexivity |].
  destruct (good (f x)); simpl; [rewrite IH |]; reflexivity.
Qed.

Lemma forallb_of_map {A B : Type} (f : A -> B) (good : B -> bool)
    (l : list A) :
  forallb good (map f l) = forallb (fun x => good (f x)) l.
Proof.
  induction l as [| x l IH]; simpl; [| rewrite IH]; reflexivity.
Qed.

(** The requests of the loop over the items: one per item, in order, up to
    and including the first item whose drill-down has no row or has a row
    with too many data values. *)
Lemma stage2_items_log mets segments query sd ed dim bd :
  let body item :=
    report_body mets (Some dim) segments (Some bd) (Some item)
      (date_range yesterday today sd ed) 50 query in
  let good item := drilldown_ok mets (rows (api (body item))) in
  forall ids data_df,
    snd (stage2_items api yesterday today mets segments (Some query)
           sd ed dim bd ids data_df)
    = map body (take_through good ids)
    /\ (forall data_df',
          fst (stage2_items api yesterday today mets segments (Some query)
                 sd ed dim bd ids data_df) = Ok data_df' ->
          forallb good ids = true).
Proof.
  intros body good. induction ids as [| item rest IH]; intros data_df.
  - split; [reflexivity | intros; reflexivity].
  - cbn [stage2_items take_through forallb]. rewrite get_report_some.
    fold (body item). rewrite bind_post_log. unfold good at 1 3.
    unfold drilldown_ok.
    destruct (List.length (rows (api (body item))) =? 0)%nat.
    { cbn [fst snd raise negb andb map]. split; [reflexivity | discriminate]. }
    cbn [negb andb].
    destruct (stage2_rows_result mets dim item (rows (api (body item))) data_df)
      as [Hfit Hover].
    destruct (forallb
                (fun r2 => (List.length (data r2) <=? List.length mets)%nat)
                (rows (api (body item)))) eqn:Hall.
    + destruct Hfit as [df1 Hdf1].
      { apply Forall_forall. intros row Hrow.
        rewrite forallb_forall in Hall. apply Nat.leb_le. apply Hall. exact Hrow. }
      rewrite Hdf1, bind_lift_ok. destruct (IH df1) as [Hlog Hok].
      cbn [fst snd map andb]. split; [rewrite Hlog; reflexivity | exact Hok].
    + rewrite Hover.
      * cbn [fst snd lift bind map]. split; [reflexivity | discriminate].
      * apply forallb_false_Exists in Hall.
        apply Exists_exists in Hall. destruct Hall as [row [Hrow Hbad]].
        apply Exists_exists. exists row. split; [exact Hrow |].
        apply Nat.leb_gt. exact Hbad.
Qed.

(** X10. On two dimensions, with explicit start and end dates, the
    assembler POSTs the first-level request and then the drill-downs in the
    order of the first-level rows, one per row, up to and including the
    first row whose drill-down comes back without rows or with a row of more
    data values than metrics; there it stops.  When it returns a table,
    every first-level row has been drilled into and no drill-down was such. *)
Theorem drilldowns_follow_item_order
    mets segments query (start_date end_date : string) lim d1 d2 :
  mets <> [] -> List.length segments <= 1 ->
  let sd := Some start_date in
  let ed := Some end_date in
  let b1 := stage1_body yesterday today mets segments query sd ed lim d1 in
  let b2 row :=
    stage2_body api yesterday today mets segments query sd ed d1 d2 lim
      (itemId row) in
  let good row := drilldown_ok mets (rows (api (b2 row))) in
  let run :=
    get_freeform_report api yesterday today mets segments (Some query)
      sd ed lim [d1; d2] in
  snd run = b1 :: map b2 (take_through good (rows (api b1)))
  /\ ((exists table, fst run = Ok table) ->
      forallb good (rows (api b1)) = true).
Proof.
  intros Hmets Hsegs sd ed b1 b2 good run. subst run.
  rewrite freeform_two_dimensions_run by assumption. cbv zeta. fold b1.
  destruct (stage2_items_log mets segments query sd ed d2
              (dimension_id (api b1)) (map itemId (rows (api b1)))
              Pandas.empty)
    as [Hlog Hok].
  rewrite take_through_map, map_map in Hlog.
  rewrite forallb_of_map in Hok.
  destruct (stage2_items api yesterday today mets segments (Some query) sd ed
              d2 (dimension_id (api b1)) (map itemId (rows (api b1)))
              Pandas.empty)
    as [[data_df | e] log2]; cbn [fst snd] in *.
  - split; [rewrite Hlog; reflexivity |].
    intros _. apply (Hok data_df). reflexivity.
  - split; [rewrite Hlog; reflexivity |].
    intros [table Htable]. discriminate Htable.
Qed.

(** The bodies of a run are built by [report_body] from the arguments of
    the call, for one of the dimensions asked for. *)
Lemma stage2_items_bodies mets segments search_query sd ed dim bd :
  forall ids data_df b,
    In b (snd (stage2_items api yesterday today mets segments search_query
                 sd ed dim bd ids data_df)) ->
    exists item query,
      b = report_body mets (Some dim) segments (Some bd) (Some item)
            (date_range yesterday today sd ed) 50 query.
Proof.
  induction ids as [| item rest IH]; intros data_df b Hb; [contradiction |].
  cbn [stage2_items] in Hb. destruct search_query as [query |].
  2: { rewrite get_report_none in Hb. contradiction. }
  rewrite get_report_some in Hb. rewrite bind_post_log in Hb.
  cbn [snd] in Hb. destruct Hb as [<- | Hb]; [eauto |].
  destruct (List.length (rows (api _)) =? 0)%nat; [contradiction |].
  destruct (stage2_rows mets dim item _ data_df) as [df1 | e];
    [| contradiction].
  rewrite bind_lift_ok in Hb. apply IH in Hb. exact Hb.
Qed.

Lemma freeform_log_bodies mets segments search_query sd ed lim dims b :
  In b (snd (get_freeform_report api yesterday today mets segments
               search_query sd ed lim dims)) ->
  exists dim bd item row_limit query,
    In dim dims
    /\ b = report_body mets (Some dim) segments bd item
             (date_range yesterday today sd ed) row_limit query.
Proof.
  intros Hb.
  destruct (Nat.eq_dec (List.length dims) 0) as [Hd | Hd].
  { destruct (precondition_checks api yesterday today mets segments
                search_query sd ed lim dims) as [msg [_ Hraise]].
    - left. destruct dims; [reflexivity | discriminate].
    - rewrite Hraise in Hb. contradiction. }
  destruct (Nat.eq_dec (List.length mets) 0) as [Hm | Hm].
  { destruct (precondition_checks api yesterday today mets segments
                search_query sd ed lim dims) as [msg [_ Hraise]].
    - right; left. destruct mets; [reflexivity | discriminate].
    - rewrite Hraise in Hb. contradiction. }
  destruct (le_lt_dec (List.length dims) 2) as [H2 | H2].
  2: { destruct (precondition_checks api yesterday today mets segments
                   search_query sd ed lim dims) as [msg [_ Hraise]]; [auto |].
       rewrite Hraise in Hb. contradiction. }
  destruct (le_lt_dec (List.length segments) 1) as [H1 | H1].
  2: { destruct (precondition_checks api yesterday today mets segments
                   search_query sd ed lim dims) as [msg [_ Hraise]]; [auto |].
       rewrite Hraise in Hb. contradiction. }
  assert (Hmets : mets <> []) by (intros ->; apply Hm; reflexivity).
  destruct search_query as [query |].
  2: { rewrite no_search_query in Hb; auto.
       - contradiction.
       - intros ->. apply Hd. reflexivity. }
  destruct dims as [| d1 [| d2 [| d3 rest]]].
  - exfalso. apply Hd. reflexivity.
  - rewrite freeform_one_dimension in Hb by assumption.
    destruct Hb as [<- | []].
    exists d1, None, None, lim, query. split; [left |]; reflexivity.
  - rewrite freeform_two_dimensions_run in Hb by assumption.
    cbv zeta in Hb.
    assert (Hcases :
      b = stage1_body yesterday today mets segments query sd ed lim d1
      \/ In b (snd (stage2_items api yesterday today mets segments (Some query)
                      sd ed d2
                      (dimension_id
                         (api (stage1_body yesterday today mets segments
                                 query sd ed lim d1)))
                      (map itemId
                         (rows (api (stage1_body yesterday today mets
                                       segments query sd ed lim d1))))
                      Pandas.empty))).
    { destruct (stage2_items api yesterday today mets segments (Some query)
                  sd ed d2 _ _ Pandas.empty) as [[data_df | e] log2];
        cbn [snd] in *; destruct Hb as [<- | Hb]; auto. }
    destruct Hcases as [-> | Hin].
    + exists d1, None, None, lim, query. split; [left |]; reflexivity.
    + apply stage2_items_bodies in Hin. destruct Hin as [item [q ->]].
      exists d2, (Some (dimension_id
                          (api (stage1_body yesterday today mets segments
                                  query sd ed lim d1)))),
        (Some item), 50%Z, q.
      split; [right; left |]; reflexivity.
  - simpl in H2. lia.
Qed.

(** X11. Whatever the arguments and the answers of the service, every
    body the assembler POSTs names the configured report suite, counts
    repeat instances, filters by one date range followed by the segments of
    the call -- the range from the start date to the end date of the call,
    at midnight, when the call gives both --, asks for the metrics of the
    call in their order, and has one of the requested dimensions as row
    dimension. *)
Theorem every_request_carries_the_call
    mets segments search_query sd ed lim dims b :
  In b (snd (get_freeform_report api yesterday today mets segments
               search_query sd ed lim dims)) ->
  body_rsid b = rsid
  /\ countRepeatInstances (settings b) = true
  /\ (exists range,
        globalFilters b = DateRangeFilter range :: map SegmentFilter segments
        /\ forall s e, sd = Some s -> ed = Some e ->
             range = (s ++ midnight ++ "/" ++ e ++ midnight)%string)
  /\ map metric_id (metrics (metricContainer b)) = mets
  /\ exists dim, In dim dims /\ dimension b = Some dim.
Proof.
  intros Hb. apply freeform_log_bodies in Hb.
  destruct Hb as [dim [bd [item [row_limit [query [Hdim ->]]]]]].
  pose proof (body_metrics_entries_ids mets (Some dim) bd item) as Hids.
  unfold report_body.
  destruct (build_metrics (Some dim) bd item 0 mets) as [ms fs] eqn:Hbuild.
  cbn [body_rsid settings countRepeatInstances globalFilters metricContainer
       metrics dimension].
  repeat split.
  - exists (date_range yesterday today sd ed). split.
    + destruct segments; reflexivity.
    + intros s e -> ->. reflexivity.
  - exact Hids.
  - exists dim. split; [exact Hdim | reflexivity].
Qed.

(** X12. A first-level answer without rows leaves the table without the
    column [item_id].  A call that passes the checks with a search-query
    dict then raises [KeyError] after its one request: on one dimension
    from the final [drop], which reports the label as not found in the
    axis; on two dimensions from the [merge], which names the key. *)
Theorem empty_answer_raises_key_error mets segments query sd ed lim d1 d2 :
  mets <> [] -> List.length segments <= 1 ->
  let b1 := stage1_body yesterday today mets segments query sd ed lim d1 in
  rows (api b1) = [] ->
  get_freeform_report api yesterday today mets segments (Some query)
    sd ed lim [d1]
  = (Raise (KeyError "['item_id'] not found in axis"), [b1])
  /\ get_freeform_report api yesterday today mets segments (Some query)
       sd ed lim [d1; d2]
     = (Raise (KeyError "item_id"), [b1]).
Proof.
  intros Hmets Hsegs b1 Hrows. split.
  - rewrite freeform_one_dimension by assumption. fold b1.
    rewrite Hrows. reflexivity.
  - rewrite freeform_two_dimensions_run by assumption. cbv zeta. fold b1.
    rewrite Hrows. reflexivity.
Qed.

Lemma stage2_items_overflow mets segments query sd ed dim bd :
  let body item :=
    report_body mets (Some dim) segments (Some bd) (Some item)
      (date_range yesterday today sd ed) 50 query in
  forall ids data_df,
    (forall item, In item ids -> rows (api (body item)) <> []) ->
    (exists item row,
        In item ids /\ In row (rows (api (body item)))
        /\ List.length mets < List.length (data row)) ->
    fst (stage2_items api yesterday today mets segments (Some query) sd ed
           dim bd ids data_df)
    = Raise (IndexError "list index out of range").
Proof.
  intros body. induction ids as [| item rest IH]; intros data_df Hrows Hbad.
  - destruct Hbad as [i [row [[] _]]].
  - cbn [stage2_items]. rewrite get_report_some. fold (body item).
    rewrite bind_post_log. cbn [fst].
    destruct (Nat.eqb_spec (List.length (rows (api (body item)))) 0) as [Hz | _].
    { exfalso. apply (Hrows item (or_introl eq_refl)).
      destruct (rows (api (body item))); [reflexivity | discriminate]. }
    destruct (stage2_rows_result mets dim item (rows (api (body item))) data_df)
      as [Hfit Hover].
    destruct (Exists_dec
                (fun row => List.length mets < List.length (data row))
                (rows (api (body item)))
                (fun row => lt_dec (List.length mets) (List.length (data row))))
      as [Hex | Hnone].
    + rewrite (Hover Hex). reflexivity.
    + destruct Hfit as [df1 Hdf1].
      { apply Forall_forall. intros row Hrow.
        destruct (le_lt_dec (List.length (data row)) (List.length mets))
          as [Hle | Hlt]; [exact Hle |].
        exfalso. apply Hnone. apply Exists_exists. exists row. auto. }
      rewrite Hdf1, bind_lift_ok. apply IH.
      * intros i Hi. apply Hrows. right. exact Hi.
      * destruct Hbad as [i [row [[<- | Hi] [Hrow Hlen]]]].
        -- exfalso. apply Hnone. apply Exists_exists. exists row. auto.
        -- exists i, row. auto.
Qed.

(** X13. On two dimensions, when every drill-down finds rows and one of
    them finds a row with more data values than metrics were requested, the
    assembler raises [IndexError]: no table is returned. *)
Theorem overlong_data_raises_index_error mets segments query sd ed lim d1 d2 :
  mets <> [] -> List.length segments <= 1 ->
  let b1 := stage1_body yesterday today mets segments query sd ed lim d1 in
  let b2 row :=
    stage2_body api yesterday today mets segments query sd ed d1 d2 lim
      (itemId row) in
  (forall row, In row (rows (api b1)) -> rows (api (b2 row)) <> []) ->
  (exists row r2,
      In row (rows (api b1)) /\ In r2 (rows (api (b2 row)))
      /\ List.length mets < List.length (data r2)) ->
  fst (get_freeform_report api yesterday today mets segments (Some query)
         sd ed lim [d1; d2])
  = Raise (IndexError "list index out of range").
Proof.
  intros Hmets Hsegs b1 b2 Hrows [row [r2 [Hrow [Hr2 Hlen]]]].
  rewrite freeform_two_dimensions_run by assumption. cbv zeta. fold b1.
  pose proof (stage2_items_overflow mets segments query sd ed d2
                (dimension_id (api b1)) (map itemId (rows (api b1)))
                Pandas.empty) as Hover.
  cbv zeta in Hover.
  destruct (stage2_items api yesterday today mets segments (Some query) sd ed
              d2 (dimension_id (api b1)) (map itemId (rows (api b1)))
              Pandas.empty)
    as [r log2]. cbn [fst] in *.
  rewrite Hover; [reflexivity | |].
  - intros item Hitem. apply in_map_iff in Hitem.
    destruct Hitem as [row' [<- Hrow']]. apply (Hrows row' Hrow').
  - exists (itemId row), r2. split; [apply in_map; exact Hrow |].
    split; [exact Hr2 | exact Hlen].
Qed.

Lemma one_dimension_rows (dim : string) (rs : list ReportRow) :
  dim <> "item_id" ->
  forall j,
    map (fun r => (fst r, Pandas.drop_cells ["item_id"] ["item_id"; dim] (snd r)))
      (stage1_table_rows j rs)
    = combine (seq j (List.length rs))
        (map (fun row => [Some (Pandas.VStr (value row))]) rs).
Proof.
  intros Hdim. induction rs as [| row rest IH]; intros j; [reflexivity |].
  cbn [stage1_table_rows map List.length seq combine fst snd].
  rewrite IH. f_equal.
  cbn [Pandas.drop_cells Py.isin existsb String.eqb Ascii.eqb Bool.eqb
       andb orb].
  rewrite (proj2 (String.eqb_neq _ _) Hdim). reflexivity.
Qed.

(** X14. On one dimension (other than [item_id]), with a search-query
    dict and a first-level answer that is not empty, the assembler POSTs
    once and returns the table with that dimension as only column: one row
    per row of the answer, in order, labelled from 0, holding the row's
    dimension value. *)
Theorem one_dimension_table mets segments query sd ed lim d1 :
  mets <> [] -> List.length segments <= 1 -> d1 <> "item_id" ->
  let b1 := stage1_body yesterday today mets segments query sd ed lim d1 in
  rows (api b1) <> [] ->
  get_freeform_report api yesterday today mets segments (Some query)
    sd ed lim [d1]
  = (Ok (Pandas.mkDataFrame [d1]
           (combine (seq 0 (List.length (rows (api b1))))
              (map (fun row => [Some (Pandas.VStr (value row))])
                 (rows (api b1))))),
     [b1]).
Proof.
  intros Hmets Hsegs Hd1 b1 Hrows.
  rewrite freeform_one_dimension by assumption. fold b1.
  rewrite (stage1_rows_from_empty d1 Hd1 _ Hrows).
  unfold Pandas.drop, Pandas.has_column.
  cbn [Pandas.df_columns Pandas.df_rows filter Py.isin existsb String.eqb
       Ascii.eqb Bool.eqb andb orb negb].
  rewrite (proj2 (String.eqb_neq _ _) Hd1). cbn [orb negb].
  rewrite (one_dimension_rows d1 (rows (api b1)) Hd1 0). reflexivity.
Qed.

End FreeformFacts.

Lemma precondition_messages_witness :
  get_freeform_report Sample.api "2023-12-31" "2024-01-01"
    [] ["s1"; "s2"] None None None 50 ["page"]
  = (Raise (PyException no_metric_msg), []).
Proof.
  refine (proj1 (proj2 (precondition_messages Sample.api "2023-12-31"
                          "2024-01-01" [] ["s1"; "s2"] None None None 50
                          ["page"])) _ _);
    [discriminate | reflexivity].
Defined.


(** ** The collected frame and the joined table, cell by cell *)

Lemma dict_set_fresh {V : Type} (d : Py.dict V) (k : string) (v : V) :
  ~ In k (Py.dict_keys d) -> Py.dict_set d k v = d ++ [(k, v)].
Proof.
  unfold Py.dict_keys. induction d as [| [k' v'] d IH]; intros Hnot; simpl.
  - reflexivity.
  - destruct (String.eqb_spec k k') as [-> | Hne].
    + exfalso. apply Hnot. left. reflexivity.
    + rewrite IH; [reflexivity |]. intros H. apply Hnot. right. exact H.
Qed.

Lemma record_metrics_exact (values : list Z) :
  forall (pre post : list string) (d : Py.dict Pandas.value),
    NoDup post ->
    (forall k, In k post -> ~ In k (Py.dict_keys d)) ->
    List.length values <= List.length post ->
    record_metrics (pre ++ post) (List.length pre) values d
    = Ok (d ++ combine post (map Pandas.VNum values)).
Proof.
  induction values as [| v rest IH]; intros pre post d Hnodup Hfresh Hlen.
  - simpl. destruct post; rewrite app_nil_r; reflexivity.
  - destruct post as [| m post']; [simpl in Hlen; lia |].
    cbn [record_metrics].
    rewrite nth_error_app2 by lia. rewrite Nat.sub_diag. cbn [nth_error].
    rewrite dict_set_fresh by (apply Hfresh; left; reflexivity).
    inversion Hnodup as [| ? ? Hm Hpost']; subst.
    replace (pre ++ m :: post') with ((pre ++ [m]) ++ post')
      by (rewrite <- app_assoc; reflexivity).
    replace (S (List.length pre)) with (List.length (pre ++ [m]))
      by (rewrite length_app; simpl; lia).
    rewrite IH.
    + rewrite <- app_assoc. reflexivity.
    + exact Hpost'.
    + intros k Hk Hin. unfold Py.dict_keys in Hin.
      rewrite map_app, in_app_iff in Hin. destruct Hin as [Hin | [<- | []]].
      * apply (Hfresh k); [right; exact Hk | exact Hin].
      * apply Hm. exact Hk.
    + simpl in Hlen. lia.
Qed.

Lemma map_fst_combine {A B : Type} (l : list A) (l' : list B) :
  List.length l = List.length l' -> map fst (combine l l') = l.
Proof.
  revert l'. induction l as [| x l IH]; intros [| y l'] H; simpl in *;
    try discriminate; [reflexivity |].
  rewrite IH by lia. reflexivity.
Qed.

Lemma map_snd_combine {A B C : Type} (f : B -> C) (l : list A) (l' : list B) :
  List.length l = List.length l' ->
  map (fun kv => f (snd kv)) (combine l l') = map f l'.
Proof.
  revert l'. induction l as [| x l IH]; intros [| y l'] H; simpl in *;
    try discriminate; [reflexivity |].
  rewrite IH by lia. reflexivity.
Qed.

Lemma map_combine_snd {A B C : Type} (f : B -> C) (l : list A) (l' : list B) :
  map (fun r => (fst r, f (snd r))) (combine l l') = combine l (map f l').
Proof.
  revert l'. induction l as [| x l IH]; intros [| y l']; simpl;
    try reflexivity.
  rewrite IH. reflexivity.
Qed.

Lemma flat_map_head {A B : Type} (f : A -> list B) (x : A) (l : list A) :
  flat_map f (x :: l) = f x ++ flat_map f l.
Proof. reflexivity. Qed.

Lemma length_flat_map_map {A B C : Type} (g : A -> B -> C) (h : A -> list B)
    (l : list A) :
  List.length (flat_map (fun x => map (g x) (h x)) l)
  = list_sum (map (fun x => List.length (h x)) l).
Proof.
  induction l as [| x l IH]; simpl; [reflexivity |].
  rewrite length_app, length_map, IH. reflexivity.
Qed.

Lemma reindex_same (cols : list string) :
  NoDup cols ->
  forall cells, List.length cells = List.length cols ->
                Pandas.reindex cols cols cells = cells.
Proof.
  unfold Pandas.reindex. induction cols as [| c cols IH]; intros Hnodup cells Hlen.
  - destruct cells; [reflexivity | discriminate].
  - destruct cells as [| x cells]; [discriminate |].
    inversion Hnodup as [| ? ? Hc Hcols]; subst.
    cbn [map Pandas.row_get]. rewrite String.eqb_refl. f_equal.
    transitivity (map (Pandas.row_get cols cells) cols).
    + apply map_ext_in. intros c' Hc'.
      destruct (String.eqb_spec c' c) as [-> | _]; [contradiction | reflexivity].
    + apply IH; [exact Hcols | simpl in Hlen; lia].
Qed.

Lemma drop_cells_none (names cols : list string) :
  (forall c, In c cols -> ~ In c names) ->
  forall cells, List.length cells = List.length cols ->
                Pandas.drop_cells names cols cells = cells.
Proof.
  induction cols as [| c cols IH]; intros Hnot cells Hlen.
  - destruct cells; [reflexivity | discriminate].
  - destruct cells as [| x cells]; [discriminate |].
    cbn [Pandas.drop_cells].
    rewrite (proj2 (isin_false c names) (Hnot c (or_introl eq_refl))).
    rewrite IH; [reflexivity | | simpl in Hlen; lia].
    intros c' Hc'. apply Hnot. right. exact Hc'.
Qed.

(** Appending a one-row frame over the columns [cols] to nothing or to a
    frame over the same columns. *)
Lemma append_same_columns (cols : list string) (df : Pandas.DataFrame)
    (cells : list Pandas.cell) :
  NoDup cols ->
  df = Pandas.empty \/ Pandas.df_columns df = cols ->
  Forall (fun r => List.length (snd r) = List.length cols) (Pandas.df_rows df) ->
  List.length cells = List.length cols ->
  Pandas.append df (Pandas.mkDataFrame cols [(0, cells)])
  = Pandas.mkDataFrame cols (Pandas.df_rows df ++ [(0, cells)]).
Proof.
  intros Hnodup Hdf Hrows Hcells. unfold Pandas.append, Pandas.has_column.
  cbn [Pandas.df_columns Pandas.df_rows map].
  destruct Hdf as [-> | Hcols].
  - cbn [Pandas.empty Pandas.df_columns Pandas.df_rows map app Py.isin existsb
         negb snd fst].
    rewrite filter_all by reflexivity.
    rewrite reindex_same by assumption. reflexivity.
  - rewrite Hcols. rewrite filter_none.
    2: { intros c Hc. apply negb_false_iff. apply isin_true. exact Hc. }
    rewrite app_nil_r. cbn [fst snd]. rewrite reindex_same by assumption.
    f_equal. f_equal.
    rewrite <- (map_id (Pandas.df_rows df)) at 2.
    apply map_ext_in. intros [l cs] Hin. cbn [fst snd].
    rewrite reindex_same; [reflexivity | exact Hnodup |].
    rewrite Forall_forall in Hrows. apply (Hrows (l, cs) Hin).
Qed.

Section CollectedFrame.

Variable mets : list string.
Variable dim : string.
Hypothesis names_distinct : NoDup ("item_id" :: dim :: mets).

Lemma collected_columns_facts :
  dim <> "item_id" /\ ~ In "item_id" mets /\ ~ In dim mets /\ NoDup mets.
Proof.
  inversion names_distinct as [| ? ? Hkey Hrest]; subst.
  inversion Hrest as [| ? ? Hdim Hmets]; subst.
  repeat split; auto.
  - intros ->. apply Hkey. left. reflexivity.
  - intros H. apply Hkey. right. exact H.
Qed.

Lemma row_record_exact (item : string) (row : ReportRow) :
  List.length (data row) <= List.length mets ->
  row_record mets dim item row
  = Ok (("item_id", Pandas.VStr item) :: (dim, Pandas.VStr (value row))
          :: combine mets (map Pandas.VNum (data row))).
Proof.
  intros Hlen. destruct collected_columns_facts as [Hdim [Hkey [Hdm Hnodup]]].
  unfold row_record. cbn [Py.dict_set].
  rewrite (proj2 (String.eqb_neq _ _) Hdim).
  rewrite (record_metrics_exact (data row) [] mets); auto.
  intros k Hk [<- | [<- | []]]; auto.
Qed.

Lemma from_dict_row_record (item : string) (row : ReportRow) :
  List.length (data row) = List.length mets ->
  exists d,
    row_record mets dim item row = Ok d
    /\ Pandas.from_dict d
       = Pandas.mkDataFrame ("item_id" :: dim :: mets)
           [(0, Some (Pandas.VStr item) :: drill_cells row)].
Proof.
  intros Hlen. eexists. split; [apply row_record_exact; lia |].
  unfold Pandas.from_dict, Py.dict_keys, drill_cells. cbn [map fst snd].
  rewrite map_fst_combine by (rewrite length_map; lia).
  rewrite (map_snd_combine (fun v => Some v)) by (rewrite length_map; lia).
  rewrite map_map. reflexivity.
Qed.

Lemma stage2_rows_exact (item : string) (rs : list ReportRow) :
  forall data_df,
    collected mets dim data_df ->
    (forall row, In row rs -> List.length (data row) = List.length mets) ->
    exists data_df',
      stage2_rows mets dim item rs data_df = Ok data_df'
      /\ collected mets dim data_df'
      /\ Pandas.df_rows data_df' = Pandas.df_rows data_df ++ item_block item rs
      /\ (rs <> [] -> Pandas.df_columns data_df' = "item_id" :: dim :: mets).
Proof.
  induction rs as [| row rest IH]; intros data_df Hdf Hlen.
  - exists data_df. repeat split; try apply Hdf.
    + simpl. rewrite app_nil_r. reflexivity.
    + intros H. contradiction.
  - destruct (from_dict_row_record item row) as [d [Hrec Hframe]];
      [apply Hlen; left; reflexivity |].
    cbn [stage2_rows]. rewrite Hrec, Hframe.
    destruct Hdf as [Hcols Hrows].
    rewrite append_same_columns; auto.
    2: { unfold drill_cells. simpl. rewrite length_map.
         rewrite (Hlen row (or_introl eq_refl)). reflexivity. }
    destruct (IH (Pandas.mkDataFrame ("item_id" :: dim :: mets)
                    (Pandas.df_rows data_df
                       ++ [(0, Some (Pandas.VStr item) :: drill_cells row)])))
      as [df' [Hrun [Hcollected [Hrows' Hcols']]]].
    + split; [right; reflexivity |]. cbn [Pandas.df_rows].
      apply Forall_app. split; [exact Hrows |]. constructor; [| constructor].
      unfold drill_cells. simpl. rewrite length_map.
      rewrite (Hlen row (or_introl eq_refl)). reflexivity.
    + intros r Hr. apply Hlen. right. exact Hr.
    + exists df'. split; [exact Hrun |]. split; [exact Hcollected |].
      split.
      * rewrite Hrows'. cbn [Pandas.df_rows item_block map].
        rewrite <- app_assoc. reflexivity.
      * intros _. destruct rest as [| r' rest'].
        -- simpl in Hrun. inversion Hrun; subst. reflexivity.
        -- apply Hcols'. discriminate.
Qed.

End CollectedFrame.

Lemma item_block_key (mets : list string) (dim item : string)
    (found : list ReportRow) r :
  In r (item_block item found) ->
  Pandas.row_get ("item_id" :: dim :: mets) (snd r) "item_id"
  = Some (Pandas.VStr item).
Proof.
  unfold item_block. intros Hr. apply in_map_iff in Hr.
  destruct Hr as [r2 [<- _]]. reflexivity.
Qed.

Lemma filter_blocks_notin (mets : list string) (dim : string)
    (found : string -> list ReportRow) (ids : list string) (id : string) :
  ~ In id ids ->
  filter (fun r => Pandas.cell_eqb
                     (Pandas.row_get ("item_id" :: dim :: mets) (snd r) "item_id")
                     (Some (Pandas.VStr id)))
    (flat_map (fun item => item_block item (found item)) ids) = [].
Proof.
  intros Hnot. apply filter_none. intros r Hr. apply in_flat_map in Hr.
  destruct Hr as [item [Hitem Hr]].
  rewrite (item_block_key mets dim item (found item) r Hr). simpl.
  apply String.eqb_neq. intros ->. contradiction.
Qed.

Lemma filter_blocks (mets : list string) (dim : string)
    (found : string -> list ReportRow) (ids : list string) (id : string) :
  NoDup ids -> In id ids ->
  filter (fun r => Pandas.cell_eqb
                     (Pandas.row_get ("item_id" :: dim :: mets) (snd r) "item_id")
                     (Some (Pandas.VStr id)))
    (flat_map (fun item => item_block item (found item)) ids)
  = item_block id (found id).
Proof.
  induction ids as [| a ids IH]; intros Hnodup Hin; [contradiction |].
  inversion Hnodup as [| ? ? Ha Hids]; subst.
  cbn [flat_map]. rewrite filter_app.
  destruct (String.eqb_spec a id) as [-> | Hne].
  - rewrite filter_all.
    + rewrite filter_blocks_notin by exact Ha. apply app_nil_r.
    + intros r Hr. rewrite (item_block_key mets dim id (found id) r Hr).
      simpl. apply String.eqb_refl.
  - rewrite filter_none.
    + destruct Hin as [H | H]; [contradiction |]. apply IH; assumption.
    + intros r Hr. rewrite (item_block_key mets dim a (found a) r Hr).
      simpl. apply String.eqb_neq. exact Hne.
Qed.

Section FullTable.

Variable api : ReportBody -> Response.
Variables yesterday today : string.
Variable mets segments : list string.
Variable query : Py.dict string.
Variables sd ed : option string.
Variable lim : Z.
Variables d1 d2 : string.
Hypothesis names_distinct : NoDup ("item_id" :: d1 :: d2 :: mets).

Lemma full_table_names :
  NoDup ("item_id" :: d2 :: mets)
  /\ d1 <> "item_id" /\ d1 <> d2 /\ ~ In d1 mets /\ d2 <> "item_id"
  /\ ~ In "item_id" mets.
Proof.
  inversion names_distinct as [| ? ? Hkey Hrest]; subst.
  inversion Hrest as [| ? ? Hd1 Hrest']; subst.
  inversion Hrest' as [| ? ? Hd2 Hmets]; subst.
  repeat split.
  - constructor; [| exact Hrest'].
    intros H. apply Hkey. right. exact H.
  - intros ->. apply Hkey. left. reflexivity.
  - intros ->. apply Hd1. left. reflexivity.
  - intros H. apply Hd1. right. exact H.
  - intros ->. apply Hkey. right. left. reflexivity.
  - intros H. apply Hkey. right. right. exact H.
Qed.

Lemma stage2_items_exact (bd : string) :
  let body item :=
    report_body mets (Some d2) segments (Some bd) (Some item)
      (date_range yesterday today sd ed) 50 query in
  forall ids data_df,
    collected mets d2 data_df ->
    (forall item, In item ids ->
       rows (api (body item)) <> []
       /\ forall row, In row (rows (api (body item))) ->
                      List.length (data row) = List.length mets) ->
    exists data_df',
      stage2_items api yesterday today mets segments (Some query) sd ed
        d2 bd ids data_df = (Ok data_df', map body ids)
      /\ collected mets d2 data_df'
      /\ Pandas.df_rows data_df'
         = Pandas.df_rows data_df
             ++ flat_map (fun item => item_block item (rows (api (body item))))
                  ids
      /\ (ids <> [] -> Pandas.df_columns data_df' = "item_id" :: d2 :: mets).
Proof.
  intros body. destruct full_table_names as [Hnames _].
  induction ids as [| item rest IH]; intros data_df Hdf Hok.
  - exists data_df. repeat split; try apply Hdf.
    + simpl. rewrite app_nil_r. reflexivity.
    + intros H. contradiction.
  - destruct (Hok item (or_introl eq_refl)) as [Hrows Hfit].
    destruct (stage2_rows_exact mets d2 Hnames item (rows (api (body item)))
                data_df Hdf Hfit)
      as [df1 [Hrun1 [Hcol1 [Hrows1 Hcols1]]]].
    destruct (IH df1 Hcol1) as [df' [Hrun [Hcol [Hrows' Hcols']]]].
    { intros i Hi. apply Hok. right. exact Hi. }
    exists df'. split; [| split; [exact Hcol | split]].
    + cbn [stage2_items]. rewrite get_report_some. fold (body item).
      rewrite bind_post_log.
      destruct (Nat.eqb_spec (List.length (rows (api (body item)))) 0)
        as [Hz | _].
      { destruct (rows (api (body item))); [contradiction | discriminate]. }
      rewrite Hrun1, bind_lift_ok, Hrun. reflexivity.
    + rewrite Hrows', Hrows1. cbn [flat_map]. rewrite <- app_assoc.
      reflexivity.
    + intros _. destruct rest as [| i' rest'].
      * simpl in Hrun. inversion Hrun; subst. apply Hcols1. exact Hrows.
      * apply Hcols'. discriminate.
Qed.

Lemma merge_exact (L R : list (nat * list Pandas.cell)) :
  Pandas.merge (Pandas.mkDataFrame ["item_id"; d1] L)
    (Pandas.mkDataFrame ("item_id" :: d2 :: mets) R) "item_id"
  = Ok (Pandas.mkDataFrame ("item_id" :: d1 :: d2 :: mets)
          (combine
             (seq 0 (List.length
                       (flat_map
                          (joined_with d1
                             (Pandas.mkDataFrame ("item_id" :: d2 :: mets) R))
                          L)))
             (flat_map
                (joined_with d1
                   (Pandas.mkDataFrame ("item_id" :: d2 :: mets) R))
                L))).
Proof.
  destruct full_table_names as [_ [Hd1 [Hd12 [Hd1m [Hd2 Hkm]]]]].
  unfold Pandas.merge, Pandas.has_column.
  cbn [Pandas.df_columns Pandas.df_rows Py.isin existsb String.eqb Ascii.eqb
       Bool.eqb andb orb].
  f_equal. f_equal.
  cbn [map negb filter]. unfold Pandas.suffixed at 1 2.
  cbn [String.eqb Ascii.eqb Bool.eqb andb orb negb].
  assert (Hisin : Py.isin d1 ("item_id" :: d2 :: mets) = false).
  { apply isin_false. intros [H | [H | H]]; auto. }
  rewrite Hisin, andb_false_r.
  change (map (Pandas.suffixed ["item_id"; d1] "item_id" "_y")
            (filter (fun c => negb (Py.isin c ["item_id"])) (d2 :: mets)))
    with (map (Pandas.suffixed ["item_id"; d1] "item_id" "_y")
            (filter (fun c => negb (Py.isin c ["item_id"])) (d2 :: mets))).
  assert (Hkeep : filter (fun c => negb (Py.isin c ["item_id"])) (d2 :: mets)
                  = d2 :: mets).
  { apply filter_all. intros c Hc. apply negb_true_iff. apply isin_false.
    intros [<- | []]. destruct Hc as [H | H]; auto. }
  assert (Hsame : map (Pandas.suffixed ["item_id"; d1] "item_id" "_y")
                    (d2 :: mets) = d2 :: mets).
  { rewrite <- (map_id (d2 :: mets)) at 2. apply map_ext_in. intros c Hc.
    unfold Pandas.suffixed.
    assert (Hno : Py.isin c ["item_id"; d1] = false).
    { apply isin_false. intros [<- | [<- | []]];
        destruct Hc as [H | H]; auto. }
    rewrite Hno, andb_false_r. reflexivity. }
  unfold Py.isin in Hkeep. cbn [existsb] in Hkeep.
  cbn [app]. f_equal. f_equal.
  etransitivity; [| exact Hsame]. f_equal.
  etransitivity; [| exact Hkeep]. reflexivity.
Qed.

Lemma drop_exact (rows_ : list (nat * list Pandas.cell)) :
  Pandas.drop (Pandas.mkDataFrame ("item_id" :: d1 :: d2 :: mets) rows_)
    ["item_id"]
  = Ok (Pandas.mkDataFrame (d1 :: d2 :: mets)
          (map (fun r =>
                  (fst r,
                   Pandas.drop_cells ["item_id"]
                     ("item_id" :: d1 :: d2 :: mets) (snd r)))
             rows_)).
Proof.
  inversion names_distinct as [| ? ? Hkey _]; subst.
  unfold Pandas.drop, Pandas.has_column.
  cbn [Pandas.df_columns Pandas.df_rows].
  replace (filter (fun c => negb (Py.isin c ("item_id" :: d1 :: d2 :: mets)))
             ["item_id"])
    with (@nil string) by reflexivity.
  replace (filter (fun c => negb (Py.isin c ["item_id"]))
             ("item_id" :: d1 :: d2 :: mets))
    with (filter (fun c => negb (Py.isin c ["item_id"])) (d1 :: d2 :: mets))
    by reflexivity.
  rewrite filter_all; [reflexivity |].
  intros c Hc. apply negb_true_iff. apply isin_false.
  intros [<- | []]. apply Hkey. exact Hc.
Qed.

Lemma joined_with_block (found : string -> list ReportRow)
    (ids : list string) (j : nat) (id v : string) :
  NoDup ids -> In id ids ->
  (forall r2, In r2 (found id) -> List.length (data r2) = List.length mets) ->
  joined_with d1
    (Pandas.mkDataFrame ("item_id" :: d2 :: mets)
       (flat_map (fun item => item_block item (found item)) ids))
    (j, [Some (Pandas.VStr id); Some (Pandas.VStr v)])
  = map (fun r2 => Some (Pandas.VStr id) :: Some (Pandas.VStr v)
                     :: drill_cells r2)
      (found id).
Proof.
  intros Hnodup Hin Hfit.
  destruct full_table_names as [_ [_ [_ [_ [Hd2 Hkm]]]]].
  unfold joined_with.
  cbn [Pandas.df_columns Pandas.df_rows snd].
  change (Pandas.row_get ["item_id"; d1]
            [Some (Pandas.VStr id); Some (Pandas.VStr v)] "item_id")
    with (Some (Pandas.VStr id)).
  rewrite (filter_blocks mets d2 found ids id Hnodup Hin).
  unfold item_block. rewrite map_map. apply map_ext_in. intros r2 Hr2.
  cbn [snd app]. f_equal. f_equal.
  change (Pandas.drop_cells ["item_id"] ("item_id" :: d2 :: mets)
            (Some (Pandas.VStr id) :: drill_cells r2))
    with (Pandas.drop_cells ["item_id"] (d2 :: mets) (drill_cells r2)).
  apply drop_cells_none.
  - intros c Hc [<- | []]. destruct Hc as [H | H]; auto.
  - unfold drill_cells. simpl. rewrite length_map, (Hfit r2 Hr2). reflexivity.
Qed.

Lemma joined_rows (found : string -> list ReportRow) (ids : list string)
    (rs : list ReportRow) :
  NoDup ids ->
  (forall row, In row rs ->
     In (itemId row) ids
     /\ forall r2, In r2 (found (itemId row)) ->
                   List.length (data r2) = List.length mets) ->
  forall j,
    flat_map
      (joined_with d1
         (Pandas.mkDataFrame ("item_id" :: d2 :: mets)
            (flat_map (fun item => item_block item (found item)) ids)))
      (stage1_table_rows j rs)
    = flat_map
        (fun row =>
           map (fun r2 => Some (Pandas.VStr (itemId row))
                            :: Some (Pandas.VStr (value row)) :: drill_cells r2)
             (found (itemId row)))
        rs.
Proof.
  intros Hnodup. induction rs as [| row rest IH]; intros Hrs j; [reflexivity |].
  cbn [stage1_table_rows flat_map].
  destruct (Hrs row (or_introl eq_refl)) as [Hin Hfit].
  rewrite (joined_with_block found ids j _ _ Hnodup Hin Hfit).
  rewrite IH; [reflexivity |].
  intros r Hr. apply Hrs. right. exact Hr.
Qed.

Lemma dropped_rows (found : string -> list ReportRow) (rs : list ReportRow) :
  (forall row r2, In row rs -> In r2 (found (itemId row)) ->
                  List.length (data r2) = List.length mets) ->
  map (Pandas.drop_cells ["item_id"] ("item_id" :: d1 :: d2 :: mets))
    (flat_map
       (fun row =>
          map (fun r2 => Some (Pandas.VStr (itemId row))
                           :: Some (Pandas.VStr (value row)) :: drill_cells r2)
            (found (itemId row)))
       rs)
  = flat_map
      (fun row =>
         map (fun r2 => Some (Pandas.VStr (value row)) :: drill_cells r2)
           (found (itemId row)))
      rs.
Proof.
  inversion names_distinct as [| ? ? Hkey _]; subst.
  intros Hfit. induction rs as [| row rest IH]; [reflexivity |].
  rewrite !flat_map_head, map_app. f_equal.
  2: { apply IH. intros r r2 Hr. apply Hfit. right. exact Hr. }
  rewrite map_map. apply map_ext_in. intros r2 Hr2.
  change (Pandas.drop_cells ["item_id"] ("item_id" :: d1 :: d2 :: mets)
            (Some (Pandas.VStr (itemId row))
               :: Some (Pandas.VStr (value row)) :: drill_cells r2))
    with (Pandas.drop_cells ["item_id"] (d1 :: d2 :: mets)
            (Some (Pandas.VStr (value row)) :: drill_cells r2)).
  apply drop_cells_none.
  - intros c Hc [<- | []]. apply Hkey. exact Hc.
  - unfold drill_cells. simpl. rewrite length_map.
    rewrite (Hfit row r2 (or_introl eq_refl) Hr2). reflexivity.
Qed.

(** The run on two dimensions whose names are distinct, when the first
    answer has rows, no item id twice, and every drill-down finds rows with
    one data value per metric. *)
Lemma full_table_run :
  mets <> [] -> List.length segments <= 1 ->
  let b1 := stage1_body yesterday today mets segments query sd ed lim d1 in
  let b2 row :=
    stage2_body api yesterday today mets segments query sd ed d1 d2 lim
      (itemId row) in
  rows (api b1) <> [] ->
  NoDup (map itemId (rows (api b1))) ->
  (forall row, In row (rows (api b1)) ->
     rows (api (b2 row)) <> []
     /\ forall r2, In r2 (rows (api (b2 row))) ->
                   List.length (data r2) = List.length mets) ->
  let cells :=
    flat_map
      (fun row =>
         map (fun r2 => Some (Pandas.VStr (value row)) :: drill_cells r2)
           (rows (api (b2 row))))
      (rows (api b1)) in
  get_freeform_report api yesterday today mets segments (Some query)
    sd ed lim [d1; d2]
  = (Ok (Pandas.mkDataFrame (d1 :: d2 :: mets)
           (combine (seq 0 (List.length cells)) cells)),
     b1 :: map b2 (rows (api b1))).
Proof.
  intros Hmets Hsegs b1 b2 Hrows Hnodup Hdrill cells.
  destruct full_table_names as [_ [Hd1 _]].
  rewrite freeform_two_dimensions_run by assumption. cbv zeta. fold b1.
  set (body := fun item =>
         report_body mets (Some d2) segments (Some (dimension_id (api b1)))
           (Some item) (date_range yesterday today sd ed) 50 query).
  set (found := fun item => rows (api (body item))).
  assert (Hb2 : forall row, rows (api (b2 row)) = found (itemId row))
    by reflexivity.
  destruct (stage2_items_exact (dimension_id (api b1))
              (map itemId (rows (api b1))) Pandas.empty)
    as [data_df [Hrun [_ [Hdf_rows Hdf_cols]]]].
  { split; [left; reflexivity | constructor]. }
  { intros item Hitem. apply in_map_iff in Hitem.
    destruct Hitem as [row [<- Hrow]]. apply (Hdrill row Hrow). }
  fold body in Hrun, Hdf_rows. rewrite Hrun.
  rewrite (stage1_rows_from_empty d1 Hd1 _ Hrows).
  destruct data_df as [cols R]. cbn [Pandas.df_columns Pandas.df_rows] in *.
  rewrite Hdf_cols.
  2: { destruct (rows (api b1)); [contradiction | discriminate]. }
  rewrite merge_exact, drop_exact. f_equal; [| rewrite map_map; reflexivity].
  f_equal. f_equal. rewrite map_combine_snd.
  cbn [Pandas.empty Pandas.df_rows app] in Hdf_rows. rewrite Hdf_rows.
  fold found.
  change (flat_map (fun item => item_block item (rows (api (body item))))
            (map itemId (rows (api b1))))
    with (flat_map (fun item => item_block item (found item))
            (map itemId (rows (api b1)))).
  rewrite (joined_rows found (map itemId (rows (api b1))) (rows (api b1))
             Hnodup).
  2: { intros row Hrow. split; [apply in_map; exact Hrow |].
       intros r2 Hr2. apply (Hdrill row Hrow). exact Hr2. }
  rewrite (dropped_rows found (rows (api b1))).
  2: { intros row r2 Hrow Hr2. apply (Hdrill row Hrow). exact Hr2. }
  f_equal. f_equal.
  etransitivity; [apply length_flat_map_map |].
  symmetry. apply (length_flat_map_map
                     (fun row r2 => Some (Pandas.VStr (value row))
                                      :: drill_cells r2)).
Qed.

End FullTable.

(** X15. Take a request for two dimensions, with a search-query dict and
    explicit start and end dates, whose names [item_id], first dimension,
    second dimension and metrics are pairwise distinct.  If the first answer
    lists at least one item and no item id twice, and every drill-down finds
    rows with exactly one data value per metric, each a 64-bit integer, then
    the assembler POSTs the first request and one drill-down per item, and
    the table returned has the columns first dimension, second dimension,
    metrics; its rows, labelled from 0, are, for each first-level row in
    order and each row its drill-down found in order: the first-level value,
    the drill-down value, the data values. *)
Theorem two_dimension_table (api : ReportBody -> Response)
    (yesterday today : string) mets segments query
    (start_date end_date : string) lim d1 d2 :
  NoDup ("item_id" :: d1 :: d2 :: mets) ->
  mets <> [] -> List.length segments <= 1 ->
  let sd := Some start_date in
  let ed := Some end_date in
  let b1 := stage1_body yesterday today mets segments query sd ed lim d1 in
  let b2 row :=
    stage2_body api yesterday today mets segments query sd ed d1 d2 lim
      (itemId row) in
  rows (api b1) <> [] ->
  NoDup (map itemId (rows (api b1))) ->
  (forall row, In row (rows (api b1)) ->
     rows (api (b2 row)) <> []
     /\ forall r2, In r2 (rows (api (b2 row))) ->
                   List.length (data r2) = List.length mets
                   /\ Forall (fun x => int64 x = true) (data r2)) ->
  let cells :=
    flat_map
      (fun row =>
         map (fun r2 => Some (Pandas.VStr (value row)) :: drill_cells r2)
           (rows (api (b2 row))))
      (rows (api b1)) in
  get_freeform_report api yesterday today mets segments (Some query)
    sd ed lim [d1; d2]
  = (Ok (Pandas.mkDataFrame (d1 :: d2 :: mets)
           (combine (seq 0 (List.length cells)) cells)),
     b1 :: map b2 (rows (api b1))).
Proof.
  intros Hnames Hmets Hsegs sd ed b1 b2 Hrows Hnodup Hdrill cells.
  apply (full_table_run api yesterday today mets segments query
           sd ed lim d1 d2 Hnames Hmets Hsegs Hrows Hnodup).
  intros row Hrow. destruct (Hdrill row Hrow) as [Hfound Hfit].
  split; [exact Hfound |]. intros r2 Hr2. apply (Hfit r2 Hr2).
Qed.


(** ** Instances of the further properties *)

Lemma drilldowns_follow_item_order_witness :
  snd (Sample.freeform MoreSamples.api_wide ["visits"] ["page"; "browser"]
         (Some []) 10)
  = [ stage1_body "2023-12-31" "2024-01-01" ["visits"] [] []
        (Some "2024-01-01") (Some "2024-01-02") 10 "page";
      stage2_body MoreSamples.api_wide "2023-12-31" "2024-01-01" ["visits"]
        [] [] (Some "2024-01-01") (Some "2024-01-02") "page" "browser" 10
        "1" ].
Proof.
  refine (eq_trans
            (proj1 (drilldowns_follow_item_order MoreSamples.api_wide
                      "2023-12-31" "2024-01-01" ["visits"] [] []
                      "2024-01-01" "2024-01-02" 10 "page" "browser" _ _))
            _).
  - discriminate.
  - simpl. lia.
  - reflexivity.
Defined.

Lemma every_request_carries_the_call_witness :
  In (stage1_body "2023-12-31" "2024-01-01" ["visits"] [] []
        (Some "2024-01-01") (Some "2024-01-02") 10 "page")
    (snd (Sample.freeform Sample.api ["visits"] ["page"; "browser"]
            (Some []) 10))
  /\ map metric_id
       (metrics
          (metricContainer
             (stage1_body "2023-12-31" "2024-01-01" ["visits"] [] []
                (Some "2024-01-01") (Some "2024-01-02") 10 "page")))
     = ["visits"].
Proof.
  assert (Hin :
    In (stage1_body "2023-12-31" "2024-01-01" ["visits"] [] []
          (Some "2024-01-01") (Some "2024-01-02") 10 "page")
      (snd (Sample.freeform Sample.api ["visits"] ["page"; "browser"]
              (Some []) 10))).
  { left. reflexivity. }
  split; [exact Hin |].
  exact (proj1 (proj2 (proj2 (proj2
           (every_request_carries_the_call Sample.api "2023-12-31"
              "2024-01-01" ["visits"] [] (Some []) (Some "2024-01-01")
              (Some "2024-01-02") 10 ["page"; "browser"] _ Hin))))).
Defined.

Lemma empty_answer_raises_key_error_witness :
  get_freeform_report MoreSamples.api_nothing "2023-12-31" "2024-01-01"
    ["visits"] [] (Some []) None None 50 ["page"]
  = (Raise (KeyError "['item_id'] not found in axis"),
     [stage1_body "2023-12-31" "2024-01-01" ["visits"] [] [] None None 50
        "page"])
  /\ get_freeform_report MoreSamples.api_nothing "2023-12-31" "2024-01-01"
       ["visits"] [] (Some []) None None 50 ["page"; "browser"]
     = (Raise (KeyError "item_id"),
        [stage1_body "2023-12-31" "2024-01-01" ["visits"] [] [] None None 50
           "page"]).
Proof.
  apply (empty_answer_raises_key_error MoreSamples.api_nothing "2023-12-31"
           "2024-01-01" ["visits"] [] [] None None 50 "page" "browser").
  - discriminate.
  - simpl. lia.
  - reflexivity.
Defined.

Lemma overlong_data_raises_index_error_witness :
  fst (get_freeform_report MoreSamples.api_wide "2023-12-31" "2024-01-01"
         ["visits"] [] (Some []) None None 50 ["page"; "browser"])
  = Raise (IndexError "list index out of range").
Proof.
  apply (overlong_data_raises_index_error MoreSamples.api_wide "2023-12-31"
           "2024-01-01" ["visits"] [] [] None None 50 "page" "browser").
  - discriminate.
  - simpl. lia.
  - intros row _. discriminate.
  - exists (mkReportRow "1" "home" [10%Z]), (mkReportRow "11" "chrome" [7%Z; 8%Z]).
    split; [left; reflexivity |]. split; [left; reflexivity |]. simpl. lia.
Defined.

Lemma one_dimension_table_witness :
  get_freeform_report Sample.api "2023-12-31" "2024-01-01"
    ["visits"] [] (Some []) None None 50 ["page"]
  = (Ok (Pandas.mkDataFrame ["page"]
           [(0, [Some (Pandas.VStr "home")]); (1, [Some (Pandas.VStr "about")])]),
     [stage1_body "2023-12-31" "2024-01-01" ["visits"] [] [] None None 50
        "page"]).
Proof.
  apply (one_dimension_table Sample.api "2023-12-31" "2024-01-01"
           ["visits"] [] [] None None 50 "page").
  - discriminate.
  - simpl. lia.
  - discriminate.
  - discriminate.
Defined.

Lemma two_dimension_table_witness :
  fst (Sample.freeform Sample.api ["visits"] ["page"; "browser"] (Some []) 50)
  = Ok (Pandas.mkDataFrame ["page"; "browser"; "visits"]
          [(0, [Some (Pandas.VStr "home"); Some (Pandas.VStr "chrome");
                Some (Pandas.VNum 7)]);
           (1, [Some (Pandas.VStr "home"); Some (Pandas.VStr "firefox");
                Some (Pandas.VNum 3)]);
           (2, [Some (Pandas.VStr "about"); Some (Pandas.VStr "chrome");
                Some (Pandas.VNum 5)])]).
Proof.
  assert (Hnames : NoDup ["item_id"; "page"; "browser"; "visits"]).
  { repeat constructor; simpl; intuition discriminate. }
  assert (Hids : NoDup (map itemId Sample.pages)).
  { repeat constructor; simpl; intuition discriminate. }
  refine (f_equal fst
            (two_dimension_table Sample.api "2023-12-31" "2024-01-01"
               ["visits"] [] [] "2024-01-01" "2024-01-02" 50 "page" "browser"
               Hnames _ _ _ Hids _)).
  - discriminate.
  - simpl. lia.
  - discriminate.
  - intros row [<- | [<- | []]].
    + split; [discriminate |].
      intros r2 [<- | [<- | []]]; split;
        try reflexivity; repeat constructor.
    + split; [discriminate |].
      intros r2 [<- | []]; split; try reflexivity; repeat constructor.
Defined.


(** ** The session *)

Section SessionFacts.

Import Session.

(** X17. The discovery answer yields a company id exactly when it is a
    dict whose [imsOrgs] is a list that starts with a dict whose
    [companies] is a list that starts with a dict; the id is then what that
    first company holds under [globalCompanyId] ([None] if nothing), and
    further organisations and companies play no part. *)
Theorem first_company_id_shape (response v : json) :
  first_company_id response = Return v <->
  exists fields org orgs company companies,
    response = JObj fields
    /\ Py.dict_get fields "imsOrgs" = Some (JList (JObj org :: orgs))
    /\ Py.dict_get org "companies" = Some (JList (JObj company :: companies))
    /\ v = match Py.dict_get company "globalCompanyId" with
           | Some id => id
           | None => JNull
           end.
Proof.
  split.
  - unfold first_company_id.
    destruct response as [| | | | | fields]; try discriminate.
    cbn [get and_then].
    destruct (Py.dict_get fields "imsOrgs") as [orgs_value |] eqn:Horgs;
      [| discriminate].
    destruct orgs_value as [| | | s | [| org orgs] | ]; try discriminate.
    { destruct s; discriminate. }
    cbn [first and_then].
    destruct org as [| | | | | org]; try discriminate.
    cbn [get and_then].
    destruct (Py.dict_get org "companies") as [companies_value |] eqn:Hcomp;
      [| discriminate].
    destruct companies_value as [| | | s | [| company companies] | ];
      try discriminate.
    { destruct s; discriminate. }
    cbn [first and_then].
    destruct company as [| | | | | company]; try discriminate.
    cbn [get]. intros H. inversion H; subst.
    exists fields, org, orgs, company, companies. auto.
  - intros [fields [org [orgs [company [companies [-> [Horgs [Hcomp ->]]]]]]]].
    unfold first_company_id. cbn [get and_then]. rewrite Horgs.
    cbn [first and_then get]. rewrite Hcomp. reflexivity.
Qed.

(** X18. How the discovery answer fails: an answer that is no dict has no
    [get]; a dict without [imsOrgs] gives [None], which has no first
    element; an empty list of organisations, or of companies, has none
    either. *)
Theorem first_company_id_failures (response : json)
    (fields org : Py.dict json) (orgs : list json) :
  ((forall any, response <> JObj any) ->
   first_company_id response = Throw AttributeError)
  /\ (Py.dict_get fields "imsOrgs" = None ->
      first_company_id (JObj fields) = Throw TypeError)
  /\ (Py.dict_get fields "imsOrgs" = Some (JList []) ->
      first_company_id (JObj fields) = Throw IndexError)
  /\ (Py.dict_get fields "imsOrgs" = Some (JList (JObj org :: orgs)) ->
      (Py.dict_get org "companies" = None ->
       first_company_id (JObj fields) = Throw TypeError)
      /\ (Py.dict_get org "companies" = Some (JList []) ->
          first_company_id (JObj fields) = Throw IndexError)).
Proof.
  unfold first_company_id. split; [| split; [| split]].
  - intros Hno. destruct response as [| | | | | any]; try reflexivity.
    exfalso. apply (Hno any). reflexivity.
  - cbn [get and_then]. intros ->. reflexivity.
  - cbn [get and_then]. intros ->. reflexivity.
  - cbn [get and_then]. intros ->. cbn [first and_then get].
    split; intros ->; reflexivity.
Qed.

Variable config : Py.dict string.
Variable read_file : string -> outcome string.
Variable utcnow : Z.
Variable jwt_encode : Py.dict claim -> string -> outcome string.
Variable exchange : string -> Py.dict string -> json.
Variable discovery : string -> Py.dict string -> json.
Variable py_str : json -> string.

Lemma jwt_token_no_event :
  snd (_get_jwt_token config read_file utcnow jwt_encode) = [].
Proof.
  unfold _get_jwt_token, config_item, of_outcome, then_run.
  repeat match goal with
         | |- context [Py.dict_get config ?k] =>
             destruct (Py.dict_get config k); try reflexivity
         | |- context [read_file ?p] =>
             destruct (read_file p); try reflexivity
         end.
  all: try (destruct (jwt_encode _ _); reflexivity).
Qed.

Lemma jwt_token_needs_keys (k : string) :
  In k ["key_path"; "orgid"; "technicalaccountid"; "imshost"; "apikey"] ->
  Py.dict_get config k = None ->
  exists e, _get_jwt_token config read_file utcnow jwt_encode = (Throw e, []).
Proof.
  intros Hk Hnone.
  pose proof jwt_token_no_event as Hev.
  destruct (_get_jwt_token config read_file utcnow jwt_encode)
    as [[token | e] evs] eqn:Hrun; cbn [snd] in Hev; subst evs.
  2: { exists e. reflexivity. }
  exfalso. revert Hrun.
  unfold _get_jwt_token, config_item, of_outcome, then_run.
  simpl in Hk.
  destruct Hk as [<- | [<- | [<- | [<- | [<- | []]]]]];
    rewrite ?Hnone;
    repeat match goal with
           | |- context [Py.dict_get config ?k] =>
               destruct (Py.dict_get config k); try discriminate
           | |- context [read_file ?p] =>
               destruct (read_file p); try discriminate
           end;
    try discriminate.
Qed.

Lemma access_token_needs_keys (jwt_token k : string) :
  In k ["apikey"; "secret"; "imsexchange"] ->
  Py.dict_get config k = None ->
  exists e, _get_access_token config exchange jwt_token = (Throw e, []).
Proof.
  intros Hk Hnone.
  unfold _get_access_token, config_item, of_outcome, then_run, emit.
  simpl in Hk.
  destruct Hk as [<- | [<- | [<- | []]]]; rewrite ?Hnone;
    repeat match goal with
           | |- context [Py.dict_get config ?k] =>
               destruct (Py.dict_get config k) eqn:?;
               try (eexists; reflexivity); try congruence
           end;
    try (eexists; reflexivity).
Qed.

(** X19. A configuration that lacks one of the keys [key_path], [orgid],
    [technicalaccountid], [imshost], [apikey], [secret], [imsexchange]
    makes the constructor raise before it logs a line or issues a
    request. *)
Theorem missing_key_fails_before_network (k : string) :
  In k keys_before_network ->
  Py.dict_get config k = None ->
  exists e,
    init config read_file utcnow jwt_encode exchange discovery py_str
    = (Throw e, []).
Proof.
  intros Hk Hnone. unfold init.
  pose proof jwt_token_no_event as Hev.
  destruct (_get_jwt_token config read_file utcnow jwt_encode)
    as [[token | e] evs] eqn:Hjwt; cbn [snd] in Hev; subst evs.
  2: { exists e. reflexivity. }
  assert (Hexchange : In k ["apikey"; "secret"; "imsexchange"]).
  { unfold keys_before_network in Hk. simpl in Hk. simpl.
    destruct Hk as [<- | [<- | [<- | [<- | [<- | [<- | [<- | []]]]]]]]; auto;
      exfalso;
      match type of Hnone with
      | Py.dict_get config ?key = None =>
          destruct (jwt_token_needs_keys key ltac:(simpl; auto 6) Hnone)
            as [e He]
      end;
      rewrite He in Hjwt; discriminate. }
  destruct (access_token_needs_keys token k Hexchange Hnone) as [e He].
  exists e. cbn [then_run]. rewrite He. reflexivity.
Qed.

Ltac split_session_run :=
  unfold init, _get_jwt_token, _get_access_token, _get_global_company_id,
    config_item, of_outcome, then_run, emit, pure;
  repeat match goal with
         | |- context [Py.dict_get config ?k] =>
             destruct (Py.dict_get config k) eqn:?
         | |- context [read_file ?p] => destruct (read_file p) eqn:?
         | |- context [jwt_encode ?c ?p] => destruct (jwt_encode c p) eqn:?
         | |- context [item ?x ?k] => destruct (item x k) eqn:?
         | |- context [first_company_id ?x] =>
             destruct (first_company_id x) eqn:?
         end;
  cbn [fst snd app].


(** X21. Whenever the construction reaches the token exchange, the form
    it POSTs has been written to the log just before, and that form holds
    the client secret of the configuration. *)
Theorem posted_form_is_logged (url : string) (form : Py.dict string) :
  In (Post url form)
    (snd (init config read_file utcnow jwt_encode exchange discovery py_str)) ->
  In (InfoPostBody form)
    (snd (init config read_file utcnow jwt_encode exchange discovery py_str))
  /\ exists secret,
       Py.dict_get config "secret" = Some secret
       /\ Py.dict_get form "client_secret" = Some secret.
Proof.
  split_session_run; intros Hin; simpl in Hin;
    repeat match goal with
           | H : _ \/ _ |- _ => destruct H
           | H : False |- _ => destruct H
           | H : Info _ = Post _ _ |- _ => discriminate H
           | H : InfoPostBody _ = Post _ _ |- _ => discriminate H
           | H : Get _ _ = Post _ _ |- _ => discriminate H
           | H : Post _ _ = Post _ _ |- _ => inversion H; subst; clear H
           end;
    (split; [simpl; auto | eexists; split; [reflexivity | reflexivity]]).
Qed.

End SessionFacts.


Lemma first_company_id_shape_witness :
  Session.first_company_id
    (SessionSample.discovery "https://analytics.adobe.io/discovery/me" [])
  = Session.Return (Session.JStr "acme1").
Proof.
  apply (proj2 (first_company_id_shape _ _)).
  do 5 eexists. split; [reflexivity |].
  split; [reflexivity |]. split; reflexivity.
Defined.

Lemma first_company_id_failures_witness :
  Session.first_company_id
    (Session.JObj [("imsOrgs", Session.JList [])])
  = Session.Throw Session.IndexError.
Proof.
  apply (proj1 (proj2 (proj2
           (first_company_id_failures Session.JNull
              [("imsOrgs", Session.JList [])] [] [])))).
  reflexivity.
Defined.

Lemma missing_key_fails_before_network_witness :
  exists e,
    Session.init SessionSample.config_without_secret SessionSample.read_file
      1700000000 SessionSample.jwt_encode SessionSample.exchange
      SessionSample.discovery SessionSample.py_str
    = (Session.Throw e, []).
Proof.
  apply (missing_key_fails_before_network SessionSample.config_without_secret
           SessionSample.read_file 1700000000 SessionSample.jwt_encode
           SessionSample.exchange SessionSample.discovery SessionSample.py_str
           "secret").
  - unfold Session.keys_before_network. simpl. auto 8.
  - reflexivity.
Defined.


Lemma posted_form_is_logged_witness :
  exists secret,
    Py.dict_get SessionSample.config "secret" = Some secret
    /\ Py.dict_get
         [ ("client_id", "key-1"); ("client_secret", "s3cret");
           ("jwt_token", "signed.jwt") ] "client_secret"
       = Some secret.
Proof.
  apply (posted_form_is_logged SessionSample.config SessionSample.read_file
           1700000000 SessionSample.jwt_encode SessionSample.exchange
           SessionSample.discovery SessionSample.py_str
           "https://ims-na1.adobelogin.com/ims/exchange/jwt"
           [ ("client_id", "key-1"); ("client_secret", "s3cret");
             ("jwt_token", "signed.jwt") ]).
  simpl. auto.
Defined.
